(** * anyio.from_thread: the blocking portal, verified over a shallow embedding

    The development models [src/anyio/from_thread.py]:
    - [concurrent.futures.Future] objects live in a heap, with their state
      machine, result slots and done-callbacks;
    - coroutines are resumable programs ([coro]): straight-line statements
      executed on the event-loop thread between suspension points;
    - code running on an external thread is a state-and-exception monad [M]
      over the shared [world]; a blocking wait drives the event loop. *)

From Stdlib Require Import String ZArith List Bool Lia.
From stdpp Require Import base list.
Import ListNotations.
Open Scope string_scope.
Open Scope list_scope.

Set Default Proof Using "Type".

(** ** Values, exceptions *)

Abbreviation thread_id := nat (only parsing).
Abbreviation fut_id := nat (only parsing).
Abbreviation scope_id := nat (only parsing).
Abbreviation event_id := nat (only parsing).
Abbreviation cell_id := nat (only parsing).
Abbreviation cm_id := nat (only parsing).

(** The thread that hosts the event loop; every other identity is an
    external thread. *)
Definition loop_thread : thread_id := 0.

Inductive exn : Type :=
| RuntimeError (msg : string)
| AttributeError                 (* attribute access on None *)
| InvalidStateError              (* concurrent.futures.InvalidStateError *)
| CancelledError                 (* concurrent.futures.CancelledError *)
| SchedCancelled                 (* the class get_cancelled_exc_class() returns *)
| AppError (n : nat)             (* an Exception subclass raised by user code *)
| FatalError (n : nat)           (* a BaseException that is not an Exception *)
| FalsyError (ordinary : bool) (n : nat).
    (* an instance of a user class that defines __bool__ or __len__ so that
       its truth value is false; [ordinary] tells whether the class derives
       from Exception *)

(** [isinstance(exc, Exception)].  The scheduler's cancellation class is a
    BaseException on both backends. *)
Definition isinstance_Exception (e : exn) : bool :=
  match e with
  | SchedCancelled | FatalError _ => false
  | FalsyError ordinary _ => ordinary
  | _ => true
  end.

(** [bool(exc)], the truth value an [if] statement tests.  BaseException
    defines neither __bool__ nor __len__, so an exception is true unless
    its class says otherwise. *)
Definition truthy_exn (e : exn) : bool :=
  match e with
  | FalsyError _ _ => false
  | _ => true
  end.

(** [isinstance(exc, self._cancelled_exc_class)] *)
Definition isinstance_cancelled_exc_class (e : exn) : bool :=
  match e with
  | SchedCancelled => true
  | _ => false
  end.

Inductive value : Type :=
| VNone
| VBool (b : bool)
| VInt (n : Z)
| VPortal                        (* the BlockingPortal object *)
| VCoroutine.                    (* a coroutine object that was not awaited to a value *)

(** [bool(v)], the truth value an [if] statement tests. *)
Definition truthy (v : value) : bool :=
  match v with
  | VNone => false
  | VBool b => b
  | VInt n => negb (Z.eqb n 0)
  | VPortal | VCoroutine => true
  end.

(** The triple passed to [__exit__]/[__aexit__]; only the exception value
    matters. *)
Definition exc_info := option exn.

Inductive outcome (A : Type) : Type :=
| Val (a : A)
| Raised (e : exn).
Arguments Val {A} a.
Arguments Raised {A} e.

(** ** Futures *)

Inductive fstate : Type :=
| PENDING | RUNNING | CANCELLED | CANCELLED_AND_NOTIFIED | FINISHED.

(** The closures this module registers with [add_done_callback]. *)
Inductive callback : Type :=
| callback_ (scope : cell_id)               (* _call_func.callback, closed over [scope] *)
| task_done (task_status_future : fut_id).  (* start_task.task_done *)

Record Future : Type := mkFuture {
  _state : fstate;
  _result : option value;
  _exception : option exn;
  _done_callbacks : list callback
}.

Definition new_Future : Future := mkFuture PENDING None None [].

Definition state_cancelled (s : fstate) : bool :=
  match s with CANCELLED | CANCELLED_AND_NOTIFIED => true | _ => false end.

Definition state_done (s : fstate) : bool :=
  match s with CANCELLED | CANCELLED_AND_NOTIFIED | FINISHED => true | _ => false end.

(** ** Coroutines *)

(** What a suspended task waits for. *)
Inductive wait : Type :=
| WCheckpoint                    (* yields to the scheduler once *)
| WEvent (ev : event_id)         (* Event.wait() *)
| WTasksDone                     (* the task group joining its children *)
| WForever.                      (* a wait nothing in the model completes *)

(** Atomic statements of code running on the loop thread, by result type. *)
Inductive action : Type -> Type :=
| Emit (n : nat) : action unit                                   (* user-visible side effect *)
| NewCell : action cell_id                                       (* the local [scope] of _call_func *)
| CellClear (c : cell_id) : action unit                          (* scope = None *)
| ScopeEnter (c : cell_id) : action scope_id                     (* with CancelScope() as scope *)
| ScopeExit (s : scope_id) (exc : exc_info) : action bool        (* CancelScope.__exit__ *)
| ScopeCancel (s : scope_id) : action unit                       (* scope.cancel() *)
| FutCancelled (f : fut_id) : action bool
| FutCancel (f : fut_id) : action bool
| FutSetResult (f : fut_id) (v : value) : action unit
| FutSetException (f : fut_id) (e : exn) : action unit
| FutAddDoneCallback (f : fut_id) (cb : callback) : action unit
| FutSetRunningOrNotifyCancel (f : fut_id) : action bool
| EventNew : action event_id
| EventSet (ev : event_id) : action unit
| CmSetExitEvent (cm : cm_id) (ev : event_id) : action unit      (* self._exit_event = ... *)
| CmEnterFuture (cm : cm_id) : action fut_id                     (* self._enter_future *)
| CmExitEvent (cm : cm_id) : action event_id                     (* self._exit_event *)
| CmExitExcInfo (cm : cm_id) : action exc_info                   (* self._exit_exc_info *)
| PortalInit : action unit                                       (* BlockingPortal.__init__ *)
| PortalClearThreadId : action unit                              (* self._event_loop_thread_id = None *)
| PortalStopEvent : action event_id                              (* self._stop_event *)
| PortalCancelScope : action scope_id                            (* self._task_group.cancel_scope *)
| TaskGroupEnter : action unit                                   (* self._task_group.__aenter__() *)
| TaskGroupErrors : action (list exn)                            (* errors of the joined children *)
| Ghost_stop (cancel_remaining : bool) : action unit.            (* trace marker *)

Inductive coro : Type :=
| Return (v : value)
| Throw (e : exn)
| Prim {A : Type} (a : action A) (k : outcome A -> coro)
| Suspend (w : wait) (k : outcome unit -> coro).

(** [try: c ... ] followed by a handler of both outcomes
    (except/else). *)
Fixpoint bind_coro (c : coro) (k : outcome value -> coro) : coro :=
  match c with
  | Return v => k (Val v)
  | Throw e => k (Raised e)
  | Prim a k' => Prim a (fun r => bind_coro (k' r) k)
  | Suspend w k' => Suspend w (fun r => bind_coro (k' r) k)
  end.

(** A statement whose exception propagates. *)
Definition stmt {A : Type} (a : action A) (k : A -> coro) : coro :=
  Prim a (fun r => match r with Val x => k x | Raised e => Throw e end).

(** [await] on a suspension point; an exception raised there propagates. *)
Definition await_ (w : wait) (k : coro) : coro :=
  Suspend w (fun r => match r with Val _ => k | Raised e => Throw e end).

Declare Scope coro_scope.
Delimit Scope coro_scope with coro.
Bind Scope coro_scope with coro.
Notation "x <- a ;; k" := (stmt a (fun x => k))
  (at level 100, a at next level, right associativity) : coro_scope.
Notation "a ;; k" := (stmt a (fun _ => k))
  (at level 100, right associativity) : coro_scope.

(** [try: c finally: fin] *)
Definition try_finally (c : coro) (fin : coro) : coro :=
  bind_coro c (fun o => bind_coro fin (fun o' =>
    match o', o with
    | Raised e', _ => Throw e'
    | Val _, Val v => Return v
    | Val _, Raised e => Throw e
    end)).

(** ** Callables handed to the portal *)

(** A user's asynchronous context manager. *)
Record AsyncContextManager : Type := mkAsyncCM {
  __aenter__ : coro;
  __aexit__ : exc_info -> coro
}.

(** The adapter object: its identity in the heap and the fields
    [__init__] binds. *)
Record BACM : Type := mkBACM {
  bacm_self : cm_id;
  _async_cm : AsyncContextManager
}.

Inductive callable : Type :=
| sync_function (f : list value -> list nat * outcome value)
    (* a plain function: the side effects it emits, then its outcome *)
| coroutine_function (f : list value -> option fut_id -> coro)
    (* an async def; the option is the task_status keyword argument *)
| scope_cancel (s : scope_id)              (* bound method scope.cancel *)
| event_set (ev : event_id)                (* bound method Event.set *)
| portal_stop                              (* bound method BlockingPortal.stop *)
| run_async_cm_of (self : BACM).           (* bound method run_async_cm *)

(** ** The shared world *)

(** Mutable fields of a [_BlockingAsyncContextManager]; a field is [None]
    until it is first assigned. *)
Record bacm_fields : Type := mkFields {
  _enter_future : option fut_id;
  _exit_future : option fut_id;
  _exit_event : option event_id;
  _exit_exc_info : option exc_info
}.

Record BlockingPortal : Type := mkPortal {
  _event_loop_thread_id : option thread_id;
  _stop_event : event_id;
  _task_group_cancel_scope : scope_id;
  _task_group_active : bool;
  _task_group_errors : list exn
}.

Inductive tstate : Type :=
| Ready (c : coro)                                   (* spawned or resumable *)
| Waiting (wt : wait) (k : outcome unit -> coro)     (* parked at a suspension point *)
| Done.

Record task : Type := mkTask {
  t_scopes : list scope_id;      (* cancel scopes around the current statement *)
  t_state : tstate
}.

Inductive host_state : Type :=
| NoHost
| HostRunning (main : task) (run_future : fut_id)    (* _eventloop.run(run_portal) in the worker *)
| HostExited.

Inductive event : Type :=
| Emitted (n : nat)
| CallbackFailed (e : exn)       (* LOGGER.exception in Future._invoke_callbacks *)
| StopCalled (cancel_remaining : bool)
| ThreadJoined.

Record world : Type := mkWorld {
  futures : list Future;
  scopes : list bool;                  (* cancel_called of each CancelScope *)
  cells : list (option scope_id);
  events : list bool;                  (* the flag of each Event *)
  cms : list bacm_fields;
  portal : BlockingPortal;
  tasks : list task;                   (* children of the portal's task group, oldest first *)
  host : host_state;
  current : list scope_id;             (* scope stack of the running task *)
  log : list event                     (* newest first *)
}.

Definition set_futures (x : list Future) (w : world) : world :=
  mkWorld x (scopes w) (cells w) (events w) (cms w) (portal w) (tasks w) (host w) (current w) (log w).
Definition set_scopes (x : list bool) (w : world) : world :=
  mkWorld (futures w) x (cells w) (events w) (cms w) (portal w) (tasks w) (host w) (current w) (log w).
Definition set_cells (x : list (option scope_id)) (w : world) : world :=
  mkWorld (futures w) (scopes w) x (events w) (cms w) (portal w) (tasks w) (host w) (current w) (log w).
Definition set_events (x : list bool) (w : world) : world :=
  mkWorld (futures w) (scopes w) (cells w) x (cms w) (portal w) (tasks w) (host w) (current w) (log w).
Definition set_cms (x : list bacm_fields) (w : world) : world :=
  mkWorld (futures w) (scopes w) (cells w) (events w) x (portal w) (tasks w) (host w) (current w) (log w).
Definition set_portal (x : BlockingPortal) (w : world) : world :=
  mkWorld (futures w) (scopes w) (cells w) (events w) (cms w) x (tasks w) (host w) (current w) (log w).
Definition set_tasks (x : list task) (w : world) : world :=
  mkWorld (futures w) (scopes w) (cells w) (events w) (cms w) (portal w) x (host w) (current w) (log w).
Definition set_host (x : host_state) (w : world) : world :=
  mkWorld (futures w) (scopes w) (cells w) (events w) (cms w) (portal w) (tasks w) x (current w) (log w).
Definition set_current (x : list scope_id) (w : world) : world :=
  mkWorld (futures w) (scopes w) (cells w) (events w) (cms w) (portal w) (tasks w) (host w) x (log w).
Definition add_log (e : event) (w : world) : world :=
  mkWorld (futures w) (scopes w) (cells w) (events w) (cms w) (portal w) (tasks w) (host w) (current w) (e :: log w).

Arguments set_futures x w /.
Arguments set_scopes x w /.
Arguments set_cells x w /.
Arguments set_events x w /.
Arguments set_cms x w /.
Arguments set_portal x w /.
Arguments set_tasks x w /.
Arguments set_host x w /.
Arguments set_current x w /.
Arguments add_log e w /.

(** ** The monad of sequential code over the world

    [None] as a result means the computation does not return: it waits for
    something the remaining fuel does not bring about, or it follows a
    dangling reference. *)

Definition M (A : Type) : Type := world -> option (outcome A) * world.

Definition ret {A : Type} (a : A) : M A := fun w => (Some (Val a), w).
Definition raise {A : Type} (e : exn) : M A := fun w => (Some (Raised e), w).
Definition stuck {A : Type} : M A := fun w => (None, w).

Definition bind {A B : Type} (m : M A) (k : A -> M B) : M B :=
  fun w =>
    match m w with
    | (Some (Val a), w') => k a w'
    | (Some (Raised e), w') => (Some (Raised e), w')
    | (None, w') => (None, w')
    end.

(** [try: m except BaseException as e: h e] *)
Definition try_except {A : Type} (m : M A) (h : exn -> M A) : M A :=
  fun w =>
    match m w with
    | (Some (Raised e), w') => h e w'
    | r => r
    end.

(** [try: m finally: fin] *)
Definition finally {A : Type} (m : M A) (fin : M unit) : M A :=
  fun w =>
    match m w with
    | (Some o, w') =>
        match fin w' with
        | (Some (Val _), w'') => (Some o, w'')
        | (Some (Raised e), w'') => (Some (Raised e), w'')
        | (None, w'') => (None, w'')
        end
    | (None, w') => (None, w')
    end.

Definition get {A : Type} (f : world -> A) : M A := fun w => (Some (Val (f w)), w).
Definition modify (f : world -> world) : M unit := fun w => (Some (Val tt), f w).

Arguments ret {A} a w /.
Arguments raise {A} e w /.
Arguments stuck {A} w /.
Arguments bind {A B} m k w /.
Arguments try_except {A} m h w /.
Arguments finally {A} m fin w /.
Arguments get {A} f w /.
Arguments modify f w /.

Declare Scope M_scope.
Delimit Scope M_scope with M.
Bind Scope M_scope with M.
Notation "x <- a ;; k" := (bind a (fun x => k))
  (at level 100, a at next level, right associativity) : M_scope.
Notation "a ;; k" := (bind a (fun _ => k))
  (at level 100, right associativity) : M_scope.

(** ** Loop-side code of the module, as coroutines *)

Definition exc_of {A : Type} (o : outcome A) : exc_info :=
  match o with Val _ => None | Raised e => Some e end.

(** [BlockingPortal.stop] *)
Definition stop (cancel_remaining : bool) : coro :=
  (Ghost_stop cancel_remaining ;;
   PortalClearThreadId ;;
   ev <- PortalStopEvent ;;
   EventSet ev ;;
   if cancel_remaining
   then (s <- PortalCancelScope ;; ScopeCancel s ;; Return VNone)
   else Return VNone)%coro.

(** [BlockingPortal.sleep_until_stopped] *)
Definition sleep_until_stopped : coro :=
  (ev <- PortalStopEvent ;; await_ (WEvent ev) (Return VNone))%coro.

(** [_BlockingAsyncContextManager.run_async_cm], block by block. *)

(** [return await self._async_cm.__aexit__( *self._exit_exc_info)] *)
Definition run_async_cm_exit (self : BACM) : coro :=
  (info <- CmExitExcInfo (bacm_self self) ;;
   __aexit__ (_async_cm self) info)%coro.

(** The [except] and [else] clauses around [__aenter__], and what follows
    the try statement. *)
Definition run_async_cm_entered (self : BACM) (o : outcome value) : coro :=
  match o with
  | Raised exc =>
      (ef <- CmEnterFuture (bacm_self self) ;;
       FutSetException ef exc ;;
       Throw exc)%coro
  | Val value_ =>
      (ef <- CmEnterFuture (bacm_self self) ;;
       FutSetResult ef value_ ;;
       ev <- CmExitEvent (bacm_self self) ;;
       await_ (WEvent ev) (run_async_cm_exit self))%coro
  end.

Definition run_async_cm (self : BACM) : coro :=
  bind_coro
    (ev <- EventNew ;;
     CmSetExitEvent (bacm_self self) ev ;;
     __aenter__ (_async_cm self))%coro
    (run_async_cm_entered self).

(** Calling [func] on its arguments: either the call runs code to an
    outcome at once, or it returns a coroutine object. *)
Inductive called : Type :=
| Immediate (c : coro)
| Coroutine (body : coro).

Fixpoint emit_all (es : list nat) (k : coro) : coro :=
  match es with
  | [] => k
  | n :: es' => (Emit n ;; emit_all es' k)%coro
  end.

Definition outcome_coro (o : outcome value) : coro :=
  match o with Val v => Return v | Raised e => Throw e end.

(** The argument [cancel_remaining] of [stop], as [if cancel_remaining:]
    reads it: the truth value of the first positional argument. *)
Definition arg_bool (args : list value) : bool :=
  match args with
  | v :: _ => truthy v
  | [] => false                  (* cancel_remaining defaults to False *)
  end.

Definition call_function (func : callable) (args : list value)
  (kwargs : option fut_id) : called :=
  match func with
  | sync_function f => let '(es, o) := f args in Immediate (emit_all es (outcome_coro o))
  | coroutine_function f => Coroutine (f args kwargs)
  | scope_cancel s => Immediate (ScopeCancel s ;; Return VNone)%coro
  | event_set ev => Immediate (EventSet ev ;; Return VNone)%coro
  | portal_stop => Coroutine (stop (arg_bool args))
  | run_async_cm_of self => Coroutine (run_async_cm self)
  end.

(** [BlockingPortal._call_func], block by block.  The local [scope] is a
    closure cell, shared with the nested [callback]. *)

(** Leaving [with CancelScope() as scope:] with the outcome of its body.
    When the scope swallows the cancellation, control continues after the
    block and [retval] is still the coroutine object. *)
Definition leave_CancelScope (s : scope_id) (body : coro) : coro :=
  bind_coro body (fun o =>
    Prim (ScopeExit s (exc_of o)) (fun swallowed =>
      match o, swallowed with
      | Val v, _ => Return v
      | Raised _, Val true => Return VCoroutine
      | Raised e, _ => Throw e
      end)).

(** The [try:] block. *)
Definition _call_func_try (func : callable) (args : list value)
  (kwargs : option fut_id) (future : fut_id) (scope : cell_id) : coro :=
  match call_function func args kwargs with
  | Immediate retval => retval                     (* not a coroutine *)
  | Coroutine retval =>
      (s <- ScopeEnter scope ;;
       leave_CancelScope s
         (c <- FutCancelled future ;;
          if c
          then (ScopeCancel s ;; retval)
          else (FutAddDoneCallback future (callback_ scope) ;; retval)))%coro
  end.

(** The [except] clauses and the [else] clause. *)
Definition _call_func_except_else (future : fut_id) (o : outcome value) : coro :=
  match o with
  | Raised exc =>
      if isinstance_cancelled_exc_class exc
      then (* except self._cancelled_exc_class: *)
        (FutCancel future ;; Return VNone)%coro
      else (* except BaseException as exc: *)
        (c <- FutCancelled future ;;
         let reraise :=
           if negb (isinstance_Exception exc) then Throw exc else Return VNone in
         if negb c
         then (FutSetException future exc ;; reraise)
         else reraise)%coro
  | Val retval =>
      (* else: *)
      (c <- FutCancelled future ;;
       if negb c
       then (FutSetResult future retval ;; Return VNone)
       else Return VNone)%coro
  end.

(** The [finally] clause. *)
Definition _call_func_finally (scope : cell_id) : coro :=
  (CellClear scope ;; Return VNone)%coro.

(** The statement [try: ... except ...: ... else: ... finally: ...] around a
    try block. *)
Definition _call_func_from (try_block : coro) (future : fut_id)
  (scope : cell_id) : coro :=
  try_finally
    (bind_coro try_block (_call_func_except_else future))
    (_call_func_finally scope).

Definition _call_func (func : callable) (args : list value)
  (kwargs : option fut_id) (future : fut_id) : coro :=
  (scope <- NewCell ;;
   _call_func_from (_call_func_try func args kwargs future scope) future scope)%coro.

(** Modelled from the spec: the task group of [anyio._core._tasks] is not
    among the sources; its exit joins all spawned tasks and propagates the
    first unhandled error, and a cancellation of its own scope ends
    there. *)
Definition TaskGroup_aexit (exc : exc_info) : coro :=
  Suspend WTasksDone (fun _ =>
    (errs <- TaskGroupErrors ;;
     s <- PortalCancelScope ;;
     swallowed <- ScopeExit s exc ;;
     match errs with
     | e :: _ => Throw e
     | [] => Return (VBool swallowed)
     end)%coro).

(** [async with BlockingPortal() as portal_: body]*)
Definition async_with_BlockingPortal (body : coro) : coro :=
  (PortalInit ;;
   TaskGroupEnter ;;                        (* __aenter__ *)
   bind_coro body (fun o =>
     (* __aexit__ *)
     bind_coro (stop false) (fun o1 =>
       match o1 with
       | Raised e => Throw e
       | Val _ =>
           bind_coro (TaskGroup_aexit (exc_of o)) (fun o2 =>
             match o2, o with
             | Raised e, _ => Throw e
             | Val _, Val v => Return VNone
             | Val (VBool true), Raised _ => Return VNone
             | Val _, Raised e => Throw e
             end)
       end)))%coro.

(** [start_blocking_portal.run_portal] *)
Definition run_portal (future : fut_id) : coro :=
  async_with_BlockingPortal
    (b <- FutSetRunningOrNotifyCancel future ;;
     if b
     then (FutSetResult future VPortal ;; sleep_until_stopped)
     else Return VNone)%coro.

(** ** Heap accessors *)

Definition alloc_future : M fut_id :=
  fun w => (Some (Val (length (futures w))), set_futures (futures w ++ [new_Future]) w).

Definition get_future (f : fut_id) : M Future :=
  fun w =>
    match futures w !! f with
    | Some F => (Some (Val F), w)
    | None => (None, w)
    end.

Definition put_future (f : fut_id) (F : Future) : M unit :=
  modify (fun w => set_futures (<[f:=F]> (futures w)) w).

Definition future_done (f : fut_id) (w : world) : bool :=
  match futures w !! f with
  | Some F => state_done (_state F)
  | None => false
  end.

Definition future_cancelled (f : fut_id) (w : world) : bool :=
  match futures w !! f with
  | Some F => state_cancelled (_state F)
  | None => false
  end.

Definition cancel_called (w : world) (s : scope_id) : bool :=
  match scopes w !! s with
  | Some b => b
  | None => false
  end.

Definition event_is_set (w : world) (ev : event_id) : bool :=
  match events w !! ev with
  | Some b => b
  | None => false
  end.

Definition get_fields (cm : cm_id) : M bacm_fields :=
  fun w =>
    match cms w !! cm with
    | Some x => (Some (Val x), w)
    | None => (None, w)
    end.

Definition put_fields (cm : cm_id) (x : bacm_fields) : M unit :=
  modify (fun w => set_cms (<[cm:=x]> (cms w)) w).

(** Reading an attribute that was never assigned. *)
Definition attribute {A : Type} (x : option A) : M A :=
  match x with
  | Some a => ret a
  | None => raise AttributeError
  end.

Arguments alloc_future w /.
Arguments get_future f w /.
Arguments put_future f F w /.
Arguments get_fields cm w /.
Arguments put_fields cm x w /.
Arguments attribute {A} x /.

(** ** One level of the semantics

    Callbacks may act on further futures and a blocked thread lets the
    loop run: both recursions are cut by the two parameters of this
    section, which stand for the same functions with less fuel. *)

Section Level.

Variable invoke' : thread_id -> callback -> fut_id -> M unit.
Variable wait_until' : thread_id -> (world -> bool) -> M unit.

(** *** concurrent.futures.Future *)

Section Thread.

(** [threading.get_ident()] of the running code. *)
Variable get_ident : thread_id.

(** [for callback in self._done_callbacks: try: callback(self) except
    Exception: LOGGER.exception(...)] *)
Fixpoint invoke_each (cbs : list callback) (f : fut_id) : M unit :=
  match cbs with
  | [] => ret tt
  | cb :: rest =>
      (try_except (invoke' get_ident cb f)
         (fun e => if isinstance_Exception e
                   then modify (add_log (CallbackFailed e))
                   else raise e) ;;
       invoke_each rest f)%M
  end.

Definition _invoke_callbacks (f : fut_id) : M unit :=
  (F <- get_future f ;; invoke_each (_done_callbacks F) f)%M.

Definition Future_cancel (f : fut_id) : M bool :=
  (F <- get_future f ;;
   match _state F with
   | RUNNING | FINISHED => ret false
   | CANCELLED | CANCELLED_AND_NOTIFIED => ret true
   | PENDING =>
       put_future f (mkFuture CANCELLED (_result F) (_exception F) (_done_callbacks F)) ;;
       _invoke_callbacks f ;;
       ret true
   end)%M.

Definition Future_cancelled (f : fut_id) : M bool :=
  (F <- get_future f ;; ret (state_cancelled (_state F)))%M.

Definition Future_done (f : fut_id) : M bool :=
  (F <- get_future f ;; ret (state_done (_state F)))%M.

Definition __get_result (F : Future) : M value :=
  match _exception F with
  | Some e => raise e
  | None =>
      match _result F with
      | Some v => ret v
      | None => ret VNone
      end
  end.

(** [Future.result()] without a timeout: blocks until the future is done. *)
Definition Future_result (f : fut_id) : M value :=
  (wait_until' get_ident (future_done f) ;;
   F <- get_future f ;;
   if state_cancelled (_state F) then raise CancelledError else __get_result F)%M.

(** [Future.exception()] without a timeout. *)
Definition Future_exception (f : fut_id) : M (option exn) :=
  (wait_until' get_ident (future_done f) ;;
   F <- get_future f ;;
   if state_cancelled (_state F) then raise CancelledError else ret (_exception F))%M.

Definition Future_add_done_callback (f : fut_id) (fn : callback) : M unit :=
  (F <- get_future f ;;
   if state_done (_state F)
   then try_except (invoke' get_ident fn f)
          (fun e => if isinstance_Exception e
                    then modify (add_log (CallbackFailed e))
                    else raise e)
   else put_future f
          (mkFuture (_state F) (_result F) (_exception F) (_done_callbacks F ++ [fn])))%M.

Definition Future_set_running_or_notify_cancel (f : fut_id) : M bool :=
  (F <- get_future f ;;
   match _state F with
   | CANCELLED =>
       put_future f
         (mkFuture CANCELLED_AND_NOTIFIED (_result F) (_exception F) (_done_callbacks F)) ;;
       ret false
   | PENDING =>
       put_future f (mkFuture RUNNING (_result F) (_exception F) (_done_callbacks F)) ;;
       ret true
   | _ => raise (RuntimeError "Future in unexpected state")
   end)%M.

Definition Future_set_result (f : fut_id) (v : value) : M unit :=
  (F <- get_future f ;;
   if state_done (_state F)
   then raise InvalidStateError
   else
     put_future f (mkFuture FINISHED (Some v) (_exception F) (_done_callbacks F)) ;;
     _invoke_callbacks f)%M.

Definition Future_set_exception (f : fut_id) (e : exn) : M unit :=
  (F <- get_future f ;;
   if state_done (_state F)
   then raise InvalidStateError
   else
     put_future f (mkFuture FINISHED (_result F) (Some e) (_done_callbacks F)) ;;
     _invoke_callbacks f)%M.

(** *** BlockingPortal, the methods external threads call *)

Definition _check_running : M unit :=
  (id <- get (fun w => _event_loop_thread_id (portal w)) ;;
   match id with
   | None => raise (RuntimeError "This portal is not running")
   | Some id =>
       if Nat.eqb id get_ident
       then raise (RuntimeError "This method cannot be called from the event loop thread")
       else ret tt
   end)%M.

(** Modelled from the spec: [_spawn_task_from_thread] is abstract in the
    source (the backends implement it); it spawns a task running
    [_call_func] inside the portal's task group, so that the future is
    resolved when the task finishes. *)
Definition _spawn_task_from_thread (func : callable) (args : list value)
  (kwargs : option fut_id) (future : fut_id) : M unit :=
  modify (fun w =>
    set_tasks
      (tasks w ++ [mkTask [_task_group_cancel_scope (portal w)]
                          (Ready (_call_func func args kwargs future))]) w).

Definition start_task_soon (func : callable) (args : list value) : M fut_id :=
  (_check_running ;;
   f <- alloc_future ;;
   _spawn_task_from_thread func args None f ;;
   ret f)%M.

Definition call (func : callable) (args : list value) : M value :=
  (f <- start_task_soon func args ;; Future_result f)%M.

Definition start_task (func : callable) (args : list value) : M (fut_id * value) :=
  (_check_running ;;
   task_status_future <- alloc_future ;;
   f <- alloc_future ;;
   Future_add_done_callback f (task_done task_status_future) ;;
   _spawn_task_from_thread func args (Some task_status_future) f ;;
   v <- Future_result task_status_future ;;
   ret (f, v))%M.

(** *** The two callbacks *)

Definition run_callback (cb : callback) (f : fut_id) : M unit :=
  match cb with
  | callback_ scope =>
      (c <- Future_cancelled f ;;
       if c
       then
         s <- get (fun w => mjoin (cells w !! scope)) ;;
         s <- attribute s ;;                 (* scope.cancel *)
         call (scope_cancel s) [] ;;
         ret tt
       else ret tt)%M
  | task_done task_status_future =>
      (d <- Future_done task_status_future ;;
       if negb d
       then
         c <- Future_cancelled f ;;
         if c
         then (Future_cancel task_status_future ;; ret tt)
         else
           e <- Future_exception f ;;
           match e with
           | Some e =>
               if truthy_exn e                   (* elif future.exception(): *)
               then Future_set_exception task_status_future e
               else
                 Future_set_exception task_status_future
                   (RuntimeError "Task exited without calling task_status.started()")
           | None =>
               Future_set_exception task_status_future
                 (RuntimeError "Task exited without calling task_status.started()")
           end
       else ret tt)%M
  end.

(** *** _BlockingAsyncContextManager *)

(** [wrap_async_context_manager(cm)] allocates the adapter; no field
    besides [_async_cm] and [_portal] is assigned yet. *)
Definition wrap_async_context_manager (cm : AsyncContextManager) : M BACM :=
  fun w =>
    (Some (Val (mkBACM (length (cms w)) cm)),
     set_cms (cms w ++ [mkFields None None None None]) w).

Definition __enter__ (self : BACM) : M value :=
  (ef <- alloc_future ;;
   x <- get_fields (bacm_self self) ;;
   put_fields (bacm_self self)
     (mkFields (Some ef) (_exit_future x) (_exit_event x) (_exit_exc_info x)) ;;
   xf <- start_task_soon (run_async_cm_of self) [] ;;
   x <- get_fields (bacm_self self) ;;
   put_fields (bacm_self self)
     (mkFields (_enter_future x) (Some xf) (_exit_event x) (_exit_exc_info x)) ;;
   Future_result ef)%M.

Definition __exit__ (self : BACM) (exc : exc_info) : M value :=
  (x <- get_fields (bacm_self self) ;;
   put_fields (bacm_self self)
     (mkFields (_enter_future x) (_exit_future x) (_exit_event x) (Some exc)) ;;
   ev <- attribute (_exit_event x) ;;
   call (event_set ev) [] ;;
   x <- get_fields (bacm_self self) ;;
   xf <- attribute (_exit_future x) ;;
   Future_result xf)%M.

(** *** start_blocking_portal *)

(** [executor.submit(_eventloop.run, run_portal, ...)]: the worker thread
    takes the work item and starts the event loop on [run_portal]. *)
Definition executor_submit (main : coro) : M fut_id :=
  (run_future <- alloc_future ;;
   Future_set_running_or_notify_cancel run_future ;;
   modify (set_host (HostRunning (mkTask [] (Ready main)) run_future)) ;;
   ret run_future)%M.

Definition host_exited (w : world) : bool :=
  match host w with
  | HostRunning _ _ => false
  | _ => true
  end.

(** [ThreadPoolExecutor.__exit__]: [shutdown(wait=True)] joins the worker. *)
Definition executor_exit : M unit :=
  (wait_until' get_ident host_exited ;; modify (add_log ThreadJoined))%M.

(** [wait(fs, return_when=FIRST_COMPLETED)] *)
Definition wait_first_completed (fs : list fut_id) : M unit :=
  wait_until' get_ident (fun w => existsb (fun f => future_done f w) fs).

(** The statement [with start_blocking_portal() as portal: body]: the
    generator runs up to its [yield], the body runs, and the generator is
    resumed with the body's outcome. *)
Definition start_blocking_portal (body : M value) : M value :=
  (future <- alloc_future ;;
   finally
     (run_future <- executor_submit (run_portal future) ;;
      try_except (wait_first_completed [run_future; future])
        (fun e => Future_cancel future ;; Future_cancel run_future ;; raise e) ;;
      d <- Future_done future ;;
      if d
      then
        Future_result future ;;
        r <- try_except body
               (fun e => call portal_stop [VBool true] ;; raise e) ;;
        call portal_stop [VBool false] ;;
        Future_result run_future ;;
        ret r
      else
        Future_result run_future ;;
        raise (RuntimeError "generator didn't yield"))
     executor_exit)%M.

End Thread.

(** *** Statements on the loop thread *)

(** Modelled from the spec: the cancel scope of [anyio._core._tasks] is not
    among the sources.  A scope is a region of a task's code that can be
    entered, cancelled and left.  Entering [with CancelScope() as scope]
    makes the new scope the innermost one of the running task and binds it
    to the local [scope]. *)
Definition CancelScope_enter (c : cell_id) : M scope_id :=
  fun w =>
    let s := length (scopes w) in
    (Some (Val s),
     set_current (s :: current w)
       (set_cells (<[c:=Some s]> (cells w))
          (set_scopes (scopes w ++ [false]) w))).

(** Modelled from the spec: cancelling a scope only marks it; the
    suspension points inside it then unwind, wherever the task next
    reaches one. *)
Definition CancelScope_cancel (s : scope_id) : M unit :=
  modify (fun w => set_scopes (<[s:=true]> (scopes w)) w).

(** Modelled from the spec: leaving a scope.  The cancellation ends at the
    exit of the scope that was cancelled, unless an enclosing scope is
    cancelled too; any other exception passes. *)
Definition CancelScope_exit (s : scope_id) (exc : exc_info) : M bool :=
  (w <- get (fun w => w) ;;
   let outer := tl (current w) in
   modify (set_current outer) ;;
   match exc with
   | Some e =>
       ret (isinstance_cancelled_exc_class e
            && cancel_called w s
            && negb (existsb (cancel_called w) outer))
   | None => ret false
   end)%M.

(** Modelled from the spec: the [Event] of [anyio._core._synchronization]
    is not among the sources.  It is a flag that any thread may set and
    that a task may wait for. *)
Definition Event_new : M event_id :=
  fun w => (Some (Val (length (events w))), set_events (events w ++ [false]) w).

Definition Event_set (ev : event_id) : M unit :=
  modify (fun w => set_events (<[ev:=true]> (events w)) w).

(** [BlockingPortal.__init__]: the identity of the creating thread, a new
    stop event and a new task group, whose cancel scope is all the model
    keeps of it. *)
Definition BlockingPortal_init : M unit :=
  fun w =>
    (Some (Val tt),
     set_portal (mkPortal (Some loop_thread) (length (events w))
                   (length (scopes w)) false [])
       (set_events (events w ++ [false])
          (set_scopes (scopes w ++ [false]) w))).

(** Modelled from the spec: entering the task group of
    [anyio._core._tasks] puts the host task inside the group's cancel
    scope. *)
Definition TaskGroup_aenter : M unit :=
  modify (fun w =>
    set_current (_task_group_cancel_scope (portal w) :: current w)
      (set_portal (mkPortal (_event_loop_thread_id (portal w))
                     (_stop_event (portal w))
                     (_task_group_cancel_scope (portal w))
                     true
                     (_task_group_errors (portal w))) w)).

Arguments CancelScope_enter c w /.
Arguments CancelScope_cancel s w /.
Arguments CancelScope_exit s exc w /.
Arguments Event_new w /.
Arguments Event_set ev w /.
Arguments BlockingPortal_init w /.
Arguments TaskGroup_aenter w /.

(** The statements, executed on the loop thread. *)
Definition exec_action {A : Type} (a : action A) : M A :=
  match a in action T return M T with
  | Emit n => modify (add_log (Emitted n))
  | NewCell =>
      fun w => (Some (Val (length (cells w))), set_cells (cells w ++ [None]) w)
  | CellClear c => modify (fun w => set_cells (<[c:=None]> (cells w)) w)
  | ScopeEnter c => CancelScope_enter c
  | ScopeExit s exc => CancelScope_exit s exc
  | ScopeCancel s => CancelScope_cancel s
  | FutCancelled f => Future_cancelled f
  | FutCancel f => Future_cancel loop_thread f
  | FutSetResult f v => Future_set_result loop_thread f v
  | FutSetException f e => Future_set_exception loop_thread f e
  | FutAddDoneCallback f cb => Future_add_done_callback loop_thread f cb
  | FutSetRunningOrNotifyCancel f => Future_set_running_or_notify_cancel f
  | EventNew => Event_new
  | EventSet ev => Event_set ev
  | CmSetExitEvent cm ev =>
      (x <- get_fields cm ;;
       put_fields cm
         (mkFields (_enter_future x) (_exit_future x) (Some ev) (_exit_exc_info x)))%M
  | CmEnterFuture cm => (x <- get_fields cm ;; attribute (_enter_future x))%M
  | CmExitEvent cm => (x <- get_fields cm ;; attribute (_exit_event x))%M
  | CmExitExcInfo cm => (x <- get_fields cm ;; attribute (_exit_exc_info x))%M
  | PortalInit => BlockingPortal_init
  | PortalClearThreadId =>
      modify (fun w =>
        set_portal (mkPortal None (_stop_event (portal w))
                      (_task_group_cancel_scope (portal w))
                      (_task_group_active (portal w))
                      (_task_group_errors (portal w))) w)
  | PortalStopEvent => get (fun w => _stop_event (portal w))
  | PortalCancelScope => get (fun w => _task_group_cancel_scope (portal w))
  | TaskGroupEnter => TaskGroup_aenter
  | TaskGroupErrors => get (fun w => _task_group_errors (portal w))
  | Ghost_stop b => modify (add_log (StopCalled b))
  end.

(** *** Running a task up to its next suspension point *)

Inductive run_result : Type :=
| Finished (o : outcome value)
| Parked (wt : wait) (k : outcome unit -> coro)
| Hung.                          (* a statement of the task never returns *)

Fixpoint run_code (c : coro) (w : world) : run_result * world :=
  match c with
  | Return v => (Finished (Val v), w)
  | Throw e => (Finished (Raised e), w)
  | Prim a k =>
      match exec_action a w with
      | (Some r, w') => run_code (k r) w'
      | (None, w') => (Hung, w')
      end
  | Suspend wt k => (Parked wt k, w)
  end.

(** *** The scheduler *)

Definition task_is_done (t : task) : bool :=
  match t_state t with Done => true | _ => false end.

(** Modelled from the spec: the event loop is an external collaborator,
    with its suspension points.  A checkpoint is passed at once, a wait on
    an event once the event is set, the join of the task group once every
    child is done. *)
Definition wait_ready (w : world) (wt : wait) : bool :=
  match wt with
  | WCheckpoint => true
  | WEvent ev => event_is_set w ev
  | WTasksDone => forallb task_is_done (tasks w)
  | WForever => false
  end.

(** Modelled from the spec: the task group joins all its children; its
    join is not a cancellation point. *)
Definition cancellable (wt : wait) : bool :=
  match wt with WTasksDone => false | _ => true end.

Definition task_cancelled (w : world) (t : task) : bool :=
  existsb (cancel_called w) (t_scopes t).

(** Modelled from the spec: a task parked inside a cancelled scope is
    resumed with the cancellation exception, at the suspension point it has
    reached; otherwise it is resumed when what it waits for has happened. *)
Definition runnable (w : world) (t : task) : bool :=
  match t_state t with
  | Ready _ => true
  | Waiting wt _ => (cancellable wt && task_cancelled w t) || wait_ready w wt
  | Done => false
  end.

Definition resume_code (w : world) (t : task) : coro :=
  match t_state t with
  | Ready c => c
  | Waiting wt k =>
      if cancellable wt && task_cancelled w t
      then k (Raised SchedCancelled)
      else k (Val tt)
  | Done => Return VNone
  end.

(** Modelled from the spec: no order is promised between tasks.  This
    loop takes the newest runnable child first, and its main task when no
    child can run. *)
Fixpoint pick (w : world) (ts : list task) (i : nat) : option nat :=
  match ts with
  | [] => None
  | t :: rest =>
      match pick w rest (S i) with
      | Some j => Some j
      | None => if runnable w t then Some i else None
      end
  end.

(** Modelled from the spec: an exception leaving a child is unhandled, and
    the task group keeps it until its exit. *)
Definition record_child_outcome (o : outcome value) (w : world) : world :=
  match o with
  | Val _ => w
  | Raised e =>
      set_portal (mkPortal (_event_loop_thread_id (portal w))
                    (_stop_event (portal w))
                    (_task_group_cancel_scope (portal w))
                    (_task_group_active (portal w))
                    (_task_group_errors (portal w) ++ [e])) w
  end.

(** A turn of a child: it runs from where it was to its next suspension
    point, or to its end. *)
Definition run_child (i : nat) (t : task) : M unit :=
  fun w =>
    match run_code (resume_code w t) (set_current (t_scopes t) w) with
    | (Finished o, w') =>
        (Some (Val tt),
         record_child_outcome o (set_tasks (<[i:=mkTask [] Done]> (tasks w')) w'))
    | (Parked wt k, w') =>
        (Some (Val tt),
         set_tasks (<[i:=mkTask (current w') (Waiting wt k)]> (tasks w')) w')
    | (Hung, w') => (None, w')
    end.

(** A turn of the main task.  When it ends, the worker of the executor
    resolves its future: [result = fn(); future.set_result(result)], or
    [future.set_exception(exc)]. *)
Definition run_host (t : task) (run_future : fut_id) : M unit :=
  fun w =>
    match run_code (resume_code w t) (set_current (t_scopes t) w) with
    | (Finished o, w') =>
        (match o with
         | Val v => Future_set_result loop_thread run_future v
         | Raised e => Future_set_exception loop_thread run_future e
         end) (set_host HostExited w')
    | (Parked wt k, w') =>
        (Some (Val tt),
         set_host (HostRunning (mkTask (current w') (Waiting wt k)) run_future) w')
    | (Hung, w') => (None, w')
    end.

(** One turn of the loop; [false] when no task can run. *)
Definition loop_turn : M bool :=
  fun w =>
    match pick w (tasks w) 0 with
    | Some i =>
        match tasks w !! i with
        | Some t => (run_child i t ;; ret true)%M w
        | None => (None, w)
        end
    | None =>
        match host w with
        | HostRunning t rf =>
            if runnable w t then (run_host t rf ;; ret true)%M w
            else (Some (Val false), w)
        | _ => (Some (Val false), w)
        end
    end.

(** A thread waiting for a condition.  The loop thread waiting on its own
    loop never wakes up; an external thread waits while the loop turns. *)
Definition wait_until (tid : thread_id) (cond : world -> bool) : M unit :=
  fun w =>
    if cond w then (Some (Val tt), w)
    else if Nat.eqb tid loop_thread then (None, w)
    else
      match loop_turn w with
      | (Some (Val true), w') => wait_until' tid cond w'
      | (_, w') => (None, w')
      end.

End Level.

(** ** Tying the knot with fuel *)

Fixpoint invoke (n : nat) : thread_id -> callback -> fut_id -> M unit :=
  match n with
  | O => fun _ _ _ => stuck
  | S n' => run_callback (invoke n') (block n')
  end
with block (n : nat) : thread_id -> (world -> bool) -> M unit :=
  match n with
  | O => fun _ cond w => if cond w then (Some (Val tt), w) else (None, w)
  | S n' => wait_until (invoke n') (block n')
  end.

(** A world before anything was created. *)
Definition empty_world : world :=
  mkWorld [] [] [] [] [] (mkPortal None 0 0 false []) [] NoHost [] [].

(** ** The vocabulary of the statements *)

(** The portal's identity check, as a decision: the portal is not running,
    or the caller is the loop thread. *)
Definition submission_rejected (tid : thread_id) (w : world) : bool :=
  match _event_loop_thread_id (portal w) with
  | None => true
  | Some id => Nat.eqb id tid
  end.

(** The task the portal spawns for a submission. *)
Definition spawned (w : world) (func : callable) (args : list value)
  (kwargs : option fut_id) (future : fut_id) : task :=
  mkTask [_task_group_cancel_scope (portal w)]
         (Ready (_call_func func args kwargs future)).

(** The portal's stop event and the cancel scope of its task group were
    allocated. *)
Definition portal_allocated (w : world) : Prop :=
  _stop_event (portal w) < length (events w)
  /\ _task_group_cancel_scope (portal w) < length (scopes w).

(** What a thread that waited for a future observes in its terminal state. *)
Definition terminal_outcome (F : Future) : outcome value :=
  if state_cancelled (_state F) then Raised CancelledError
  else
    match _exception F with
    | Some e => Raised e
    | None =>
        match _result F with
        | Some v => Val v
        | None => Val VNone
        end
    end.

(** The specification's [await_result]: block the calling thread until the
    future is in a terminal state, then return the value, re-raise the
    stored error, or raise a cancellation error. *)
Definition await_result (n : nat) (tid : thread_id) (f : fut_id) : M value :=
  fun w =>
    match block n tid (future_done f) w with
    | (Some (Val _), w') =>
        match futures w' !! f with
        | Some F => (Some (terminal_outcome F), w')
        | None => (None, w')
        end
    | (Some (Raised e), w') => (Some (Raised e), w')
    | (None, w') => (None, w')
    end.


(** The portal is stopped or bound to the loop thread. *)
Definition portal_bound (w : world) : Prop :=
  _event_loop_thread_id (portal w) = None
  \/ _event_loop_thread_id (portal w) = Some loop_thread.

(** [task_done] as a function of the two futures. *)
Definition task_done_effect (F T : Future) : Future :=
  if state_done (_state T) then T
  else if state_cancelled (_state F)
  then mkFuture CANCELLED (_result T) (_exception T) (_done_callbacks T)
  else
    match _exception F with
    | Some e =>
        mkFuture FINISHED (_result T)
          (Some (if truthy_exn e then e
                 else RuntimeError "Task exited without calling task_status.started()"))
          (_done_callbacks T)
    | None =>
        mkFuture FINISHED (_result T)
          (Some (RuntimeError "Task exited without calling task_status.started()"))
          (_done_callbacks T)
    end.

(** The callbacks this module can have registered on the future of a task:
    [task_done] (by [start_task]) and then [callback] (by [_call_func]). *)
Definition registered (task_status_future : option fut_id)
  (scope : option cell_id) : list callback :=
  match task_status_future with Some t => [task_done t] | None => [] end
  ++ match scope with Some c => [callback_ c] | None => [] end.

(** The readiness future of [start_task]: nothing registers a callback on
    it, and no executor ever runs it. *)
Definition readiness_future (w : world) (task_status_future : option fut_id) : Prop :=
  match task_status_future with
  | None => True
  | Some t =>
      exists T, futures w !! t = Some T /\ _done_callbacks T = [] /\ _state T <> RUNNING
  end.

Definition notify_readiness (F : Future) (task_status_future : option fut_id)
  (fs : list Future) : list Future :=
  match task_status_future with
  | None => fs
  | Some t =>
      match fs !! t with
      | Some T => <[t:=task_done_effect F T]> fs
      | None => fs
      end
  end.

Definition with_log (lg : list event) (w : world) : world :=
  mkWorld (futures w) (scopes w) (cells w) (events w) (cms w) (portal w)
          (tasks w) (host w) (current w) lg.

(** The three ways [_call_func] resolves its future. *)
Inductive resolution : Type :=
| by_result (v : value)
| by_exception (e : exn)
| by_cancel.

Definition resolved (r : resolution) (F : Future) : Future :=
  match r with
  | by_result v => mkFuture FINISHED (Some v) (_exception F) (_done_callbacks F)
  | by_exception e => mkFuture FINISHED (_result F) (Some e) (_done_callbacks F)
  | by_cancel => mkFuture CANCELLED (_result F) (_exception F) (_done_callbacks F)
  end.

(** The world after a task's future was resolved on the loop thread and
    its callbacks ran, up to the log. *)
Definition after_resolution (r : resolution) (f : fut_id) (F : Future)
  (ots : option fut_id) (lg : list event) (w : world) : world :=
  with_log lg
    (set_futures
       (notify_readiness (resolved r F) ots (<[f:=resolved r F]> (futures w))) w).

(** How the clauses resolve a pending future, by the outcome of the try
    block. *)
Definition resolution_of (o : outcome value) : resolution :=
  match o with
  | Val v => by_result v
  | Raised exc =>
      if isinstance_cancelled_exc_class exc then by_cancel else by_exception exc
  end.

(** What leaves the task. *)
Definition task_outcome_of (o : outcome value) : outcome value :=
  match o with
  | Val _ => Val VNone
  | Raised exc =>
      if isinstance_cancelled_exc_class exc then Val VNone
      else if isinstance_Exception exc then Val VNone
      else Raised exc
  end.

Ltac run_step :=
  cbn [run_code bind_coro stmt exec_action outcome_coro try_finally
       _call_func_from _call_func_except_else _call_func_finally
       bind ret modify get negb state_cancelled state_done].

(** A concrete world with a running portal, for the instances below. *)
Definition running_world : world :=
  mkWorld [new_Future] [false] [] [false] []
          (mkPortal (Some loop_thread) 0 0 true []) [] NoHost [0] [].

(** [_BlockingPortalTaskStatus.started] *)
Definition started (task_status : fut_id) (value_ : value) : action unit :=
  FutSetResult task_status value_.

(** What the readiness wait raises when the task ends without having
    called [started], by the terminal state of its completion future: the
    exception of the task only when its truth value is true. *)
Definition readiness_error (r : resolution) : exn :=
  match r with
  | by_cancel => CancelledError
  | by_exception e =>
      if truthy_exn e then e
      else RuntimeError "Task exited without calling task_status.started()"
  | by_result _ => RuntimeError "Task exited without calling task_status.started()"
  end.

(** Resolving a future on the loop thread, whichever way. *)
Definition resolve (n : nat) (r : resolution) (f : fut_id) : M unit :=
  match r with
  | by_result v => Future_set_result (invoke n) loop_thread f v
  | by_exception e => Future_set_exception (invoke n) loop_thread f e
  | by_cancel => (Future_cancel (invoke n) loop_thread f ;; ret tt)%M
  end.

(** A world in which [start_task] has created its two futures: the
    completion future 0 with [task_done] registered, the readiness future 1. *)
Definition start_task_world : world :=
  mkWorld [mkFuture PENDING None None [task_done 1]; new_Future] [false] [] [false] []
          (mkPortal (Some loop_thread) 0 0 true []) [] NoHost [0] [].

(** The world right after a submission was accepted. *)
Definition submitted (func : callable) (args : list value)
  (kwargs : option fut_id) (w : world) : world :=
  set_tasks (tasks w ++ [spawned w func args kwargs (length (futures w))])
    (set_futures (futures w ++ [new_Future]) w).

(** The world after an external thread called [scope.cancel] through the
    portal: the task ran at once and resolved its future. *)
Definition after_call_scope_cancel (s : scope_id) (w : world) : world :=
  mkWorld (futures w ++ [mkFuture FINISHED (Some VNone) None []])
          (<[s:=true]> (scopes w)) (cells w ++ [None]) (events w) (cms w)
          (portal w) (tasks w ++ [mkTask [] Done]) (host w)
          [_task_group_cancel_scope (portal w)] (log w).

(** The world once [_call_func] has entered its cancel scope: the new
    scope, cancelled or not, is bound to the local [scope] and is the
    innermost scope of the running task. *)
Definition entered (cancelled : bool) (w : world) : world :=
  set_current (length (scopes w) :: current w)
    (set_cells (cells w ++ [Some (length (scopes w))])
       (set_scopes (scopes w ++ [cancelled]) w)).

Definition add_callback (cb : callback) (F : Future) : Future :=
  mkFuture (_state F) (_result F) (_exception F) (_done_callbacks F ++ [cb]).

(** A world whose only future was cancelled before its task ran. *)
Definition cancelled_world : world :=
  mkWorld [mkFuture CANCELLED None None []] [false] [] [false] []
          (mkPortal (Some loop_thread) 0 0 true []) [] NoHost [0] [].

Definition stopped_portal (p : BlockingPortal) : BlockingPortal :=
  mkPortal None (_stop_event p) (_task_group_cancel_scope p)
           (_task_group_active p) (_task_group_errors p).

(** The world after an external thread ran [portal.call(portal.stop, b)]:
    the task ran at once, inside a scope of its own, and resolved its
    future. *)
Definition after_call_stop (b : bool) (w : world) : world :=
  mkWorld
    (futures w
     ++ [mkFuture FINISHED (Some VNone) None [callback_ (length (cells w))]])
    (if b
     then <[_task_group_cancel_scope (portal w):=true]> (scopes w ++ [false])
     else scopes w ++ [false])
    (cells w ++ [None])
    (<[_stop_event (portal w):=true]> (events w))
    (cms w) (stopped_portal (portal w))
    (tasks w ++ [mkTask [] Done]) (host w)
    [_task_group_cancel_scope (portal w)]
    (StopCalled b :: log w).

(** What the generator does once the body of the [with] statement ended
    with outcome [o]. *)
Definition after_yield (n : nat) (tid : thread_id) (run_future : fut_id)
  (o : outcome value) : M value :=
  match o with
  | Val r =>
      (call (block n) tid portal_stop [VBool false] ;;
       Future_result (block n) tid run_future ;;
       ret r)%M
  | Raised e =>
      (call (block n) tid portal_stop [VBool true] ;; raise e)%M
  end.

(** The world in which the portal is handed to the body of the [with]
    statement: the launcher's future holds the portal, the worker's future
    is running, and the hosting thread sleeps until the portal is stopped. *)
Definition handed_over (k : outcome unit -> coro) (w : world) : world :=
  mkWorld
    (futures w
     ++ [mkFuture FINISHED (Some VPortal) None []; mkFuture RUNNING None None []])
    (scopes w ++ [false]) (cells w) (events w ++ [false]) (cms w)
    (mkPortal (Some loop_thread) (length (events w)) (length (scopes w)) true [])
    (tasks w)
    (HostRunning
       (mkTask [length (scopes w)] (Waiting (WEvent (length (events w))) k))
       (S (length (futures w))))
    [length (scopes w)] (log w).

(** Whether the body of the [with] statement left by an exception. *)
Definition by_exception_exit (o : outcome value) : bool :=
  match o with Val _ => false | Raised _ => true end.




(** An adapter in the heap of a world whose portal runs. *)
Definition adapter_world : world :=
  mkWorld [] [false] [] [false] [mkFields None None None None]
          (mkPortal (Some loop_thread) 0 0 true []) [] NoHost [0] [].

Definition sample_cm : AsyncContextManager :=
  mkAsyncCM (Emit 1 ;; Return (VInt 7))%coro
            (fun info =>
               (Emit 2 ;;
                match info with
                | Some e => Throw e
                | None => Return (VBool false)
                end)%coro).

(** *** Further vocabulary: whole calls and the portal's life cycle *)

(** What leaves the task when its future was already resolved by someone
    else: [set_result] and [set_exception] refuse a finished future. *)
Definition task_outcome_on_finished (o : outcome value) : outcome value :=
  match o with
  | Val _ => Raised InvalidStateError
  | Raised exc =>
      if isinstance_cancelled_exc_class exc then Val VNone
      else Raised InvalidStateError
  end.

(** The usage error [_check_running] raises for a caller on the loop
    thread, by the state of the portal. *)
Definition loop_thread_usage_error (p : BlockingPortal) : exn :=
  match _event_loop_thread_id p with
  | None => RuntimeError "This portal is not running"
  | Some _ => RuntimeError "This method cannot be called from the event loop thread"
  end.


(** The world after the task of a plain function ran: its side effects are
    logged in order, the local [scope] was allocated and never bound, and
    the future holds the outcome. *)
Definition after_plain_function (es : list nat) (o : outcome value) (f : fut_id)
  (w : world) : world :=
  mkWorld (<[f:=resolved (resolution_of o) new_Future]> (futures w))
          (scopes w) (cells w ++ [None]) (events w) (cms w) (portal w)
          (tasks w) (host w) (current w) (rev (map Emitted es) ++ log w).

(** The world right after [start_task] spawned its task: the readiness
    future, the completion future with [task_done] registered, and the
    task. *)
Definition submitted_with_status (func : callable) (args : list value)
  (w : world) : world :=
  set_tasks
    (tasks w ++ [spawned w func args (Some (length (futures w))) (S (length (futures w)))])
    (set_futures
       (futures w ++ [new_Future;
                      mkFuture PENDING None None [task_done (length (futures w))]]) w).

(** The world once [async with BlockingPortal()] was entered. *)
Definition portal_entered (w : world) : world :=
  mkWorld (futures w) (scopes w ++ [false]) (cells w) (events w ++ [false]) (cms w)
          (mkPortal (Some loop_thread) (length (events w)) (length (scopes w)) true [])
          (tasks w) (host w) (length (scopes w) :: current w) (log w).

(** A world in which a task of the portal runs inside its scope 1, bound
    to cell 0, with [callback] registered on its pending future 0. *)
Definition registered_world : world :=
  mkWorld [mkFuture PENDING None None [callback_ 0]] [false; false] [Some 1] [false] []
          (mkPortal (Some loop_thread) 0 0 true []) [] NoHost [1; 0] [].

(** What is left of [_call_func] when the coroutine it awaits, inside its
    scope [s], is suspended with [k] left to run. *)
Definition suspended_call_func (s : scope_id) (k : outcome unit -> coro)
  (f : fut_id) (cell : cell_id) : outcome unit -> coro :=
  fun r => _call_func_from (leave_CancelScope s (k r)) f cell.



(** [BlockingPortal.__aexit__], with the outcome of the block:
    [await self.stop()], then the exit of the task group. *)
Definition BlockingPortal_aexit (o : outcome value) : coro :=
  bind_coro (stop false) (fun o1 =>
    match o1 with
    | Raised e => Throw e
    | Val _ =>
        bind_coro (TaskGroup_aexit (exc_of o)) (fun o2 =>
          match o2, o with
          | Raised e, _ => Throw e
          | Val _, Val v => Return VNone
          | Val (VBool true), Raised _ => Return VNone
          | Val _, Raised e => Throw e
          end)
    end).

(** What is left of [run_portal] while it sleeps until the portal is
    stopped. *)
Definition run_portal_sleeping (r : outcome unit) : coro :=
  bind_coro (match r with Val _ => Return VNone | Raised e => Throw e end)
    BlockingPortal_aexit.

(** What is left of [__aexit__] while the task group joins its children. *)
Definition BlockingPortal_joining (o : outcome value) (r : outcome unit) : coro :=
  bind_coro
    ((errs <- TaskGroupErrors ;;
      s <- PortalCancelScope ;;
      swallowed <- ScopeExit s (exc_of o) ;;
      match errs with
      | e :: _ => Throw e
      | [] => Return (VBool swallowed)
      end)%coro)
    (fun o2 =>
       match o2, o with
       | Raised e, _ => Throw e
       | Val _, Val v => Return VNone
       | Val (VBool true), Raised _ => Return VNone
       | Val _, Raised e => Throw e
       end).

(** The hosting thread sleeps in [run_portal], in the scope of the task
    group, while every task of the portal is done and none has failed. *)
Record host_sleeping (rf : fut_id) (w : world) : Prop := {
  hs_host : host w = HostRunning
                       (mkTask [_task_group_cancel_scope (portal w)]
                          (Waiting (WEvent (_stop_event (portal w))) run_portal_sleeping))
                       rf;
  hs_tasks : forallb task_is_done (tasks w) = true;
  hs_future : futures w !! rf = Some (mkFuture RUNNING None None []);
  hs_errors : _task_group_errors (portal w) = []
}.

(** The portal is still serving: it runs on the loop thread, its stop
    event exists, and the hosting thread sleeps as above. *)
Record still_serving (rf : fut_id) (w : world) : Prop := {
  ss_running : _event_loop_thread_id (portal w) = Some loop_thread;
  ss_event : _stop_event (portal w) < length (events w);
  ss_sleeping : host_sleeping rf w
}.

(** The world once the hosting thread has left [run_portal] and ended. *)
Definition host_ended (rf : fut_id) (w : world) : world :=
  mkWorld (<[rf:=mkFuture FINISHED (Some VNone) None []]> (futures w))
          (scopes w) (cells w)
          (<[_stop_event (portal w):=true]> (events w)) (cms w)
          (stopped_portal (portal w)) (tasks w) HostExited []
          (StopCalled false :: log w).

(** The world after [run_portal] found its future cancelled and left the
    block at once: the portal was created, entered and stopped. *)
Definition not_served (future : fut_id) (F : Future) (w : world) : world :=
  mkWorld
    (<[future:=mkFuture CANCELLED_AND_NOTIFIED (_result F) (_exception F)
                 (_done_callbacks F)]> (futures w))
    (scopes w ++ [false]) (cells w) (events w ++ [true]) (cms w)
    (mkPortal None (length (events w)) (length (scopes w)) true [])
    (tasks w) (host w) (length (scopes w) :: current w) (StopCalled false :: log w).

(** What a sample coroutine has left to run after its first suspension
    point: one effect, unless the suspension point raises. *)
Definition sample_continuation (r : outcome unit) : coro :=
  match r with
  | Val _ => (Emit 2 ;; Return VNone)%coro
  | Raised e => Throw e
  end.


(** A task function that reports readiness with 5 and then waits. *)
Definition sample_service (_ : list value) (task_status : option fut_id) : coro :=
  match task_status with
  | Some t => (started t (VInt 5) ;; await_ WForever (Return VNone))%coro
  | None => Return VNone
  end.

(** ** Basic facts *)

Lemma block_ready n tid cond w :
  cond w = true -> block n tid cond w = (Some (Val tt), w).
Proof.
  intros H. destruct n; cbn; unfold wait_until; rewrite H; reflexivity.
Qed.

(** A wait returns only once its condition holds. *)
Lemma block_returns n : forall tid cond w r w',
  block n tid cond w = (Some r, w') -> r = Val tt /\ cond w' = true.
Proof.
  induction n as [|n IH]; intros tid cond w r w'; cbn.
  - destruct (cond w) eqn:E; intros [= <- <-]; auto.
  - unfold wait_until. destruct (cond w) eqn:E.
    + intros [= <- <-]; auto.
    + destruct (Nat.eqb tid loop_thread); [discriminate|].
      destruct (loop_turn (invoke n) w) as [[[[]|]|] w1]; try discriminate.
      apply IH.
Qed.

Lemma lookup_snoc {A : Type} (l : list A) (x : A) : (l ++ [x]) !! length l = Some x.
Proof. apply list_lookup_middle. reflexivity. Qed.

Lemma insert_snoc {A : Type} (l : list A) (x y : A) :
  <[length l:=y]> (l ++ [x]) = l ++ [y].
Proof.
  rewrite insert_app_r_alt by lia. rewrite Nat.sub_diag. reflexivity.
Qed.

(** ** Submission entry points (C5) *)

Lemma submission_rejected_cases n tid func args w :
  if submission_rejected tid w
  then exists msg,
      start_task_soon tid func args w = (Some (Raised (RuntimeError msg)), w)
      /\ call (block n) tid func args w = (Some (Raised (RuntimeError msg)), w)
  else start_task_soon tid func args w
       = (Some (Val (length (futures w))),
          set_tasks (tasks w ++ [spawned w func args None (length (futures w))])
            (set_futures (futures w ++ [new_Future]) w)).
Proof.
  destruct w as [fs ss cs es cm p ts h cur lg].
  unfold submission_rejected, call, start_task_soon, _check_running,
    _spawn_task_from_thread.
  cbn. destruct (_event_loop_thread_id p) as [id|]; cbn.
  - destruct (Nat.eqb id tid); cbn; eauto.
  - eauto.
Qed.

(** C5 as stated fails for a portal that was never started.
    [BlockingPortal.__init__] already records the identity of the creating
    thread, so a portal that was created and never entered (its task group
    is not active) passes [_check_running] for a caller on another thread:
    no usage error is raised, the future is created and the submission
    reaches [_spawn_task_from_thread]. *)
Lemma never_started_portal_is_not_rejected :
  let w := snd (BlockingPortal_init empty_world) in
  let func := sync_function (fun _ => ([], Val VNone)) in
  _task_group_active (portal w) = false
  /\ _event_loop_thread_id (portal w) = Some loop_thread
  /\ submission_rejected 1 w = false
  /\ _check_running 1 w = (Some (Val tt), w)
  /\ start_task_soon 1 func [] w
     = (f <- alloc_future ;; _spawn_task_from_thread func [] None f ;; ret f)%M w
  /\ fst (start_task_soon 1 func [] w) = Some (Val 0).
Proof. repeat split. Qed.

(** C5, amended: every submission entry point ([start_task_soon], [call],
    [start_task]) raises a RuntimeError and leaves the world untouched, so
    that no task is spawned, exactly when the portal was stopped (its
    [_event_loop_thread_id] is None, which only [stop] assigns) or the
    caller is the thread recorded in the portal, its event-loop thread;
    otherwise, and so also on a portal that was created and never entered,
    the check passes, the submission goes through and a task is spawned. *)
Theorem submission_rejected_iff n tid func args w :
  if submission_rejected tid w
  then exists msg,
      start_task_soon tid func args w = (Some (Raised (RuntimeError msg)), w)
      /\ call (block n) tid func args w = (Some (Raised (RuntimeError msg)), w)
      /\ start_task (invoke n) (block n) tid func args w
         = (Some (Raised (RuntimeError msg)), w)
  else exists f w1 tsf f2 w2,
      start_task_soon tid func args w = (Some (Val f), w1)
      /\ tasks w1 = tasks w ++ [spawned w func args None f]
      /\ call (block n) tid func args w = Future_result (block n) tid f w1
      /\ tasks w2 = tasks w ++ [spawned w func args (Some tsf) f2]
      /\ start_task (invoke n) (block n) tid func args w
         = (v <- Future_result (block n) tid tsf ;; ret (f2, v))%M w2.
Proof.
  destruct w as [fs ss cs es cm p ts h cur lg].
  unfold submission_rejected, call, start_task, start_task_soon, _check_running,
    _spawn_task_from_thread, Future_add_done_callback.
  cbn. destruct (_event_loop_thread_id p) as [id|] eqn:E; cbn.
  - destruct (Nat.eqb id tid) eqn:E'; cbn.
    + eexists; repeat split; reflexivity.
    + do 5 eexists. split; [reflexivity|]. split; [reflexivity|].
      split; [reflexivity|].
      rewrite lookup_snoc. cbn. rewrite insert_snoc.
      match goal with
      | |- ?A /\ ?B => assert (HB : B) by reflexivity; split; [reflexivity | exact HB]
      end.
  - eexists; repeat split; reflexivity.
Qed.

(** ** Stopping the portal (C6) *)

Lemma event_is_set_insert w ev es :
  events w = <[ev:=true]> es -> ev < length es -> event_is_set w ev = true.
Proof.
  intros E H. unfold event_is_set.
  rewrite E, list_lookup_insert_eq by assumption. reflexivity.
Qed.

(** C6: [stop(cancel_remaining)] marks the portal non-running, so that
    every later submission is rejected; it sets the stop event, which makes
    a task suspended in [sleep_until_stopped] runnable again; and it cancels
    the cancel scope of the task group if and only if [cancel_remaining] is
    true, leaving the tasks, their futures and (when it is false) their
    cancellation status as they are. *)
Theorem stop_marks_sets_and_cancels inv cancel_remaining w :
  portal_allocated w ->
  exists w',
    run_code inv (stop cancel_remaining) w = (Finished (Val VNone), w')
    (* the portal is marked non-running: every later submission is rejected *)
    /\ _event_loop_thread_id (portal w') = None
    /\ (forall n tid func args,
          let err := RuntimeError "This portal is not running" in
          start_task_soon tid func args w' = (Some (Raised err), w')
          /\ call (block n) tid func args w' = (Some (Raised err), w')
          /\ start_task (invoke n) (block n) tid func args w'
             = (Some (Raised err), w'))
    (* the stop event is set: whatever sleeps until the stop is released *)
    /\ event_is_set w' (_stop_event (portal w)) = true
    /\ (exists k,
          run_code inv sleep_until_stopped w
          = (Parked (WEvent (_stop_event (portal w))) k, w)
          /\ k (Val tt) = Return VNone
          /\ forall scs,
               runnable w' (mkTask scs (Waiting (WEvent (_stop_event (portal w))) k))
               = true)
    (* the task group's scope is cancelled iff cancel_remaining *)
    /\ scopes w'
       = (if cancel_remaining
          then <[_task_group_cancel_scope (portal w):=true]> (scopes w)
          else scopes w)
    /\ cancel_called w' (_task_group_cancel_scope (portal w))
       = cancel_remaining || cancel_called w (_task_group_cancel_scope (portal w))
    (* the tasks themselves and their futures are left as they are *)
    /\ tasks w' = tasks w
    /\ futures w' = futures w
    /\ (cancel_remaining = false ->
        forall t, task_cancelled w' t = task_cancelled w t).
Proof.
  intros [Hev Hsc].
  destruct w as [fs ss cs es cm p ts h cur lg]. cbn in Hev, Hsc.
  unfold stop, sleep_until_stopped. cbn.
  assert (Hset : forall x, event_is_set
            (mkWorld fs x cs (<[_stop_event p:=true]> es) cm
               (mkPortal None (_stop_event p) (_task_group_cancel_scope p)
                  (_task_group_active p) (_task_group_errors p))
               ts h cur (StopCalled cancel_remaining :: lg)) (_stop_event p) = true).
  { intros x. eapply event_is_set_insert; [reflexivity|assumption]. }
  destruct cancel_remaining; cbn; eexists; (split; [reflexivity|]); cbn;
    (split; [reflexivity|]); (split; [auto|]);
    (split; [apply Hset|]);
    (split; [eexists; split; [reflexivity|]; split; [reflexivity|];
             intros scs; unfold runnable; cbn; rewrite Hset;
             apply orb_true_r|]);
    (split; [reflexivity|]).
  - split; [|auto; split; [reflexivity|]; split; [reflexivity|]; discriminate].
    unfold cancel_called; cbn. rewrite list_lookup_insert_eq by assumption.
    reflexivity.
  - repeat split; reflexivity.
Qed.

Lemma stop_witness :
  exists w',
    run_code (invoke 1) (stop true) running_world = (Finished (Val VNone), w')
    /\ _event_loop_thread_id (portal w') = None
    /\ event_is_set w' 0 = true
    /\ cancel_called w' 0 = true.
Proof.
  destruct (stop_marks_sets_and_cancels (invoke 1) true running_world)
    as (w' & H1 & H2 & _ & H4 & _ & _ & H7 & _).
  - split; cbn; lia.
  - exists w'. repeat split; assumption.
Defined.

(** ** Blocking calls (C7) *)

Lemma Future_result_await n tid f w :
  Future_result (block n) tid f w = await_result n tid f w.
Proof.
  unfold Future_result, await_result. cbn.
  destruct (block n tid (future_done f) w) as [[[[]|e]|] w'] eqn:E; try reflexivity.
  destruct (futures w' !! f) as [F|]; [|reflexivity].
  unfold terminal_outcome, __get_result.
  destruct (state_cancelled (_state F)); [reflexivity|].
  destruct (_exception F); [reflexivity|].
  destruct (_result F); reflexivity.
Qed.



(** ** Running coroutines *)

(** A try block followed by handlers runs the block first; if it parks,
    the handlers stay attached to its continuation. *)
Lemma run_bind inv c : forall k w,
  run_code inv (bind_coro c k) w
  = match run_code inv c w with
    | (Finished o, w1) => run_code inv (k o) w1
    | (Parked wt k', w1) => (Parked wt (fun r => bind_coro (k' r) k), w1)
    | (Hung, w1) => (Hung, w1)
    end.
Proof.
  induction c as [v|e|A a k' IH|wt k' IH]; intros k w; cbn; try reflexivity.
  destruct (exec_action inv a w) as [[r|] w1]; [apply IH|reflexivity].
Qed.

Lemma run_call_func_from inv try_block future scope w :
  run_code inv (_call_func_from try_block future scope) w
  = match run_code inv try_block w with
    | (Finished o, w1) =>
        run_code inv (_call_func_from (outcome_coro o) future scope) w1
    | (Parked wt k, w1) =>
        (Parked wt (fun r => _call_func_from (k r) future scope), w1)
    | (Hung, w1) => (Hung, w1)
    end.
Proof.
  unfold _call_func_from, try_finally. rewrite !run_bind.
  destruct (run_code inv try_block w) as [[o|wt k|] w1]; try reflexivity.
  destruct o; cbn [outcome_coro bind_coro]; rewrite run_bind; reflexivity.
Qed.

Lemma run_leave_CancelScope inv s body w :
  run_code inv (leave_CancelScope s body) w
  = match run_code inv body w with
    | (Finished o, w1) => run_code inv (leave_CancelScope s (outcome_coro o)) w1
    | (Parked wt k, w1) => (Parked wt (fun r => leave_CancelScope s (k r)), w1)
    | (Hung, w1) => (Hung, w1)
    end.
Proof.
  unfold leave_CancelScope. rewrite run_bind.
  destruct (run_code inv body w) as [[o|wt k|] w1]; try reflexivity.
  destruct o; reflexivity.
Qed.

(** From its first statement to the [await]: what is left of the task is
    the awaited coroutine inside the scope, followed by the clauses. *)
Lemma call_func_prefix inv func args kwargs retval f w F :
  call_function func args kwargs = Coroutine retval ->
  futures w !! f = Some F ->
  let scope := length (cells w) in
  let s := length (scopes w) in
  run_code inv (_call_func func args kwargs f) w
  = if state_cancelled (_state F)
    then run_code inv (_call_func_from (leave_CancelScope s retval) f scope)
           (entered true w)
    else if state_done (_state F)
    then run_code inv (_call_func func args kwargs f) w
    else run_code inv (_call_func_from (leave_CancelScope s retval) f scope)
           (set_futures (<[f:=add_callback (callback_ scope) F]> (futures w))
              (entered false w)).
Proof.
  intros Hcall Hf scope s.
  destruct (state_cancelled (_state F)) eqn:Hc.
  - unfold _call_func. cbn [run_code stmt exec_action CancelScope_enter CancelScope_cancel].
    rewrite !run_call_func_from. unfold _call_func_try. rewrite Hcall.
    cbn [run_code stmt exec_action CancelScope_enter CancelScope_cancel]. rewrite !run_leave_CancelScope.
    cbn [run_code stmt exec_action CancelScope_enter CancelScope_cancel]. unfold Future_cancelled.
    cbn [bind get_future ret]. cbn. rewrite Hf. cbn. rewrite Hc.
    cbn. unfold entered, scope, s. destruct w as [fs ss cs es cm p ts h cur lg].
    cbn. rewrite !insert_snoc. reflexivity.
  - destruct (state_done (_state F)) eqn:Hd; [reflexivity|].
    unfold _call_func. cbn [run_code stmt exec_action CancelScope_enter CancelScope_cancel].
    rewrite !run_call_func_from. unfold _call_func_try. rewrite Hcall.
    cbn [run_code stmt exec_action CancelScope_enter CancelScope_cancel]. rewrite !run_leave_CancelScope.
    cbn [run_code stmt exec_action CancelScope_enter CancelScope_cancel]. unfold Future_cancelled.
    cbn [bind get_future ret]. cbn. rewrite Hf. cbn. rewrite Hc.
    cbn. unfold Future_add_done_callback. cbn. rewrite Hf. cbn. rewrite Hd.
    cbn. unfold entered, scope, s, add_callback.
    destruct w as [fs ss cs es cm p ts h cur lg].
    cbn. rewrite !insert_snoc. reflexivity.
Qed.

(** ** The callbacks on the loop thread and elsewhere *)

(** On the loop thread [callback] changes nothing: it either does nothing
    (the future is not cancelled) or fails with an ordinary error at
    [scope.cancel] or in [self.call]. *)
Lemma invoke_callback_on_loop n c f w F :
  futures w !! f = Some F ->
  portal_bound w ->
  exists r, invoke (S n) loop_thread (callback_ c) f w = (Some r, w)
            /\ (state_cancelled (_state F) = false -> r = Val tt)
            /\ match r with Val _ => True | Raised e => isinstance_Exception e = true end.
Proof.
  intros Hf Hp. destruct w as [fs ss cs es cm p ts h cur lg].
  unfold portal_bound in Hp. cbn in *. unfold Future_cancelled. cbn. rewrite Hf.
  destruct (state_cancelled (_state F)); cbn; [|eauto].
  destruct (mjoin (cs !! c)) as [s|]; cbn.
  - unfold call, start_task_soon, _check_running. cbn.
    destruct Hp as [-> | ->]; cbn; eexists; (split; [reflexivity|]);
      split; [discriminate|reflexivity|discriminate|reflexivity].
  - eexists. split; [reflexivity|]. split; [discriminate|reflexivity].
Qed.

Lemma invoke_task_done n tid tsf f w F T :
  futures w !! f = Some F ->
  state_done (_state F) = true ->
  futures w !! tsf = Some T ->
  _done_callbacks T = [] ->
  _state T <> RUNNING ->
  invoke (S n) tid (task_done tsf) f w
  = (Some (Val tt), set_futures (<[tsf:=task_done_effect F T]> (futures w)) w).
Proof.
  intros Hf Hd Ht Hcb Hr. destruct w as [fs ss cs es cm p ts h cur lg].
  cbn in *. unfold Future_done, Future_cancelled, task_done_effect. cbn. rewrite Ht.
  destruct (state_done (_state T)) eqn:ET; cbn.
  { rewrite list_insert_id by assumption. reflexivity. }
  rewrite Hf. cbn.
  destruct (state_cancelled (_state F)) eqn:EC; cbn.
  - unfold Future_cancel. cbn. rewrite Ht.
    destruct (_state T) eqn:EST; try discriminate; try congruence. cbn.
    unfold _invoke_callbacks. cbn.
    rewrite list_lookup_insert_eq by (eapply lookup_lt_Some; eassumption).
    cbn. rewrite Hcb. reflexivity.
  - unfold Future_exception. cbn.
    rewrite block_ready by (unfold future_done; cbn; rewrite Hf; assumption).
    cbn. rewrite Hf, EC. cbn.
    unfold Future_set_exception, _invoke_callbacks.
    destruct (_exception F) as [e|]; [destruct (truthy_exn e)|]; cbn;
      rewrite Ht, ET; cbn;
      rewrite list_lookup_insert_eq by (eapply lookup_lt_Some; eassumption);
      cbn; rewrite Hcb; reflexivity.
Qed.

Lemma notify_keeps F ots fs f :
  fs !! f = Some F -> state_done (_state F) = true ->
  notify_readiness F ots fs !! f = Some F.
Proof.
  intros Hf Hd. destruct ots as [t|]; cbn; [|assumption].
  destruct (fs !! t) as [T|] eqn:ET; [|assumption].
  destruct (decide (t = f)) as [Heq|Hne].
  - subst t. assert (T = F) by congruence. subst T.
    rewrite list_lookup_insert_eq by (eapply lookup_lt_Some; eassumption).
    unfold task_done_effect. rewrite Hd. reflexivity.
  - rewrite list_lookup_insert_ne by assumption. assumption.
Qed.

(** Notifying the callbacks of a task's future on the loop thread: the
    readiness future is resolved, and nothing else changes but the log. *)
Lemma notify_on_loop n f w F ots oc :
  futures w !! f = Some F ->
  state_done (_state F) = true ->
  _done_callbacks F = registered ots oc ->
  readiness_future w ots ->
  portal_bound w ->
  exists lg,
    _invoke_callbacks (invoke (S n)) loop_thread f w
    = (Some (Val tt),
       with_log lg (set_futures (notify_readiness F ots (futures w)) w))
    /\ (state_cancelled (_state F) = false -> lg = log w).
Proof.
  intros Hf Hd Hcb Hts Hp. unfold _invoke_callbacks.
  cbn [bind get_future]. rewrite Hf, Hcb.
  assert (Hcb_ : forall c w1, futures w1 !! f = Some F -> portal_bound w1 ->
            exists lg, invoke_each (invoke (S n)) loop_thread [callback_ c] f w1
                       = (Some (Val tt), with_log lg w1)
                       /\ (state_cancelled (_state F) = false -> lg = log w1)).
  { intros c w1 Hf1 Hp1.
    destruct (invoke_callback_on_loop n c f w1 F Hf1 Hp1) as (r & E & Hv & Hr).
    cbn [invoke_each bind try_except]. rewrite E.
    destruct r as [[]|e].
    - exists (log w1). split; [destruct w1; reflexivity|reflexivity].
    - rewrite Hr. exists (CallbackFailed e :: log w1).
      split; [destruct w1; reflexivity|].
      intros Hc. specialize (Hv Hc). discriminate. }
  destruct ots as [t|]; cbn [registered app notify_readiness].
  - destruct Hts as (T & Ht & HcT & HrT). rewrite Ht.
    cbn [invoke_each bind try_except].
    rewrite (invoke_task_done n loop_thread t f w F T Hf Hd Ht HcT HrT).
    destruct oc as [c|].
    + pose proof (notify_keeps F (Some t) (futures w) f Hf Hd) as Hk.
      cbn in Hk. rewrite Ht in Hk.
      edestruct (Hcb_ c) as (lg & E & Hlg);
        [| |rewrite E; exists lg; split; [reflexivity|]].
      * exact Hk.
      * destruct w; exact Hp.
      * intros Hc. rewrite (Hlg Hc). reflexivity.
    + exists (log w). split; [destruct w; reflexivity|reflexivity].
  - destruct oc as [c|].
    + destruct (Hcb_ c w Hf Hp) as (lg & E & Hlg). rewrite E.
      exists lg. split; [destruct w; reflexivity|exact Hlg].
    + exists (log w). split; [destruct w; reflexivity|reflexivity].
Qed.

(** ** Resolving the future of a task on the loop thread *)

Lemma not_done_not_cancelled s : state_done s = false -> state_cancelled s = false.
Proof. destruct s; cbn; congruence. Qed.

Lemma readiness_future_insert w ots oc f F F' :
  futures w !! f = Some F ->
  _done_callbacks F = registered ots oc ->
  readiness_future w ots ->
  readiness_future (set_futures (<[f:=F']> (futures w)) w) ots.
Proof.
  intros Hf Hcb Hts. destruct ots as [t|]; [|exact I].
  destruct Hts as (T & Ht & HcT & HrT). exists T. cbn.
  rewrite list_lookup_insert_ne; [auto|].
  intros ->. assert (T = F) by congruence. subst T.
  rewrite HcT in Hcb. discriminate.
Qed.

Lemma resolve_on_loop n r f w F ots oc :
  futures w !! f = Some F ->
  _state F = PENDING \/ (r <> by_cancel /\ _state F = RUNNING) ->
  _done_callbacks F = registered ots oc ->
  readiness_future w ots ->
  portal_bound w ->
  exists lg,
    match r with
    | by_result v =>
        Future_set_result (invoke (S n)) loop_thread f v w
        = (Some (Val tt), after_resolution r f F ots lg w)
    | by_exception e =>
        Future_set_exception (invoke (S n)) loop_thread f e w
        = (Some (Val tt), after_resolution r f F ots lg w)
    | by_cancel =>
        Future_cancel (invoke (S n)) loop_thread f w
        = (Some (Val true), after_resolution r f F ots lg w)
    end
    /\ (r <> by_cancel -> lg = log w).
Proof.
  intros Hf Hst Hcb Hts Hp.
  pose proof (lookup_lt_Some _ _ _ Hf) as Hlt.
  assert (Hn : exists lg,
    _invoke_callbacks (invoke (S n)) loop_thread f
      (set_futures (<[f:=resolved r F]> (futures w)) w)
    = (Some (Val tt), after_resolution r f F ots lg w)
    /\ (r <> by_cancel -> lg = log w)).
  { edestruct (notify_on_loop n f (set_futures (<[f:=resolved r F]> (futures w)) w)
                 (resolved r F) ots oc) as (lg & E & Hlg).
    - cbn. apply list_lookup_insert_eq. assumption.
    - destruct r; reflexivity.
    - destruct r; exact Hcb.
    - eapply readiness_future_insert; eassumption.
    - destruct w; exact Hp.
    - exists lg. split; [rewrite E; destruct w; reflexivity|].
      intros Hr. rewrite Hlg; [destruct w; reflexivity|].
      destruct r; [reflexivity|reflexivity|congruence]. }
  destruct Hn as (lg & Hn & Hlg). exists lg. split; [|exact Hlg].
  unfold Future_set_result, Future_set_exception, Future_cancel.
  destruct r; cbn [bind get_future put_future modify ret]; rewrite Hf;
    destruct Hst as [Hst|[Hr Hst]]; try congruence; rewrite Hst;
    cbn [state_done bind ret modify]; cbn in Hn |- *; rewrite Hn; reflexivity.
Qed.

(** ** The except, else and finally clauses of _call_func *)

Lemma run_handlers_pending n o f cell w F ots oc :
  futures w !! f = Some F ->
  _state F = PENDING ->
  _done_callbacks F = registered ots oc ->
  readiness_future w ots ->
  portal_bound w ->
  exists lg,
    run_code (invoke (S n)) (_call_func_from (outcome_coro o) f cell) w
    = (Finished (task_outcome_of o),
       set_cells (<[cell:=None]> (cells w))
         (after_resolution (resolution_of o) f F ots lg w))
    /\ (resolution_of o <> by_cancel -> lg = log w).
Proof.
  intros Hf Hst Hcb Hts Hp.
  destruct (resolve_on_loop n (resolution_of o) f w F ots oc Hf (or_introl Hst)
              Hcb Hts Hp) as (lg & E & Hlg).
  exists lg. split; [|exact Hlg]. unfold _call_func_from, try_finally.
  destruct o as [v|exc]; cbn [resolution_of task_outcome_of] in *.
  - run_step. unfold Future_cancelled. cbn [bind get_future ret]. rewrite Hf, Hst.
    run_step. rewrite E. run_step. destruct w; reflexivity.
  - destruct (isinstance_cancelled_exc_class exc) eqn:EC.
    + run_step. rewrite EC. run_step. rewrite E. run_step.
      destruct w; reflexivity.
    + run_step. rewrite EC. run_step.
      unfold Future_cancelled. cbn [bind get_future ret]. rewrite Hf, Hst.
      run_step. rewrite E.
      destruct (isinstance_Exception exc); run_step; destruct w; reflexivity.
Qed.

Lemma run_handlers_cancelled inv o f cell w F :
  futures w !! f = Some F ->
  state_cancelled (_state F) = true ->
  run_code inv (_call_func_from (outcome_coro o) f cell) w
  = (Finished (task_outcome_of o), set_cells (<[cell:=None]> (cells w)) w).
Proof.
  intros Hf Hst. unfold _call_func_from, try_finally.
  destruct o as [v|exc]; cbn [task_outcome_of].
  - run_step. unfold Future_cancelled. cbn [bind get_future ret]. rewrite Hf, Hst.
    run_step. reflexivity.
  - destruct (isinstance_cancelled_exc_class exc) eqn:EC.
    + run_step. rewrite EC. run_step. unfold Future_cancel.
      cbn [bind get_future ret]. rewrite Hf.
      destruct (_state F); try discriminate; run_step; reflexivity.
    + run_step. rewrite EC. run_step.
      unfold Future_cancelled. cbn [bind get_future ret]. rewrite Hf, Hst.
      destruct (isinstance_Exception exc); run_step; reflexivity.
Qed.

(** The same clauses on a future its holder marked running. *)
Lemma run_handlers_not_done n o f cell w F ots oc :
  futures w !! f = Some F ->
  _state F = PENDING \/ (resolution_of o <> by_cancel /\ _state F = RUNNING) ->
  _done_callbacks F = registered ots oc ->
  readiness_future w ots ->
  portal_bound w ->
  exists lg,
    run_code (invoke (S n)) (_call_func_from (outcome_coro o) f cell) w
    = (Finished (task_outcome_of o),
       set_cells (<[cell:=None]> (cells w))
         (after_resolution (resolution_of o) f F ots lg w)).
Proof.
  intros Hf Hst Hcb Hts Hp.
  destruct (resolve_on_loop n (resolution_of o) f w F ots oc Hf Hst
              Hcb Hts Hp) as (lg & E & Hlg).
  assert (Hc : state_cancelled (_state F) = false)
    by (destruct Hst as [->|[_ ->]]; reflexivity).
  exists lg. unfold _call_func_from, try_finally.
  destruct o as [v|exc]; cbn [resolution_of task_outcome_of] in *.
  - run_step. unfold Future_cancelled. cbn [bind get_future ret]. rewrite Hf, Hc.
    run_step. rewrite E. run_step. destruct w; reflexivity.
  - destruct (isinstance_cancelled_exc_class exc) eqn:EC.
    + run_step. rewrite EC. run_step. rewrite E. run_step.
      destruct w; reflexivity.
    + run_step. rewrite EC. run_step.
      unfold Future_cancelled. cbn [bind get_future ret]. rewrite Hf, Hc.
      run_step. rewrite E.
      destruct (isinstance_Exception exc); run_step; destruct w; reflexivity.
Qed.

(** A future that someone else has finished: [set_result] and
    [set_exception] raise, inside the else and except clauses, and
    [cancel] returns False. *)
Lemma run_handlers_finished inv o f cell w F :
  futures w !! f = Some F ->
  _state F = FINISHED ->
  run_code inv (_call_func_from (outcome_coro o) f cell) w
  = (Finished (task_outcome_on_finished o), set_cells (<[cell:=None]> (cells w)) w).
Proof.
  intros Hf Hst. unfold _call_func_from, try_finally.
  destruct o as [v|exc]; cbn [task_outcome_on_finished].
  - run_step. unfold Future_cancelled. cbn [bind get_future ret]. rewrite Hf, Hst.
    run_step. unfold Future_set_result. cbn [bind get_future raise]. rewrite Hf, Hst.
    run_step. reflexivity.
  - destruct (isinstance_cancelled_exc_class exc) eqn:EC.
    + run_step. rewrite EC. run_step. unfold Future_cancel.
      cbn [bind get_future ret]. rewrite Hf, Hst. run_step. reflexivity.
    + run_step. rewrite EC. run_step.
      unfold Future_cancelled. cbn [bind get_future ret]. rewrite Hf, Hst.
      run_step. unfold Future_set_exception. cbn [bind get_future raise].
      rewrite Hf, Hst. run_step. reflexivity.
Qed.

Lemma after_resolution_lookup r f F ots lg w :
  futures w !! f = Some F ->
  futures (after_resolution r f F ots lg w) !! f = Some (resolved r F).
Proof.
  intros Hf. unfold after_resolution. cbn. apply notify_keeps.
  - apply list_lookup_insert_eq. eapply lookup_lt_Some; eassumption.
  - destruct r; reflexivity.
Qed.

Lemma Future_result_done m tid f w F :
  futures w !! f = Some F ->
  state_done (_state F) = true ->
  Future_result (block m) tid f w = (Some (terminal_outcome F), w).
Proof.
  intros Hf Hd. rewrite Future_result_await. unfold await_result.
  rewrite block_ready by (unfold future_done; rewrite Hf; assumption).
  rewrite Hf. reflexivity.
Qed.

(** ** Scheduler cancellation reaches the future (C2) *)

(** The clauses after the await: a coroutine, or what remained of one,
    that raises the scheduler's cancellation while the task's own scope is
    not cancelled ends the task without an exception and cancels the
    pending future. *)
Lemma unwinding_cancels_future n s body f scope w w1 F ots oc :
  run_code (invoke (S n)) body w = (Finished (Raised SchedCancelled), w1) ->
  cancel_called w1 s = false ->
  futures w1 !! f = Some F ->
  _state F = PENDING ->
  _done_callbacks F = registered ots oc ->
  readiness_future w1 ots ->
  portal_bound w1 ->
  exists w',
    run_code (invoke (S n)) (_call_func_from (leave_CancelScope s body) f scope) w
    = (Finished (Val VNone), w')
    /\ futures w' !! f
       = Some (mkFuture CANCELLED (_result F) (_exception F) (_done_callbacks F))
    /\ future_cancelled f w' = true
    /\ forall m tid,
         Future_result (block m) tid f w' = (Some (Raised CancelledError), w').
Proof.
  intros Hrun Hs Hf Hst Hcb Hts Hp.
  rewrite run_call_func_from, run_leave_CancelScope, Hrun.
  unfold leave_CancelScope.
  cbn [outcome_coro bind_coro run_code exec_action exc_of CancelScope_exit bind get modify ret
       isinstance_cancelled_exc_class].
  replace (cancel_called w1 s) with false.
  cbn [andb].
  set (w2 := set_current (tl (current w1)) w1).
  assert (Hf2 : futures w2 !! f = Some F) by exact Hf.
  assert (Hts2 : readiness_future w2 ots) by (destruct ots; exact Hts).
  assert (Hp2 : portal_bound w2) by exact Hp.
  destruct (run_handlers_pending n (Raised SchedCancelled) f scope w2 F ots oc
              Hf2 Hst Hcb Hts2 Hp2) as (lg & E & _).
  change (run_code (invoke (S n)) (_call_func_from (Throw SchedCancelled) f scope) w2
          = (Finished (Val VNone),
             set_cells (<[scope:=None]> (cells w2))
               (after_resolution by_cancel f F ots lg w2))) in E.
  eexists. split; [exact E|].
  assert (Hl : futures (set_cells (<[scope:=None]> (cells w2))
                          (after_resolution by_cancel f F ots lg w2)) !! f
               = Some (resolved by_cancel F)).
  { exact (after_resolution_lookup by_cancel f F ots lg w2 Hf). }
  split; [exact Hl|]. split.
  - unfold future_cancelled. rewrite Hl. reflexivity.
  - intros m tid. erewrite Future_result_done; [|exact Hl|reflexivity]. reflexivity.
Qed.

(** C2: in [_call_func], when the coroutine that [func] returned raises
    the scheduler's cancellation exception while the task's own scope was
    not cancelled (the cancellation was not requested through the future),
    the task ends without an exception and its pending future becomes
    cancelled, with an empty error slot: a thread waiting for the future
    gets a cancellation error, not the scheduler's exception.  This holds
    when the coroutine raises in the first turn of the task, and at
    whichever later suspension point it is resumed: after every suspension
    what is left of [_call_func] is the remainder of the coroutine inside
    the scope, followed by the same clauses. *)
Theorem scheduler_cancellation_cancels_future n func args kwargs retval f w F ots :
  call_function func args kwargs = Coroutine retval ->
  futures w !! f = Some F ->
  _state F = PENDING ->
  _done_callbacks F = registered ots None ->
  let scope := length (cells w) in
  let s := length (scopes w) in
  let F1 := add_callback (callback_ scope) F in
  let w0 := set_futures (<[f:=F1]> (futures w)) (entered false w) in
  (* the coroutine raises in the first turn of the task *)
  (forall w1,
     run_code (invoke (S n)) retval w0 = (Finished (Raised SchedCancelled), w1) ->
     cancel_called w1 s = false ->
     futures w1 !! f = Some F1 ->
     readiness_future w1 ots ->
     portal_bound w1 ->
     exists w',
       run_code (invoke (S n)) (_call_func func args kwargs f) w
       = (Finished (Val VNone), w')
       /\ futures w' !! f = Some (resolved by_cancel F1)
       /\ future_cancelled f w' = true
       /\ forall m tid,
            Future_result (block m) tid f w' = (Some (Raised CancelledError), w'))
  (* the coroutine suspends in the first turn of the task *)
  /\ (forall wt k w1,
        run_code (invoke (S n)) retval w0 = (Parked wt k, w1) ->
        run_code (invoke (S n)) (_call_func func args kwargs f) w
        = (Parked wt (suspended_call_func s k f scope), w1))
  (* the task is resumed at a suspension point of the coroutine *)
  /\ forall k r w2,
       (forall wt' k' w3,
          run_code (invoke (S n)) (k r) w2 = (Parked wt' k', w3) ->
          run_code (invoke (S n)) (suspended_call_func s k f scope r) w2
          = (Parked wt' (suspended_call_func s k' f scope), w3))
       /\ forall w3,
            run_code (invoke (S n)) (k r) w2 = (Finished (Raised SchedCancelled), w3) ->
            cancel_called w3 s = false ->
            futures w3 !! f = Some F1 ->
            readiness_future w3 ots ->
            portal_bound w3 ->
            exists w',
              run_code (invoke (S n)) (suspended_call_func s k f scope r) w2
              = (Finished (Val VNone), w')
              /\ futures w' !! f = Some (resolved by_cancel F1)
              /\ future_cancelled f w' = true
              /\ forall m tid,
                   Future_result (block m) tid f w'
                   = (Some (Raised CancelledError), w').
Proof.
  intros Hcall Hf Hst Hcb scope s F1 w0.
  pose proof (call_func_prefix (invoke (S n)) func args kwargs retval f w F Hcall Hf)
    as Hpre.
  cbn zeta in Hpre. rewrite Hst in Hpre. cbn [state_cancelled state_done] in Hpre.
  fold scope s F1 in Hpre. fold w0 in Hpre.
  assert (Hcb1 : _done_callbacks F1 = registered ots (Some scope)).
  { unfold F1, add_callback, registered in *. cbn [_done_callbacks]. rewrite Hcb.
    rewrite app_nil_r. reflexivity. }
  split; [|split].
  - intros w1 Hrun Hs Hf1 Hts Hp. rewrite Hpre.
    exact (unwinding_cancels_future n s retval f scope w0 w1 F1 ots (Some scope)
             Hrun Hs Hf1 Hst Hcb1 Hts Hp).
  - intros wt k w1 Hrun. rewrite Hpre.
    rewrite run_call_func_from, run_leave_CancelScope, Hrun. reflexivity.
  - intros k r w2. split.
    + intros wt' k' w3 Hrun. unfold suspended_call_func.
      rewrite run_call_func_from, run_leave_CancelScope, Hrun. reflexivity.
    + intros w3 Hrun Hs Hf3 Hts Hp. unfold suspended_call_func.
      exact (unwinding_cancels_future n s (k r) f scope w2 w3 F1 ots (Some scope)
               Hrun Hs Hf3 Hst Hcb1 Hts Hp).
Qed.

(** An instance: a task submitted through a running portal parks in its
    coroutine; the scheduler then resumes it with its cancellation
    exception, as after a forced stop, while the future is still pending. *)
Lemma scheduler_cancellation_witness :
  let body := await_ WForever (Return VNone) in
  let func := coroutine_function (fun _ _ => body) in
  let w := set_current [0] (snd (start_task_soon 1 func [] running_world)) in
  exists k w1 w',
    run_code (invoke 1) (_call_func func [] None 1) w
    = (Parked WForever (suspended_call_func 1 k 1 0), w1)
    /\ run_code (invoke 1) (suspended_call_func 1 k 1 0 (Raised SchedCancelled)) w1
       = (Finished (Val VNone), w')
    /\ future_cancelled 1 w' = true
    /\ forall m tid,
         Future_result (block m) tid 1 w' = (Some (Raised CancelledError), w').
Proof.
  intros body func w.
  destruct (scheduler_cancellation_cancels_future 0 func [] None body 1 w new_Future None
              eq_refl eq_refl eq_refl eq_refl) as (_ & Hpark & Hres).
  cbn zeta in Hpark, Hres.
  specialize (Hpark WForever
                (fun r => match r with Val _ => Return VNone | Raised e => Throw e end)
                _ eq_refl).
  do 2 eexists.
  destruct (Hres (fun r => match r with Val _ => Return VNone | Raised e => Throw e end)
              (Raised SchedCancelled)
              (set_futures (<[1:=add_callback (callback_ 0) new_Future]> (futures w))
                 (entered false w))) as [_ Hc].
  destruct (Hc _ eq_refl) as (w' & H1 & _ & H3 & H4).
  - reflexivity.
  - reflexivity.
  - exact I.
  - right. reflexivity.
  - exists w'. split; [exact Hpark|]. split; [exact H1|]. split; [exact H3|exact H4].
Defined.

(** ** Errors of the task (C3) *)




(** ** The readiness channel of start_task (C10) *)

Lemma resolve_pending n r f w F ots oc :
  futures w !! f = Some F ->
  _state F = PENDING ->
  _done_callbacks F = registered ots oc ->
  readiness_future w ots ->
  portal_bound w ->
  exists lg,
    resolve (S n) r f w = (Some (Val tt), after_resolution r f F ots lg w).
Proof.
  intros Hf Hst Hcb Hts Hp.
  destruct (resolve_on_loop n r f w F ots oc Hf (or_introl Hst) Hcb Hts Hp)
    as (lg & E & _).
  exists lg. destruct r; cbn [resolve bind ret]; rewrite E; reflexivity.
Qed.

Lemma after_resolution_readiness r f F t T lg w :
  futures w !! f = Some F ->
  futures w !! t = Some T ->
  t <> f ->
  futures (after_resolution r f F (Some t) lg w) !! t
  = Some (task_done_effect (resolved r F) T).
Proof.
  intros Hf Ht Hne. unfold after_resolution. cbn.
  rewrite list_lookup_insert_ne by congruence. rewrite Ht.
  apply list_lookup_insert_eq. rewrite length_insert.
  eapply lookup_lt_Some; eassumption.
Qed.

Lemma registered_distinct w f F t T oc :
  futures w !! f = Some F ->
  futures w !! t = Some T ->
  _done_callbacks F = registered (Some t) oc ->
  _done_callbacks T = [] ->
  t <> f.
Proof.
  intros Hf Ht Hcb HcT ->. assert (T = F) by congruence. subst T.
  rewrite HcT in Hcb. discriminate.
Qed.

(** The completion callback does nothing once the readiness future is
    done, on whatever thread it runs. *)
Lemma task_done_noop m tid tsf g w :
  future_done tsf w = true ->
  invoke (S m) tid (task_done tsf) g w = (Some (Val tt), w).
Proof.
  unfold future_done. intros H.
  destruct (futures w !! tsf) as [T|] eqn:E; [|discriminate].
  cbn. unfold Future_done. cbn. rewrite E. cbn. rewrite H. reflexivity.
Qed.

(** C10: once [task_status.started(value)] has resolved the readiness
    future, the readiness result is [value] and stays so: calling
    [started] again fails without effect, the completion callback is a no-op
    whenever the readiness future is done, and so resolving the task's
    completion future afterwards, by a value, an error or a cancellation,
    leaves the readiness future as it is. *)
Theorem readiness_resolves_at_most_once n r f tsf w F T oc v :
  futures w !! f = Some F ->
  _state F = PENDING ->
  _done_callbacks F = registered (Some tsf) oc ->
  futures w !! tsf = Some T ->
  _state T = PENDING ->
  _exception T = None ->
  _done_callbacks T = [] ->
  portal_bound w ->
  exists w1 w2,
    exec_action (invoke (S n)) (started tsf v) w = (Some (Val tt), w1)
    /\ (forall m tid, Future_result (block m) tid tsf w1 = (Some (Val v), w1))
    /\ (forall v', exec_action (invoke (S n)) (started tsf v') w1
                   = (Some (Raised InvalidStateError), w1))
    /\ (forall m tid g w',
          future_done tsf w' = true ->
          invoke (S m) tid (task_done tsf) g w' = (Some (Val tt), w'))
    /\ resolve (S n) r f w1 = (Some (Val tt), w2)
    /\ futures w2 !! tsf = futures w1 !! tsf
    /\ (forall m tid, Future_result (block m) tid tsf w2 = (Some (Val v), w2)).
Proof.
  intros Hf Hst Hcb Ht HsT HeT HcT Hp.
  pose proof (registered_distinct w f F tsf T oc Hf Ht Hcb HcT) as Hne.
  destruct (resolve_on_loop n (by_result v) tsf w T None None Ht (or_introl HsT)
              HcT I Hp) as (lg1 & E1 & _).
  set (w1 := after_resolution (by_result v) tsf T None lg1 w) in *.
  set (T1 := mkFuture FINISHED (Some v) (_exception T) (_done_callbacks T)).
  assert (Ht1 : futures w1 !! tsf = Some T1).
  { exact (after_resolution_lookup (by_result v) tsf T None lg1 w Ht). }
  assert (Hf1 : futures w1 !! f = Some F).
  { unfold w1, after_resolution. cbn.
    rewrite list_lookup_insert_ne by assumption. exact Hf. }
  assert (Hts1 : readiness_future w1 (Some tsf)).
  { exists T1. repeat split; [exact Ht1|exact HcT|discriminate]. }
  assert (Hp1 : portal_bound w1) by (destruct w; exact Hp).
  destruct (resolve_pending n r f w1 F (Some tsf) oc Hf1 Hst Hcb Hts1 Hp1)
    as (lg2 & E2).
  assert (Ht2 : futures (after_resolution r f F (Some tsf) lg2 w1) !! tsf = Some T1).
  { rewrite (after_resolution_readiness r f F tsf T1 lg2 w1 Hf1 Ht1 Hne).
    reflexivity. }
  assert (Hout : terminal_outcome T1 = Val v).
  { unfold terminal_outcome, T1. cbn. rewrite HeT. reflexivity. }
  exists w1, (after_resolution r f F (Some tsf) lg2 w1).
  split; [exact E1|]. split.
  { intros m tid. erewrite Future_result_done; [|exact Ht1|reflexivity].
    rewrite Hout. reflexivity. }
  split.
  { intros v'. cbn [started exec_action]. unfold Future_set_result.
    cbn [bind get_future]. rewrite Ht1. reflexivity. }
  split; [intros; apply task_done_noop; assumption|].
  split; [exact E2|]. split; [rewrite Ht1, Ht2; reflexivity|].
  intros m tid. erewrite Future_result_done; [|exact Ht2|reflexivity].
  rewrite Hout. reflexivity.
Qed.

Lemma readiness_once_witness :
  exists w1 w2,
    exec_action (invoke 1) (started 1 (VInt 5)) start_task_world = (Some (Val tt), w1)
    /\ resolve 1 (by_exception (AppError 2)) 0 w1 = (Some (Val tt), w2)
    /\ (forall m tid, Future_result (block m) tid 1 w2 = (Some (Val (VInt 5)), w2)).
Proof.
  destruct (readiness_resolves_at_most_once 0 (by_exception (AppError 2)) 0 1
              start_task_world (mkFuture PENDING None None [task_done 1])
              new_Future None (VInt 5))
    as (w1 & w2 & H1 & _ & _ & _ & H5 & _ & H7).
  - reflexivity.
  - reflexivity.
  - reflexivity.
  - reflexivity.
  - reflexivity.
  - reflexivity.
  - reflexivity.
  - right. reflexivity.
  - exists w1, w2. repeat split; assumption.
Defined.

(** ** A blocking call of a plain bound method *)

Lemma pick_newest w t : forall ts i,
  runnable w t = true -> pick w (ts ++ [t]) i = Some (i + length ts).
Proof.
  induction ts as [|t' ts IH]; intros i H; cbn.
  - rewrite H. f_equal. lia.
  - rewrite IH by assumption. f_equal. lia.
Qed.

Lemma start_task_soon_accepted tid func args w :
  _event_loop_thread_id (portal w) = Some loop_thread ->
  tid <> loop_thread ->
  start_task_soon tid func args w
  = (Some (Val (length (futures w))), submitted func args None w).
Proof.
  intros Hid Htid.
  pose proof (submission_rejected_cases 0 tid func args w) as H.
  unfold submission_rejected in H. rewrite Hid in H.
  destruct (Nat.eqb loop_thread tid) eqn:E; [apply Nat.eqb_eq in E; congruence|].
  rewrite H. destruct w; reflexivity.
Qed.

Lemma block_turn n tid cond w w' :
  tid <> loop_thread ->
  cond w = false ->
  loop_turn (invoke n) w = (Some (Val true), w') ->
  block (S n) tid cond w = block n tid cond w'.
Proof.
  intros Htid Hc Ht. cbn [block]. unfold wait_until. rewrite Hc.
  destruct (Nat.eqb tid loop_thread) eqn:E; [apply Nat.eqb_eq in E; congruence|].
  rewrite Ht. reflexivity.
Qed.

Lemma loop_turn_newest inv w ts t :
  tasks w = ts ++ [t] ->
  runnable w t = true ->
  loop_turn inv w = (run_child inv (length ts) t ;; ret true)%M w.
Proof.
  intros Hts Hr. unfold loop_turn. rewrite Hts.
  rewrite pick_newest by assumption. cbn [Nat.add]. rewrite lookup_snoc.
  reflexivity.
Qed.

Lemma run_child_finishes inv i scs c w o w' :
  run_code inv c (set_current scs w) = (Finished o, w') ->
  run_child inv i (mkTask scs (Ready c)) w
  = (Some (Val tt),
     record_child_outcome o (set_tasks (<[i:=mkTask [] Done]> (tasks w')) w')).
Proof.
  intros H. unfold run_child. cbn [resume_code t_state t_scopes]. rewrite H.
  reflexivity.
Qed.

(** A task whose function is a plain bound method, on a fresh future. *)
Lemma run_call_func_scope_cancel inv s f w :
  futures w !! f = Some new_Future ->
  run_code inv (_call_func (scope_cancel s) [] None f) w
  = (Finished (Val VNone),
     set_futures (<[f:=mkFuture FINISHED (Some VNone) None []]> (futures w))
       (set_cells (cells w ++ [None])
          (set_scopes (<[s:=true]> (scopes w)) w))).
Proof.
  intros Hf. destruct w as [fs ss cs es cm p ts h cur lg]. cbn in Hf.
  unfold _call_func, _call_func_from, try_finally. cbn.
  unfold Future_cancelled. cbn. rewrite Hf. cbn.
  unfold Future_set_result. cbn. rewrite Hf. cbn.
  unfold _invoke_callbacks. cbn.
  rewrite list_lookup_insert_eq by (eapply lookup_lt_Some; eassumption). cbn.
  rewrite insert_snoc. reflexivity.
Qed.

Lemma call_scope_cancel n tid s w :
  _event_loop_thread_id (portal w) = Some loop_thread ->
  tid <> loop_thread ->
  call (block (S n)) tid (scope_cancel s) [] w
  = (Some (Val VNone), after_call_scope_cancel s w).
Proof.
  intros Hid Htid. unfold call. cbn [bind].
  rewrite start_task_soon_accepted by assumption.
  set (w1 := submitted (scope_cancel s) [] None w).
  assert (Hf1 : futures w1 !! length (futures w) = Some new_Future).
  { unfold w1, submitted. cbn. apply lookup_snoc. }
  pose proof (run_call_func_scope_cancel (invoke n) s (length (futures w))
                (set_current [_task_group_cancel_scope (portal w)] w1) Hf1) as Hrun.
  assert (Hturn : loop_turn (invoke n) w1
                  = (Some (Val true), after_call_scope_cancel s w)).
  { rewrite (loop_turn_newest (invoke n) w1 (tasks w)
               (spawned w (scope_cancel s) [] None (length (futures w))));
      [|destruct w; reflexivity|reflexivity].
    cbn [bind]. unfold spawned.
    rewrite (run_child_finishes _ _ _ _ _ _ _ Hrun). cbn [ret].
    unfold after_call_scope_cancel, w1, submitted. destruct w. cbn.
    rewrite !insert_snoc. reflexivity. }
  unfold Future_result. cbn [bind].
  rewrite (block_turn n tid _ w1 (after_call_scope_cancel s w) Htid);
    [|unfold future_done; rewrite Hf1; reflexivity|exact Hturn].
  assert (Hf2 : futures (after_call_scope_cancel s w) !! length (futures w)
                = Some (mkFuture FINISHED (Some VNone) None [])).
  { cbn. apply lookup_snoc. }
  rewrite block_ready by (unfold future_done; rewrite Hf2; reflexivity).
  cbn [get_future]. rewrite Hf2. reflexivity.
Qed.

(** [callback] on an external thread, once the future is cancelled: the
    scope of the task gets cancelled through the portal. *)
Lemma invoke_callback_external n tid scope s f w F :
  futures w !! f = Some F ->
  state_cancelled (_state F) = true ->
  cells w !! scope = Some (Some s) ->
  _event_loop_thread_id (portal w) = Some loop_thread ->
  tid <> loop_thread ->
  invoke (S (S n)) tid (callback_ scope) f w
  = (Some (Val tt), after_call_scope_cancel s w).
Proof.
  intros Hf Hc Hcell Hid Htid.
  cbn [invoke run_callback]. unfold Future_cancelled.
  cbn [bind get_future get ret]. rewrite Hf. cbn [bind ret]. rewrite Hc.
  cbn [bind get]. rewrite Hcell. cbn [mjoin option_join attribute bind ret].
  change (wait_until (invoke n) (block n)) with (block (S n)).
  rewrite call_scope_cancel by assumption. reflexivity.
Qed.

Lemma cancel_from_thread n tid f w F ots scope s :
  futures w !! f = Some F ->
  _state F = PENDING ->
  _done_callbacks F = registered ots (Some scope) ->
  readiness_future w ots ->
  cells w !! scope = Some (Some s) ->
  s < length (scopes w) ->
  _event_loop_thread_id (portal w) = Some loop_thread ->
  tid <> loop_thread ->
  exists w',
    Future_cancel (invoke (S (S n))) tid f w = (Some (Val true), w')
    /\ future_cancelled f w' = true
    /\ cancel_called w' s = true.
Proof.
  intros Hf Hst Hcb Hts Hcell Hs Hid Htid.
  pose proof (lookup_lt_Some _ _ _ Hf) as Hlt.
  set (F1 := mkFuture CANCELLED (_result F) (_exception F) (_done_callbacks F)).
  set (w1 := set_futures (<[f:=F1]> (futures w)) w).
  assert (Hf1 : futures w1 !! f = Some F1).
  { cbn. apply list_lookup_insert_eq. assumption. }
  assert (Hfin : forall w2, futures w2 !! f = Some F1 ->
            cells w2 = cells w -> scopes w2 = scopes w -> portal w2 = portal w ->
            exists w', invoke_each (invoke (S (S n))) tid [callback_ scope] f w2
                       = (Some (Val tt), w')
                       /\ future_cancelled f w' = true /\ cancel_called w' s = true).
  { intros w2 Hf2 Hc2 Hs2 Hp2. cbn [invoke_each bind try_except].
    rewrite (invoke_callback_external n tid scope s f w2 F1 Hf2 eq_refl);
      [|rewrite Hc2; assumption|rewrite Hp2; assumption|assumption].
    eexists. split; [reflexivity|]. split.
    - unfold future_cancelled. cbn.
      rewrite lookup_app_l by (eapply lookup_lt_Some; eassumption).
      rewrite Hf2. reflexivity.
    - unfold cancel_called. cbn. rewrite Hs2.
      rewrite list_lookup_insert_eq by assumption. reflexivity. }
  unfold Future_cancel. cbn [bind get_future]. rewrite Hf, Hst.
  cbn [bind put_future modify].
  change (set_futures
            (<[f:=mkFuture CANCELLED (_result F) (_exception F) (_done_callbacks F)]>
               (futures w)) w) with w1.
  unfold _invoke_callbacks. cbn [bind get_future]. rewrite Hf1.
  cbn [F1 _done_callbacks]. rewrite Hcb.
  destruct ots as [t|]; cbn [registered app].
  - destruct Hts as (T & Ht & HcT & HrT).
    assert (Hne : t <> f).
    { exact (registered_distinct w f F t T (Some scope) Hf Ht Hcb HcT). }
    assert (Ht1 : futures w1 !! t = Some T).
    { cbn. rewrite list_lookup_insert_ne by congruence. assumption. }
    change (invoke_each (invoke (S (S n))) tid [task_done t; callback_ scope] f)
      with (fun w0 => (try_except (invoke (S (S n)) tid (task_done t) f)
              (fun e => if isinstance_Exception e
                        then modify (add_log (CallbackFailed e)) else raise e) ;;
            invoke_each (invoke (S (S n))) tid [callback_ scope] f)%M w0).
    cbn beta. cbn [bind try_except].
    rewrite (invoke_task_done (S n) tid t f w1 F1 T Hf1 eq_refl Ht1 HcT HrT).
    edestruct Hfin as (w' & E & H1 & H2); [| | | |rewrite E; eauto].
    + cbn. rewrite list_lookup_insert_ne by congruence.
      apply list_lookup_insert_eq. assumption.
    + reflexivity.
    + reflexivity.
    + reflexivity.
  - edestruct (Hfin w1) as (w' & E & H1 & H2); [exact Hf1|reflexivity..|].
    rewrite E. eauto.
Qed.

(** ** Cancelling the future cancels the scope (C1) *)

(** C1 as stated fails.  With the future already cancelled, the scope is
    cancelled first, but the coroutine is awaited all the same and its body
    runs up to its first suspension point.  And the registered callback
    cancels the scope only from another thread: when the future is
    cancelled on the loop thread, [self.call] inside the callback raises
    its usage error, which the future logs, and the scope stays as it
    was. *)
Lemma cancelled_future_body_still_runs :
  let body := (Emit 1 ;; await_ WCheckpoint (Emit 2 ;; Return VNone))%coro in
  let r := run_code (invoke 1)
             (_call_func (coroutine_function (fun _ _ => body)) [] None 0)
             cancelled_world in
  let w1 := snd (run_code (invoke 3)
                   (_call_func (coroutine_function (fun _ _ => body)) [] None 0)
                   running_world) in
  let r' := Future_cancel (invoke 3) loop_thread 0 w1 in
  (future_cancelled 0 cancelled_world = true
   /\ log (snd r) = [Emitted 1]
   /\ cancel_called (snd r) 1 = true
   /\ exists k, fst r = Parked WCheckpoint k)
  /\ (_done_callbacks <$> futures w1 !! 0 = Some [callback_ 0]
      /\ fst r' = Some (Val true)
      /\ future_cancelled 0 (snd r') = true
      /\ cancel_called (snd r') 1 = false).
Proof.
  repeat split; try reflexivity. eexists. reflexivity.
Qed.

(** C1, amended: in [_call_func], when [func] returns a coroutine and the
    future is already cancelled, the cancel scope is cancelled before the
    coroutine is awaited; the coroutine is then awaited inside the
    cancelled scope, so that it runs up to its first suspension point,
    where the scheduler resumes it with the cancellation exception.  When
    the future is not done, [callback] is registered on it before the
    await; and when the future is later cancelled from another thread
    while the portal runs, that callback cancels the scope. *)
Theorem future_cancellation_reaches_scope n func args kwargs retval f w F :
  call_function func args kwargs = Coroutine retval ->
  futures w !! f = Some F ->
  let scope := length (cells w) in
  let s := length (scopes w) in
  (state_cancelled (_state F) = true ->
   run_code (invoke n) (_call_func func args kwargs f) w
   = run_code (invoke n) (_call_func_from (leave_CancelScope s retval) f scope)
       (entered true w)
   /\ cancel_called (entered true w) s = true
   /\ forall w' outer wt k,
        cancel_called w' s = true ->
        cancellable wt = true ->
        runnable w' (mkTask (s :: outer) (Waiting wt k)) = true
        /\ resume_code w' (mkTask (s :: outer) (Waiting wt k))
           = k (Raised SchedCancelled))
  /\ (state_done (_state F) = false ->
      let w1 := set_futures (<[f:=add_callback (callback_ scope) F]> (futures w))
                  (entered false w) in
      run_code (invoke n) (_call_func func args kwargs f) w
      = run_code (invoke n) (_call_func_from (leave_CancelScope s retval) f scope) w1
      /\ futures w1 !! f = Some (add_callback (callback_ scope) F)
      /\ cells w1 !! scope = Some (Some s)
      /\ cancel_called w1 s = false
      /\ forall m tid w2 F2 ots,
           futures w2 !! f = Some F2 ->
           _state F2 = PENDING ->
           _done_callbacks F2 = registered ots (Some scope) ->
           readiness_future w2 ots ->
           cells w2 !! scope = Some (Some s) ->
           s < length (scopes w2) ->
           _event_loop_thread_id (portal w2) = Some loop_thread ->
           tid <> loop_thread ->
           exists w3,
             Future_cancel (invoke (S (S m))) tid f w2 = (Some (Val true), w3)
             /\ future_cancelled f w3 = true
             /\ cancel_called w3 s = true).
Proof.
  intros Hcall Hf scope s.
  pose proof (call_func_prefix (invoke n) func args kwargs retval f w F Hcall Hf) as H.
  cbn zeta in H. fold scope s in H. split.
  - intros Hc. rewrite Hc in H. split; [exact H|]. split.
    + unfold cancel_called, entered, s. cbn. rewrite lookup_snoc. reflexivity.
    + intros w' outer wt k Hs Hwt. unfold runnable, resume_code, task_cancelled.
      cbn. rewrite Hwt, Hs. split; reflexivity.
  - intros Hd. rewrite (not_done_not_cancelled _ Hd), Hd in H.
    split; [exact H|]. split.
    { cbn. apply list_lookup_insert_eq. eapply lookup_lt_Some; eassumption. }
    split.
    { unfold scope, entered. cbn. apply lookup_snoc. }
    split.
    { unfold cancel_called, entered, s. cbn. rewrite lookup_snoc. reflexivity. }
    intros m tid w2 F2 ots Hf2 Hst2 Hcb2 Hts2 Hcell2 Hs2 Hid2 Htid.
    exact (cancel_from_thread m tid f w2 F2 ots scope s
             Hf2 Hst2 Hcb2 Hts2 Hcell2 Hs2 Hid2 Htid).
Qed.

(** An instance: the task of [running_world]'s future starts, parks in its
    coroutine, and the future is then cancelled from thread 1. *)
Lemma future_cancellation_witness :
  let body := await_ WForever (Return VNone) in
  let func := coroutine_function (fun _ _ => body) in
  let w1 := snd (run_code (invoke 3) (_call_func func [] None 0) running_world) in
  exists w3,
    Future_cancel (invoke 3) 1 0 w1 = (Some (Val true), w3)
    /\ future_cancelled 0 w3 = true
    /\ cancel_called w3 1 = true.
Proof.
  intros body func w1.
  destruct (future_cancellation_reaches_scope 3 func [] None body 0 running_world
              new_Future eq_refl eq_refl) as [_ H].
  destruct (H eq_refl) as (_ & _ & _ & _ & Hcancel).
  apply (Hcancel 1 1 w1 (mkFuture PENDING None None [callback_ 0]) None).
  - reflexivity.
  - reflexivity.
  - reflexivity.
  - exact I.
  - reflexivity.
  - cbn. lia.
  - reflexivity.
  - discriminate.
Defined.

(** ** Stopping through the portal (C8) *)

Lemma run_call_func_portal_stop n b f w :
  futures w !! f = Some new_Future ->
  run_code (invoke (S n)) (_call_func portal_stop [VBool b] None f) w
  = (Finished (Val VNone),
     mkWorld
       (<[f:=mkFuture FINISHED (Some VNone) None [callback_ (length (cells w))]]>
          (futures w))
       (if b
        then <[_task_group_cancel_scope (portal w):=true]> (scopes w ++ [false])
        else scopes w ++ [false])
       (cells w ++ [None])
       (<[_stop_event (portal w):=true]> (events w))
       (cms w) (stopped_portal (portal w)) (tasks w) (host w) (current w)
       (StopCalled b :: log w)).
Proof.
  intros Hf. pose proof (lookup_lt_Some _ _ _ Hf) as Hlt.
  destruct w as [fs ss cs es cm p ts h cur lg]. cbn in Hf, Hlt.
  unfold _call_func, _call_func_from, try_finally, leave_CancelScope. cbn.
  unfold Future_cancelled. cbn. rewrite Hf. cbn.
  unfold Future_add_done_callback. cbn. rewrite Hf. cbn.
  destruct b; cbn; unfold Future_cancelled; cbn;
    rewrite list_lookup_insert_eq by assumption; cbn;
    unfold Future_set_result; cbn;
    rewrite list_lookup_insert_eq by assumption; cbn;
    unfold _invoke_callbacks; cbn;
    rewrite list_lookup_insert_eq by (rewrite length_insert; assumption); cbn;
    unfold Future_cancelled; cbn;
    rewrite list_lookup_insert_eq by (rewrite length_insert; assumption); cbn;
    rewrite list_insert_insert_eq, !insert_snoc; reflexivity.
Qed.

Lemma call_portal_stop n tid b w :
  _event_loop_thread_id (portal w) = Some loop_thread ->
  tid <> loop_thread ->
  call (block (S (S n))) tid portal_stop [VBool b] w
  = (Some (Val VNone), after_call_stop b w).
Proof.
  intros Hid Htid. unfold call. cbn [bind].
  rewrite start_task_soon_accepted by assumption.
  set (w1 := submitted portal_stop [VBool b] None w).
  assert (Hf1 : futures w1 !! length (futures w) = Some new_Future).
  { unfold w1, submitted. cbn. apply lookup_snoc. }
  pose proof (run_call_func_portal_stop n b (length (futures w))
                (set_current [_task_group_cancel_scope (portal w)] w1) Hf1) as Hrun.
  assert (Hturn : loop_turn (invoke (S n)) w1
                  = (Some (Val true), after_call_stop b w)).
  { rewrite (loop_turn_newest (invoke (S n)) w1 (tasks w)
               (spawned w portal_stop [VBool b] None (length (futures w))));
      [|destruct w; reflexivity|reflexivity].
    cbn [bind]. unfold spawned.
    rewrite (run_child_finishes _ _ _ _ _ _ _ Hrun). cbn [ret].
    unfold after_call_stop, w1, submitted. destruct w. cbn.
    rewrite !insert_snoc. reflexivity. }
  unfold Future_result. cbn [bind].
  rewrite (block_turn (S n) tid _ w1 (after_call_stop b w) Htid);
    [|unfold future_done; rewrite Hf1; reflexivity|exact Hturn].
  assert (Hf2 : futures (after_call_stop b w) !! length (futures w)
                = Some (mkFuture FINISHED (Some VNone) None
                          [callback_ (length (cells w))])).
  { cbn. apply lookup_snoc. }
  rewrite block_ready by (unfold future_done; rewrite Hf2; reflexivity).
  cbn [get_future]. rewrite Hf2. reflexivity.
Qed.

(** ** The bootstrap: start_blocking_portal (C8) *)

(** The first turn of the hosting thread: the portal is created and
    entered, the launcher's future is resolved with it, and the main task
    parks in [sleep_until_stopped]. *)
Lemma run_portal_first_turn inv future w :
  futures w !! future = Some new_Future ->
  exists k,
    run_code inv (run_portal future) w
    = (Parked (WEvent (length (events w))) k,
       mkWorld (<[future:=mkFuture FINISHED (Some VPortal) None []]> (futures w))
               (scopes w ++ [false]) (cells w) (events w ++ [false]) (cms w)
               (mkPortal (Some loop_thread) (length (events w)) (length (scopes w))
                         true [])
               (tasks w) (host w) (length (scopes w) :: current w) (log w)).
Proof.
  intros Hf. pose proof (lookup_lt_Some _ _ _ Hf) as Hlt.
  destruct w as [fs ss cs es cm p ts h cur lg]. cbn in Hf, Hlt.
  unfold run_portal, async_with_BlockingPortal, sleep_until_stopped. cbn.
  unfold Future_set_running_or_notify_cancel. cbn. rewrite Hf. cbn.
  unfold Future_set_result. cbn.
  rewrite list_lookup_insert_eq by assumption. cbn.
  unfold _invoke_callbacks. cbn.
  rewrite list_lookup_insert_eq by (rewrite length_insert; assumption). cbn.
  rewrite list_insert_insert_eq. eexists. reflexivity.
Qed.

Lemma bootstrap n tid body w :
  tid <> loop_thread ->
  tasks w = [] ->
  exists k,
    start_blocking_portal (invoke (S n)) (block (S n)) tid body w
    = match body (handed_over k w) with
      | (Some o, w2) =>
          finally (after_yield (S n) tid (S (length (futures w))) o)
            (executor_exit (block (S n)) tid) w2
      | (None, w2) => (None, w2)
      end.
Proof.
  intros Htid Hts. destruct w as [fs ss cs es cm p ts h cur lg]. cbn in Hts. subst ts.
  set (rf := length (fs ++ [new_Future])).
  set (wa := mkWorld ((fs ++ [new_Future]) ++ [mkFuture RUNNING None None []])
               ss cs es cm p []
               (HostRunning (mkTask [] (Ready (run_portal (length fs)))) rf) cur lg).
  assert (Hfa : futures (set_current [] wa) !! length fs = Some new_Future).
  { cbn. rewrite lookup_app_l by (rewrite length_app; cbn; lia). apply lookup_snoc. }
  destruct (run_portal_first_turn (invoke n) (length fs) (set_current [] wa) Hfa)
    as (k & Hrun).
  exists k.
  set (w1 := handed_over k (mkWorld fs ss cs es cm p [] h cur lg)).
  assert (Hrf : rf = S (length fs)).
  { unfold rf. rewrite length_app. cbn. lia. }
  assert (Hw1 : futures w1 !! length fs
                = Some (mkFuture FINISHED (Some VPortal) None [])).
  { cbn. apply list_lookup_middle. reflexivity. }
  assert (Hturn : loop_turn (invoke n) wa = (Some (Val true), w1)).
  { unfold loop_turn. cbn [tasks wa pick host]. cbn [runnable t_state].
    unfold run_host. cbn [bind resume_code t_state t_scopes]. rewrite Hrun.
    cbn [ret]. unfold w1, handed_over. cbn. rewrite Hrf.
    replace (<[length fs:=mkFuture FINISHED (Some VPortal) None []]>
               ((fs ++ [new_Future]) ++ [mkFuture RUNNING None None []]))
      with (fs ++ [mkFuture FINISHED (Some VPortal) None [];
                   mkFuture RUNNING None None []]); [reflexivity|].
    rewrite <- app_assoc. cbn.
    rewrite insert_app_r_alt by lia. rewrite Nat.sub_diag. reflexivity. }
  set (cond := fun w : world => existsb (fun f => future_done f w) [rf; length fs]).
  assert (Hblock : block (S n) tid cond wa = (Some (Val tt), w1)).
  { rewrite (block_turn n tid cond wa w1 Htid); [| |exact Hturn].
    - apply block_ready. unfold cond. cbn [existsb]. unfold future_done at 2.
      rewrite Hw1. cbn. apply orb_true_r.
    - unfold cond, future_done, rf. cbn [existsb futures wa].
      rewrite lookup_snoc.
      rewrite lookup_app_l by (rewrite length_app; cbn; lia).
      rewrite lookup_snoc. reflexivity. }
  unfold start_blocking_portal, executor_submit, wait_first_completed,
    Future_set_running_or_notify_cancel, Future_done.
  cbn [bind alloc_future get_future put_future modify ret futures set_futures
       scopes cells events cms portal tasks host current log set_host finally].
  rewrite lookup_snoc. cbn [new_Future _state bind put_future modify ret
       futures set_futures scopes cells events cms portal tasks host current log
       _result _exception _done_callbacks set_host].
  rewrite insert_snoc. fold rf. fold wa. fold cond.
  cbn [try_except]. rewrite Hblock. rewrite Hw1.
  cbn [_state state_done bind].
  rewrite (Future_result_done (S n) tid (length fs) w1 _ Hw1 eq_refl).
  cbn [terminal_outcome _state state_cancelled _exception _result].
  unfold after_yield. rewrite <- Hrf. cbn [bind try_except].
  destruct (body w1) as [[[v|e]|] w2]; cbn [bind ret raise].
  - reflexivity.
  - destruct (call (block (S n)) tid portal_stop [VBool true] w2)
      as [[[v|e']|] w3]; reflexivity.
  - reflexivity.
Qed.

(** Whatever leaves the [with ThreadPoolExecutor(1)] block leaves it after
    the worker exited and was joined. *)
Lemma finally_executor_exit n tid (m : M value) w r wf :
  finally m (executor_exit (block n) tid) w = (Some r, wf) ->
  host_exited wf = true /\ exists lg, log wf = ThreadJoined :: lg.
Proof.
  unfold finally, executor_exit. destruct (m w) as [[o|] w']; [|discriminate].
  cbn [bind modify].
  destruct (block n tid host_exited w') as [[[[]|e]|] w''] eqn:E; try discriminate.
  - apply block_returns in E as [_ E].
    intros [= <- <-]. split; [destruct w''; exact E|]. eexists. reflexivity.
  - apply block_returns in E as [E _]. discriminate.
Qed.

Lemma lookup_snoc_false (ss : list bool) s :
  match (ss ++ [false]) !! s with Some b => b | None => false end
  = match ss !! s with Some b => b | None => false end.
Proof.
  destruct (Nat.lt_trichotomy s (length ss)) as [H|[H|H]].
  - rewrite lookup_app_l by assumption. reflexivity.
  - subst s. rewrite lookup_snoc. rewrite lookup_ge_None_2 by lia. reflexivity.
  - rewrite !lookup_ge_None_2; [reflexivity|lia|rewrite length_app; cbn; lia].
Qed.

(** A graceful stop through the portal leaves the cancellation status of
    every task as it was. *)
Lemma after_call_stop_graceful w t :
  task_cancelled (after_call_stop false w) t = task_cancelled w t.
Proof.
  unfold task_cancelled. induction (t_scopes t) as [|s l IH]; [reflexivity|].
  cbn [existsb]. rewrite IH. f_equal.
  unfold cancel_called, after_call_stop. cbn [scopes]. apply lookup_snoc_false.
Qed.

Lemma call_not_running blk tid func args w :
  _event_loop_thread_id (portal w) = None ->
  call blk tid func args w = (Some (Raised (RuntimeError "This portal is not running")), w).
Proof.
  intros Hid. unfold call, start_task_soon, _check_running. cbn [bind get].
  rewrite Hid. reflexivity.
Qed.

(** C8 as stated fails when the scope has stopped the portal itself.  A
    scope that calls [portal.stop] through the portal and then leaves by an
    exception: the stop that [start_blocking_portal] issues in its except
    clause goes through [call], which [_check_running] rejects, so that
    [stop(True)] never runs, and [start_blocking_portal] raises the
    RuntimeError of the rejected call in place of the exception of the
    scope.  The hosting thread is joined all the same. *)
Lemma stopped_portal_exit_raises_usage_error :
  let body := (call (block 3) 1 portal_stop [VBool false] ;; raise (AppError 1))%M in
  let r := start_blocking_portal (invoke 3) (block 3) 1 body empty_world in
  fst r = Some (Raised (RuntimeError "This portal is not running"))
  /\ log (snd r) = [ThreadJoined; StopCalled false; StopCalled false]
  /\ host_exited (snd r) = true.
Proof. vm_compute. repeat split. Qed.

(** C8, amended: [start_blocking_portal] hands a running portal to its
    scope.  When the scope exits normally with the portal still running,
    the portal is stopped through [call] with cancel_remaining false, which
    leaves the cancellation status of the tasks as it was; when the scope
    exits by an exception with the portal still running, the portal is
    stopped with cancel_remaining true, which cancels the scope of the task
    group, and that exception is what [start_blocking_portal] raises.  When
    the scope has stopped the portal itself, the stop issued at the exit is
    rejected, no further stop runs, and [start_blocking_portal] raises the
    RuntimeError 'This portal is not running' whatever the outcome of the
    scope was.  In all cases, and on every other path,
    [start_blocking_portal] returns only after the hosting thread exited
    and was joined. *)
Theorem portal_stopped_and_thread_joined n tid body w :
  tid <> loop_thread ->
  tasks w = [] ->
  exists k,
    let w1 := handed_over k w in
    let run := start_blocking_portal (invoke (S (S n))) (block (S (S n))) tid body w in
    _event_loop_thread_id (portal w1) = Some loop_thread
    /\ host_exited w1 = false
    /\ (forall r wf,
          run = (Some r, wf) ->
          host_exited wf = true /\ exists lg, log wf = ThreadJoined :: lg)
    /\ (forall o w2,
          body w1 = (Some o, w2) ->
          _event_loop_thread_id (portal w2) = Some loop_thread ->
          let forced := by_exception_exit o in
          let w3 := after_call_stop forced w2 in
          call (block (S (S n))) tid portal_stop [VBool forced] w2
          = (Some (Val VNone), w3)
          /\ _event_loop_thread_id (portal w3) = None
          /\ log w3 = StopCalled forced :: log w2
          /\ (forced = false -> forall t, task_cancelled w3 t = task_cancelled w2 t)
          /\ (forced = true ->
              _task_group_cancel_scope (portal w2) < length (scopes w2) ->
              cancel_called w3 (_task_group_cancel_scope (portal w2)) = true)
          /\ run
             = finally
                 match o with
                 | Val r =>
                     (Future_result (block (S (S n))) tid (S (length (futures w))) ;;
                      ret r)%M
                 | Raised e => raise e
                 end
                 (executor_exit (block (S (S n))) tid) w3
          /\ forall e r wf, o = Raised e -> run = (Some r, wf) -> r = Raised e)
    /\ forall o w2,
         body w1 = (Some o, w2) ->
         _event_loop_thread_id (portal w2) = None ->
         let forced := by_exception_exit o in
         let err := RuntimeError "This portal is not running" in
         call (block (S (S n))) tid portal_stop [VBool forced] w2
         = (Some (Raised err), w2)
         /\ run = finally (raise err) (executor_exit (block (S (S n))) tid) w2
         /\ forall r wf, run = (Some r, wf) -> r = Raised err.
Proof.
  intros Htid Hts.
  destruct (bootstrap (S n) tid body w Htid Hts) as (k & Hrun).
  exists k. cbn zeta. split; [reflexivity|]. split; [reflexivity|]. split.
  { intros r wf. rewrite Hrun.
    destruct (body (handed_over k w)) as [[o|] w2]; [|discriminate].
    apply finally_executor_exit. }
  split; cycle 1.
  { intros o w2 Hbody Hid.
    pose proof (call_not_running (block (S (S n))) tid portal_stop
                  [VBool (by_exception_exit o)] w2 Hid) as Hcall.
    split; [exact Hcall|].
    assert (Heq : start_blocking_portal (invoke (S (S n))) (block (S (S n))) tid body w
                  = finally (raise (RuntimeError "This portal is not running"))
                      (executor_exit (block (S (S n))) tid) w2).
    { rewrite Hrun, Hbody. unfold finally, after_yield.
      destruct o as [v|e]; cbn [bind by_exception_exit raise] in *; rewrite Hcall;
        reflexivity. }
    split; [exact Heq|]. intros r wf. rewrite Heq. unfold finally. cbn [raise].
    destruct (executor_exit (block (S (S n))) tid w2) as [[[[]|e']|] w4] eqn:E;
      try discriminate.
    - intros [= <- _]. reflexivity.
    - unfold executor_exit in E. cbn [bind modify] in E.
      destruct (block (S (S n)) tid host_exited w2) as [[[[]|e'']|] w5] eqn:E5;
        try discriminate.
      apply block_returns in E5 as [E5 _]. discriminate. }
  intros o w2 Hbody Hid.
  pose proof (call_portal_stop n tid (by_exception_exit o) w2 Hid Htid) as Hcall.
  split; [exact Hcall|]. split; [reflexivity|]. split; [reflexivity|]. split.
  { intros Hf t. rewrite Hf. apply after_call_stop_graceful. }
  split.
  { intros Hf Hlt. rewrite Hf. unfold cancel_called, after_call_stop. cbn [scopes].
    rewrite list_lookup_insert_eq by (rewrite length_app; cbn; lia). reflexivity. }
  assert (Heq : start_blocking_portal (invoke (S (S n))) (block (S (S n))) tid body w
                = finally
                    match o with
                    | Val r =>
                        (Future_result (block (S (S n))) tid (S (length (futures w))) ;;
                         ret r)%M
                    | Raised e => raise e
                    end
                    (executor_exit (block (S (S n))) tid)
                    (after_call_stop (by_exception_exit o) w2)).
  { rewrite Hrun, Hbody. unfold finally, after_yield.
    destruct o as [v|e]; cbn [bind by_exception_exit] in *; rewrite Hcall; reflexivity. }
  split; [exact Heq|].
  intros e r wf -> . rewrite Heq. unfold finally. cbn [raise].
  destruct (executor_exit (block (S (S n))) tid
              (after_call_stop (by_exception_exit (Raised e)) w2))
    as [[[[]|e']|] w4] eqn:E; try discriminate.
  - intros [= <- _]. reflexivity.
  - unfold executor_exit in E. cbn [bind modify] in E.
    destruct (block (S (S n)) tid host_exited
                (after_call_stop (by_exception_exit (Raised e)) w2))
      as [[[[]|e'']|] w5] eqn:E5; try discriminate.
    apply block_returns in E5 as [E5 _]. discriminate.
Qed.

(** An instance: a launcher on thread 1, whose scope calls a function
    through the portal and leaves normally. *)
Lemma portal_stopped_witness :
  exists k,
    _event_loop_thread_id (portal (handed_over k empty_world)) = Some loop_thread
    /\ forall r wf,
         start_blocking_portal (invoke 2) (block 2) 1 (ret VNone) empty_world
         = (Some r, wf) ->
         host_exited wf = true /\ exists lg, log wf = ThreadJoined :: lg.
Proof.
  destruct (portal_stopped_and_thread_joined 0 1 (ret VNone) empty_world)
    as (k & H1 & _ & H3 & _).
  - discriminate.
  - reflexivity.
  - exists k. split; [exact H1|exact H3].
Defined.

(** The end-to-end scenario: a unit of work returning 21 * 2, called from
    an external thread through a bootstrapped portal. *)
Example bootstrap_call_42 :
  let work := sync_function (fun _ => ([], Val (VInt (21 * 2)))) in
  let r := start_blocking_portal (invoke 3) (block 3) 1
             (call (block 3) 1 work []) empty_world in
  fst r = Some (Val (VInt 42))
  /\ host_exited (snd r) = true
  /\ log (snd r) = [ThreadJoined; StopCalled false; StopCalled false].
Proof. repeat split. Qed.

(** ** The synchronous adapter of an async context manager, step by step *)







(** The whole round trip on a sample context manager: the value of
    [__aenter__] comes back from the enter, the result of [__aexit__] from
    the exit, and an exception passed to the exit is forwarded to
    [__aexit__], whose error comes back. *)
Example adapter_round_trip :
  let use exc :=
    (self <- wrap_async_context_manager sample_cm ;;
     v <- __enter__ (block 3) 1 self ;;
     r <- __exit__ (block 3) 1 self exc ;;
     ret (v, r))%M running_world in
  fst (use None) = Some (Val (VInt 7, VBool false))
  /\ log (snd (use None)) = [Emitted 2; Emitted 1]
  /\ fst (use (Some (AppError 1))) = Some (Raised (AppError 1)).
Proof. repeat split. Qed.

(** * Further properties of the module *)

(** ** The clauses of _call_func, for every state of the future *)

Lemma cell_cleared (c : cell_id) (cs : list (option scope_id)) :
  mjoin (<[c:=None]> cs !! c) = None.
Proof.
  destruct (decide (c < length cs)) as [H|H].
  - rewrite list_lookup_insert_eq by assumption. reflexivity.
  - rewrite lookup_ge_None_2; [reflexivity|]. rewrite length_insert. lia.
Qed.

(** X1: whenever the code of the task comes to its end, with a value or
    with any exception, [_call_func] ends with the task's future in a
    terminal state: resolved by this outcome when it was not done yet, left
    as it was when it was done already; the local [scope] is cleared on
    every path; and a thread waiting for the future is released with that
    terminal state.  The one state excluded is a future its holder marked
    running, which [cancel] cannot cancel any more. *)
Theorem finished_task_resolves_future n try_block o f scope w w1 F ots oc :
  run_code (invoke (S n)) try_block w = (Finished o, w1) ->
  futures w1 !! f = Some F ->
  (_state F = RUNNING -> resolution_of o <> by_cancel) ->
  _done_callbacks F = registered ots oc ->
  readiness_future w1 ots ->
  portal_bound w1 ->
  exists r w' F',
    run_code (invoke (S n)) (_call_func_from try_block f scope) w = (Finished r, w')
    /\ futures w' !! f = Some F'
    /\ state_done (_state F') = true
    /\ F' = (if state_done (_state F) then F else resolved (resolution_of o) F)
    /\ mjoin (cells w' !! scope) = None
    /\ forall m tid,
         Future_result (block m) tid f w' = (Some (terminal_outcome F'), w').
Proof.
  intros Hrun Hf Hst Hcb Hts Hp. rewrite run_call_func_from, Hrun.
  assert (Hfin : forall r w' F',
    run_code (invoke (S n)) (_call_func_from (outcome_coro o) f scope) w1
      = (Finished r, w') ->
    futures w' !! f = Some F' -> state_done (_state F') = true ->
    F' = (if state_done (_state F) then F else resolved (resolution_of o) F) ->
    mjoin (cells w' !! scope) = None ->
    exists r w' F',
      run_code (invoke (S n)) (_call_func_from (outcome_coro o) f scope) w1
      = (Finished r, w')
      /\ futures w' !! f = Some F'
      /\ state_done (_state F') = true
      /\ F' = (if state_done (_state F) then F else resolved (resolution_of o) F)
      /\ mjoin (cells w' !! scope) = None
      /\ forall m tid,
           Future_result (block m) tid f w' = (Some (terminal_outcome F'), w')).
  { intros r w' F' E Hl Hd HF Hc. exists r, w', F'. repeat (split; [assumption|]).
    intros m tid. apply Future_result_done; assumption. }
  destruct (_state F) eqn:ES; cbn [state_done].
  - destruct (run_handlers_not_done n o f scope w1 F ots oc Hf
                (or_introl ES) Hcb Hts Hp) as (lg & E).
    eapply Hfin; [exact E| | |reflexivity|apply cell_cleared].
    + exact (after_resolution_lookup (resolution_of o) f F ots lg w1 Hf).
    + destruct (resolution_of o); reflexivity.
  - destruct (run_handlers_not_done n o f scope w1 F ots oc Hf
                (or_intror (conj (Hst eq_refl) ES)) Hcb Hts Hp) as (lg & E).
    eapply Hfin; [exact E| | |reflexivity|apply cell_cleared].
    + exact (after_resolution_lookup (resolution_of o) f F ots lg w1 Hf).
    + destruct (resolution_of o); reflexivity.
  - eapply Hfin; [apply (run_handlers_cancelled _ o f scope w1 F Hf);
                  rewrite ES; reflexivity
                 |exact Hf|rewrite ES; reflexivity|reflexivity|apply cell_cleared].
  - eapply Hfin; [apply (run_handlers_cancelled _ o f scope w1 F Hf);
                  rewrite ES; reflexivity
                 |exact Hf|rewrite ES; reflexivity|reflexivity|apply cell_cleared].
  - eapply Hfin; [apply (run_handlers_finished _ o f scope w1 F Hf ES)
                 |exact Hf|rewrite ES; reflexivity|reflexivity|apply cell_cleared].
Qed.

Lemma finished_task_witness :
  exists r w' F',
    run_code (invoke 1) (_call_func_from (Return (VInt 3)) 0 0) running_world
    = (Finished r, w')
    /\ futures w' !! 0 = Some F'
    /\ state_done (_state F') = true
    /\ F' = mkFuture FINISHED (Some (VInt 3)) None []
    /\ mjoin (cells w' !! 0) = None
    /\ forall m tid,
         Future_result (block m) tid 0 w' = (Some (terminal_outcome F'), w').
Proof.
  apply (finished_task_resolves_future 0 (Return (VInt 3)) (Val (VInt 3)) 0 0
           running_world running_world new_Future None None).
  - reflexivity.
  - reflexivity.
  - discriminate.
  - reflexivity.
  - exact I.
  - right. reflexivity.
Defined.

(** X2: a future that is already in a terminal state when the code of the
    task ends is never written again.  The result or error of the task is
    dropped: no future changes, no callback runs, no scope is touched.
    After a cancellation the task ends as it would otherwise; when someone
    else had finished the future, the attempt to store the outcome fails
    with InvalidStateError (what concurrent.futures raises since Python
    3.8), which leaves the task in place of a value or of an error of its
    own. *)
Theorem resolved_future_is_never_overwritten inv try_block o f scope w w1 F :
  run_code inv try_block w = (Finished o, w1) ->
  futures w1 !! f = Some F ->
  state_done (_state F) = true ->
  exists r w',
    run_code inv (_call_func_from try_block f scope) w = (Finished r, w')
    /\ futures w' = futures w1
    /\ log w' = log w1
    /\ scopes w' = scopes w1
    /\ r = (if state_cancelled (_state F) then task_outcome_of o
            else task_outcome_on_finished o).
Proof.
  intros Hrun Hf Hd. rewrite run_call_func_from, Hrun.
  destruct (state_cancelled (_state F)) eqn:EC.
  - rewrite (run_handlers_cancelled inv o f scope w1 F Hf EC).
    do 2 eexists. repeat split.
  - assert (ES : _state F = FINISHED) by (destruct (_state F); cbn in *; congruence).
    rewrite (run_handlers_finished inv o f scope w1 F Hf ES).
    do 2 eexists. repeat split.
Qed.

Lemma resolved_future_witness :
  exists r w',
    run_code (invoke 1) (_call_func_from (Return (VInt 3)) 0 0) cancelled_world
    = (Finished r, w')
    /\ futures w' = futures cancelled_world
    /\ log w' = log cancelled_world
    /\ scopes w' = scopes cancelled_world
    /\ r = Val VNone.
Proof.
  apply (resolved_future_is_never_overwritten (invoke 1) (Return (VInt 3))
           (Val (VInt 3)) 0 0 cancelled_world cancelled_world
           (mkFuture CANCELLED None None [])); reflexivity.
Defined.

(** ** The done-callback when the task itself cancels the future *)

Lemma loop_thread_usage_error_ordinary p :
  isinstance_Exception (loop_thread_usage_error p) = true.
Proof.
  unfold loop_thread_usage_error. destruct (_event_loop_thread_id p); reflexivity.
Qed.

Lemma invoke_callback_rejected n c s f w F :
  futures w !! f = Some F ->
  state_cancelled (_state F) = true ->
  cells w !! c = Some (Some s) ->
  portal_bound w ->
  invoke (S n) loop_thread (callback_ c) f w
  = (Some (Raised (loop_thread_usage_error (portal w))), w).
Proof.
  intros Hf Hc Hs Hp. destruct w as [fs ss cs es cm p ts h cur lg].
  unfold portal_bound, loop_thread_usage_error in *. cbn in *.
  unfold Future_cancelled. cbn. rewrite Hf, Hc. cbn. rewrite Hs. cbn.
  unfold call, start_task_soon, _check_running. cbn.
  destruct Hp as [-> | ->]; reflexivity.
Qed.

(** X3: when the task is cancelled by the scheduler, the except clause
    cancels the future on the loop thread, and the done-callback that
    [_call_func] registered runs there at once: it sees a cancelled future
    and tries to cancel the scope through [self.call], which
    [_check_running] rejects.  The usage error never reaches the task: the
    future's callback runner logs it.  So the task ends without an
    exception, the future is cancelled, the scope is not marked and no task
    is spawned. *)
Theorem callback_is_rejected_on_loop_thread n try_block exc f cell s w w1 F ots :
  run_code (invoke (S n)) try_block w = (Finished (Raised exc), w1) ->
  isinstance_cancelled_exc_class exc = true ->
  futures w1 !! f = Some F ->
  _state F = PENDING ->
  _done_callbacks F = registered ots (Some cell) ->
  readiness_future w1 ots ->
  cells w1 !! cell = Some (Some s) ->
  portal_bound w1 ->
  exists w',
    run_code (invoke (S n)) (_call_func_from try_block f cell) w
    = (Finished (Val VNone), w')
    /\ future_cancelled f w' = true
    /\ log w' = CallbackFailed (loop_thread_usage_error (portal w1)) :: log w1
    /\ scopes w' = scopes w1
    /\ tasks w' = tasks w1.
Proof.
  intros Hrun Hexc Hf Hst Hcb Hts Hcell Hp.
  pose proof (lookup_lt_Some _ _ _ Hf) as Hlt.
  rewrite run_call_func_from, Hrun. unfold _call_func_from, try_finally.
  run_step. rewrite Hexc. run_step.
  unfold Future_cancel. cbn [bind get_future put_future modify ret].
  rewrite Hf, Hst. cbn [bind ret modify put_future].
  unfold _invoke_callbacks. cbn [bind get_future set_futures futures].
  rewrite list_lookup_insert_eq by assumption. cbn [_done_callbacks].
  rewrite Hcb.
  set (F' := mkFuture CANCELLED (_result F) (_exception F) (registered ots (Some cell))).
  set (w2 := mkWorld (<[f:=F']> (futures w1)) (scopes w1) (cells w1) (events w1)
                (cms w1) (portal w1) (tasks w1) (host w1) (current w1) (log w1)).
  assert (Hf2 : futures w2 !! f = Some F')
    by (apply list_lookup_insert_eq; assumption).
  destruct ots as [t|]; cbn [registered app invoke_each bind try_except].
  - destruct Hts as (T & Ht & HcT & HrT).
    assert (Hne : t <> f).
    { intros ->. assert (T = F) by congruence. subst T.
      rewrite HcT in Hcb. discriminate. }
    assert (Ht2 : futures w2 !! t = Some T)
      by (cbn; rewrite list_lookup_insert_ne by congruence; exact Ht).
    rewrite (invoke_task_done n loop_thread t f w2 F' T Hf2 eq_refl Ht2 HcT HrT).
    match goal with |- context [invoke (S n) loop_thread (callback_ cell) f ?w3] =>
      rewrite (invoke_callback_rejected n cell s f w3 F')
    end.
    + cbn. rewrite loop_thread_usage_error_ordinary.
      cbn. eexists. split; [reflexivity|]. cbn.
      split; [|repeat split].
      unfold future_cancelled. cbn.
      rewrite list_lookup_insert_ne by congruence.
      rewrite list_lookup_insert_eq by assumption. reflexivity.
    + cbn. rewrite list_lookup_insert_ne by congruence. exact Hf2.
    + reflexivity.
    + exact Hcell.
    + exact Hp.
  - rewrite (invoke_callback_rejected n cell s f w2 F' Hf2 eq_refl Hcell Hp).
    cbn. rewrite loop_thread_usage_error_ordinary. cbn. eexists.
    split; [reflexivity|]. cbn.
    split; [|repeat split].
    unfold future_cancelled. cbn.
    rewrite list_lookup_insert_eq by assumption. reflexivity.
Qed.

Lemma callback_rejected_witness :
  exists w',
    run_code (invoke 1) (_call_func_from (Throw SchedCancelled) 0 0) registered_world
    = (Finished (Val VNone), w')
    /\ future_cancelled 0 w' = true
    /\ log w'
       = [CallbackFailed
            (RuntimeError "This method cannot be called from the event loop thread")]
    /\ scopes w' = [false; false]
    /\ tasks w' = [].
Proof.
  apply (callback_is_rejected_on_loop_thread 0 (Throw SchedCancelled) SchedCancelled
           0 0 1 registered_world registered_world
           (mkFuture PENDING None None [callback_ 0]) None).
  - reflexivity.
  - reflexivity.
  - reflexivity.
  - reflexivity.
  - reflexivity.
  - exact I.
  - reflexivity.
  - right. reflexivity.
Defined.

(** ** Whole calls through a running portal *)

Lemma run_emit_all inv es k : forall w,
  run_code inv (emit_all es k) w
  = run_code inv k (with_log (rev (map Emitted es) ++ log w) w).
Proof.
  induction es as [|e es IH]; intros w; cbn [emit_all map rev app].
  - destruct w; reflexivity.
  - cbn [run_code stmt exec_action modify]. rewrite IH. cbn.
    rewrite <- app_assoc. reflexivity.
Qed.

Lemma run_outcome_coro inv o w : run_code inv (outcome_coro o) w = (Finished o, w).
Proof. destruct o; reflexivity. Qed.

(** The task of a plain function, on a fresh future: no cancel scope is
    entered and no callback is registered. *)
Lemma run_call_func_plain inv g args kwargs f w :
  futures w !! f = Some new_Future ->
  run_code inv (_call_func (sync_function g) args kwargs f) w
  = (Finished (task_outcome_of (snd (g args))),
     after_plain_function (fst (g args)) (snd (g args)) f w).
Proof.
  intros Hf. pose proof (lookup_lt_Some _ _ _ Hf) as Hlt.
  unfold _call_func, _call_func_try. cbn [call_function].
  destruct (g args) as [es o]. cbn [fst snd run_code stmt exec_action].
  rewrite run_call_func_from, run_emit_all, run_outcome_coro.
  unfold _call_func_from, try_finally, after_plain_function.
  destruct o as [v|exc]; cbn [resolution_of task_outcome_of].
  - run_step. unfold Future_cancelled. cbn. rewrite Hf. cbn.
    unfold Future_set_result. cbn. rewrite Hf. cbn.
    unfold _invoke_callbacks. cbn. rewrite list_lookup_insert_eq by assumption.
    cbn. rewrite insert_snoc. reflexivity.
  - destruct (isinstance_cancelled_exc_class exc) eqn:EC.
    + run_step. rewrite EC. run_step. unfold Future_cancel. cbn. rewrite Hf. cbn.
      unfold _invoke_callbacks. cbn. rewrite list_lookup_insert_eq by assumption.
      cbn. rewrite insert_snoc. reflexivity.
    + run_step. rewrite EC. run_step. unfold Future_cancelled. cbn. rewrite Hf. cbn.
      unfold Future_set_exception. cbn. rewrite Hf. cbn.
      unfold _invoke_callbacks. cbn. rewrite list_lookup_insert_eq by assumption.
      cbn. destruct (isinstance_Exception exc); cbn; rewrite insert_snoc; reflexivity.
Qed.






(** ** start_task, when the task reports readiness *)

Lemma lookup_snoc2 {A : Type} (l : list A) (x y : A) :
  (l ++ [x; y]) !! length l = Some x /\ (l ++ [x; y]) !! S (length l) = Some y.
Proof.
  split.
  - apply list_lookup_middle. reflexivity.
  - rewrite lookup_app_r by lia. replace (S (length l) - length l) with 1 by lia.
    reflexivity.
Qed.

Lemma insert_snoc2 {A : Type} (l : list A) (x y z : A) :
  <[S (length l):=z]> (l ++ [x; y]) = l ++ [x; z].
Proof.
  rewrite insert_app_r_alt by lia.
  replace (S (length l) - length l) with 1 by lia. reflexivity.
Qed.

Lemma start_task_accepted inv blk tid func args w :
  _event_loop_thread_id (portal w) = Some loop_thread ->
  tid <> loop_thread ->
  start_task inv blk tid func args w
  = (v <- Future_result blk tid (length (futures w)) ;;
     ret (S (length (futures w)), v))%M (submitted_with_status func args w).
Proof.
  intros Hid Htid. destruct w as [fs ss cs es cm p ts h cur lg]. cbn in Hid.
  unfold start_task, _check_running, submitted_with_status, spawned.
  cbn [bind get portal]. rewrite Hid.
  destruct (Nat.eqb loop_thread tid) eqn:E; [apply Nat.eqb_eq in E; congruence|].
  cbn [bind ret alloc_future set_futures futures scopes cells events cms portal
       tasks host current log].
  rewrite length_app. cbn [length]. rewrite Nat.add_1_r.
  unfold Future_add_done_callback. cbn [bind get_future futures].
  replace ((fs ++ [new_Future]) ++ [new_Future]) with (fs ++ [new_Future; new_Future])
    by (rewrite <- app_assoc; reflexivity).
  rewrite (proj2 (lookup_snoc2 fs new_Future new_Future)).
  cbn. rewrite insert_snoc2. reflexivity.
Qed.

Lemma Future_set_result_plain inv tid t v w T :
  futures w !! t = Some T ->
  state_done (_state T) = false ->
  _done_callbacks T = [] ->
  Future_set_result inv tid t v w
  = (Some (Val tt),
     set_futures (<[t:=mkFuture FINISHED (Some v) (_exception T) []]> (futures w)) w).
Proof.
  intros Ht Hd Hcb. unfold Future_set_result, _invoke_callbacks.
  cbn [bind get_future put_future modify]. rewrite Ht, Hd.
  cbn [bind get_future put_future modify set_futures futures].
  rewrite list_lookup_insert_eq by (eapply lookup_lt_Some; eassumption).
  cbn [_done_callbacks]. rewrite Hcb. reflexivity.
Qed.

Lemma run_child_parks inv i scs c w wt k w' :
  run_code inv c (set_current scs w) = (Parked wt k, w') ->
  run_child inv i (mkTask scs (Ready c)) w
  = (Some (Val tt),
     set_tasks (<[i:=mkTask (current w') (Waiting wt k)]> (tasks w')) w').
Proof.
  intros H. unfold run_child. cbn [resume_code t_state t_scopes]. rewrite H.
  reflexivity.
Qed.

(** X6: [start_task] with a task that calls [task_status.started(v)] and
    then suspends returns to the calling thread as soon as the task has
    reported: the pair of the task's future and [v].  The readiness future
    is finished with [v], the task is still parked where it suspended, and
    its own future is still pending. *)
Theorem start_task_returns_started_value n tid g args v wt rest w :
  (forall t, g args (Some t) = (started t v ;; await_ wt rest)%coro) ->
  _event_loop_thread_id (portal w) = Some loop_thread ->
  tid <> loop_thread ->
  let tsf := length (futures w) in
  let f := S (length (futures w)) in
  exists w',
    start_task (invoke n) (block (S n)) tid (coroutine_function g) args w
    = (Some (Val (f, v)), w')
    /\ futures w' !! tsf = Some (mkFuture FINISHED (Some v) None [])
    /\ future_done f w' = false
    /\ (exists k scs, tasks w' = tasks w ++ [mkTask scs (Waiting wt k)]).
Proof.
  intros Hg Hid Htid tsf f.
  set (func := coroutine_function g).
  rewrite start_task_accepted by assumption. fold tsf. fold f.
  set (w1 := submitted_with_status func args w).
  set (F := mkFuture PENDING None None [task_done tsf]).
  assert (Hfs1 : futures w1 = futures w ++ [new_Future; F]) by reflexivity.
  assert (Ht1 : futures w1 !! tsf = Some new_Future)
    by (rewrite Hfs1; apply lookup_snoc2).
  assert (Hf1 : futures w1 !! f = Some F)
    by (rewrite Hfs1; apply lookup_snoc2).
  set (w1c := set_current [_task_group_cancel_scope (portal w)] w1).
  pose proof (call_func_prefix (invoke n) func args (Some tsf)
                (g args (Some tsf)) f w1c F eq_refl Hf1) as Hpre.
  cbn zeta in Hpre. cbn [state_cancelled state_done _state F] in Hpre.
  rewrite run_call_func_from, run_leave_CancelScope, Hg in Hpre.
  cbn [run_code stmt started exec_action] in Hpre.
  set (cb := callback_ (length (cells w1c))) in *.
  set (w2 := set_futures (<[f:=add_callback cb F]> (futures w1c)) (entered false w1c)) in *.
  assert (Hne : tsf <> f) by (unfold tsf, f; lia).
  assert (Ht2 : futures w2 !! tsf = Some new_Future).
  { unfold w2. cbn [set_futures futures]. rewrite list_lookup_insert_ne by congruence.
    exact Ht1. }
  rewrite (Future_set_result_plain (invoke n) loop_thread tsf v w2 new_Future
             Ht2 eq_refl eq_refl) in Hpre.
  cbn [run_code await_ _exception new_Future] in Hpre.
  set (T := mkFuture FINISHED (Some v) None []) in *.
  set (w3 := set_futures (<[tsf:=T]> (futures w2)) w2) in *.
  assert (Hturn : exists k,
    loop_turn (invoke n) w1
    = (Some (Val true),
       set_tasks (<[length (tasks w):=mkTask (current w3) (Waiting wt k)]> (tasks w3)) w3)).
  { eexists.
    rewrite (loop_turn_newest (invoke n) w1 (tasks w) (spawned w func args (Some tsf) f));
      [|reflexivity|reflexivity].
    cbn [bind]. unfold spawned.
    rewrite (run_child_parks _ _ _ _ _ _ _ _ Hpre). reflexivity. }
  destruct Hturn as (k & Hturn).
  set (w4 := set_tasks (<[length (tasks w):=mkTask (current w3) (Waiting wt k)]> (tasks w3)) w3)
    in *.
  assert (Hlt : tsf < length (futures w2)).
  { eapply lookup_lt_Some. exact Ht2. }
  assert (Ht4 : futures w4 !! tsf = Some T).
  { unfold w4, w3. cbn [set_tasks set_futures futures].
    apply list_lookup_insert_eq. exact Hlt. }
  assert (Hf4 : futures w4 !! f = Some (add_callback cb F)).
  { unfold w4, w3. cbn [set_tasks set_futures futures].
    rewrite list_lookup_insert_ne by congruence.
    unfold w2. cbn [set_futures futures].
    apply list_lookup_insert_eq. eapply lookup_lt_Some. exact Hf1. }
  exists w4. split.
  { unfold Future_result. cbn [bind].
    rewrite (block_turn n tid _ w1 w4 Htid);
      [|unfold future_done; rewrite Ht1; reflexivity|exact Hturn].
    rewrite block_ready by (unfold future_done; rewrite Ht4; reflexivity).
    cbn [get_future]. rewrite Ht4. reflexivity. }
  split; [exact Ht4|]. split.
  { unfold future_done. rewrite Hf4. reflexivity. }
  exists k, (current w3). unfold w4. cbn [set_tasks tasks].
  change (tasks w3) with (tasks w ++ [spawned w func args (Some tsf) f]).
  apply insert_snoc.
Qed.

Lemma start_task_started_witness :
  exists w',
    start_task (invoke 0) (block 1) 1 (coroutine_function sample_service) []
      running_world
    = (Some (Val (2, VInt 5)), w')
    /\ futures w' !! 1 = Some (mkFuture FINISHED (Some (VInt 5)) None [])
    /\ future_done 2 w' = false
    /\ (exists k scs, tasks w' = [mkTask scs (Waiting WForever k)]).
Proof.
  apply (start_task_returns_started_value 0 1 sample_service [] (VInt 5) WForever
           (Return VNone) running_world).
  - reflexivity.
  - reflexivity.
  - discriminate.
Defined.

(** ** The life cycle of the portal *)

(** X7: [stop] may be called again.  Two calls in a row leave the portal
    as one call would that cancels the remaining tasks if either of the two
    asked for it: a later [stop(False)] does not take back a cancellation,
    and a second call with the same argument changes nothing. *)
Theorem stop_twice inv a b w :
  exists w1 w2 w12,
    run_code inv (stop a) w = (Finished (Val VNone), w1)
    /\ run_code inv (stop b) w1 = (Finished (Val VNone), w2)
    /\ run_code inv (stop (a || b)) w = (Finished (Val VNone), w12)
    /\ w2 = with_log (StopCalled b :: StopCalled a :: log w) w12
    /\ scopes w2
       = (if a || b
          then <[_task_group_cancel_scope (portal w):=true]> (scopes w)
          else scopes w).
Proof.
  unfold stop.
  destruct a, b; cbn; do 3 eexists; (split; [reflexivity|]); (split; [reflexivity|]);
    (split; [reflexivity|]); unfold with_log; cbn; rewrite ?list_insert_insert_eq;
    split; reflexivity.
Qed.

(** X8: the adapter's [__enter__] is a submission like the others.  When
    the portal is not running or the caller is the loop thread, it raises
    the usage error and no task is spawned; the enter-future was created
    and assigned before the check, the exit-future is not assigned.  An
    adapter whose task never started has no exit event: its [__exit__]
    raises AttributeError and submits nothing. *)
Theorem enter_is_rejected_like_a_submission n tid self x w :
  cms w !! bacm_self self = Some x ->
  submission_rejected tid w = true ->
  exists msg w',
    __enter__ (block n) tid self w = (Some (Raised (RuntimeError msg)), w')
    /\ tasks w' = tasks w
    /\ futures w' = futures w ++ [new_Future]
    /\ cms w' !! bacm_self self
       = Some (mkFields (Some (length (futures w))) (_exit_future x)
                        (_exit_event x) (_exit_exc_info x))
    /\ (_exit_event x = None ->
        forall exc,
          exists w'',
            __exit__ (block n) tid self exc w' = (Some (Raised AttributeError), w'')
            /\ tasks w'' = tasks w
            /\ futures w'' = futures w').
Proof.
  intros Hx Hrej. pose proof (lookup_lt_Some _ _ _ Hx) as Hlt.
  destruct w as [fs ss cs es cm p ts h cur lg]. cbn in *.
  unfold submission_rejected in Hrej. cbn in Hrej.
  unfold __enter__, __exit__, start_task_soon, _check_running. cbn. rewrite Hx. cbn.
  destruct (_event_loop_thread_id p) as [id|] eqn:Eid.
  - rewrite Hrej. cbn. do 2 eexists. split; [reflexivity|]. cbn.
    split; [reflexivity|]. split; [reflexivity|].
    split; [apply list_lookup_insert_eq; assumption|].
    intros Hev exc. rewrite list_lookup_insert_eq by assumption. cbn. rewrite Hev. cbn.
    eexists. split; [reflexivity|]. split; reflexivity.
  - cbn. do 2 eexists. split; [reflexivity|]. cbn.
    split; [reflexivity|]. split; [reflexivity|].
    split; [apply list_lookup_insert_eq; assumption|].
    intros Hev exc. rewrite list_lookup_insert_eq by assumption. cbn. rewrite Hev. cbn.
    eexists. split; [reflexivity|]. split; reflexivity.
Qed.

Lemma enter_rejected_witness :
  exists msg w',
    __enter__ (block 1) loop_thread (mkBACM 0 sample_cm) adapter_world
    = (Some (Raised (RuntimeError msg)), w')
    /\ tasks w' = []
    /\ futures w' = [new_Future]
    /\ cms w' !! 0 = Some (mkFields (Some 0) None None None)
    /\ (_exit_event (mkFields None None None None) = None ->
        forall exc,
          exists w'',
            __exit__ (block 1) loop_thread (mkBACM 0 sample_cm) exc w'
            = (Some (Raised AttributeError), w'')
            /\ tasks w'' = []
            /\ futures w'' = futures w').
Proof.
  apply (enter_is_rejected_like_a_submission 1 loop_thread (mkBACM 0 sample_cm)
           (mkFields None None None None) adapter_world).
  - reflexivity.
  - reflexivity.
Defined.

(** X9: leaving [async with BlockingPortal()] stops the portal before it
    joins the task group: when the body of the block has ended, with a
    value or an exception, [__aexit__] has marked the portal as not running
    and set the stop event, without cancelling any scope, by the time the
    hosting task waits for the children of the group. *)
Theorem portal_exit_stops_before_joining inv body o w w1 :
  run_code inv body (portal_entered w) = (Finished o, w1) ->
  exists k,
    run_code inv (async_with_BlockingPortal body) w
    = (Parked WTasksDone k,
       mkWorld (futures w1) (scopes w1) (cells w1)
               (<[_stop_event (portal w1):=true]> (events w1)) (cms w1)
               (stopped_portal (portal w1)) (tasks w1) (host w1) (current w1)
               (StopCalled false :: log w1)).
Proof.
  intros Hrun. unfold async_with_BlockingPortal.
  cbn [run_code stmt exec_action BlockingPortal_init TaskGroup_aenter modify].
  change (run_code inv ?c _) with (run_code inv c (portal_entered w)) at 1.
  rewrite run_bind, Hrun. unfold stop, TaskGroup_aexit.
  cbn [bind_coro stmt run_code exec_action modify get]. eexists. reflexivity.
Qed.

Lemma portal_exit_witness :
  exists k,
    run_code (invoke 0) (async_with_BlockingPortal (Throw (AppError 1))) empty_world
    = (Parked WTasksDone k,
       mkWorld [] [false] [] [true] [] (mkPortal None 0 0 true []) [] NoHost [0]
               [StopCalled false]).
Proof.
  apply (portal_exit_stops_before_joining (invoke 0) (Throw (AppError 1))
           (Raised (AppError 1)) empty_world (portal_entered empty_world)).
  reflexivity.
Defined.

(** ** Cancellation, seen from the task *)

(** X11: a task whose future was cancelled before it started.  The first
    turn of [_call_func] cancels the new scope and parks where the
    coroutine first suspends.  From then on the task is runnable; when it
    is resumed, at any later moment at which its future and its scope are
    still cancelled, the suspension point raises the scheduler's
    cancellation, the code of the coroutine after that point never runs,
    and the task ends without an exception: no future changes and nothing
    is logged, only the local [scope] is cleared and the scope left. *)
Theorem cancelled_task_unwinds_at_suspension inv func args kwargs wt k f w F :
  call_function func args kwargs = Coroutine (Suspend wt k) ->
  futures w !! f = Some F ->
  state_cancelled (_state F) = true ->
  cancellable wt = true ->
  k (Raised SchedCancelled) = Throw SchedCancelled ->
  let cell := length (cells w) in
  let s := length (scopes w) in
  let t := mkTask (s :: current w) (Waiting wt (suspended_call_func s k f cell)) in
  run_code inv (_call_func func args kwargs f) w
  = (Parked wt (suspended_call_func s k f cell), entered true w)
  /\ forall w2 F2,
       futures w2 !! f = Some F2 ->
       state_cancelled (_state F2) = true ->
       cancel_called w2 s = true ->
       runnable w2 t = true
       /\ run_code inv (resume_code w2 t) (set_current (t_scopes t) w2)
          = (Finished (Val VNone),
             set_cells (<[cell:=None]> (cells w2)) (set_current (current w) w2)).
Proof.
  intros Hcall Hf Hc Hwt Hk cell s t. split.
  { rewrite (call_func_prefix inv func args kwargs (Suspend wt k) f w F Hcall Hf).
    rewrite Hc. fold s. fold cell.
    rewrite run_call_func_from, run_leave_CancelScope. reflexivity. }
  intros w2 F2 Hf2 Hc2 Hs.
  assert (Htc : task_cancelled w2 t = true).
  { unfold task_cancelled, t. cbn. rewrite Hs. reflexivity. }
  split.
  { unfold runnable, t in *. cbn [t_state]. rewrite Hwt, Htc. reflexivity. }
  unfold resume_code. cbn [t t_state t_scopes]. fold t. rewrite Hwt, Htc.
  cbn [andb]. unfold suspended_call_func. rewrite Hk, run_call_func_from.
  unfold leave_CancelScope.
  cbn [bind_coro run_code exec_action exc_of CancelScope_exit bind get modify ret].
  match goal with |- context [if ?b then _ else _] => destruct b end;
    cbn [run_code];
    match goal with |- run_code _ (_call_func_from (outcome_coro ?o) _ _) ?w3 = _ =>
      rewrite (run_handlers_cancelled inv o f cell w3 F2 Hf2 Hc2)
    end; reflexivity.
Qed.

Lemma cancelled_task_witness :
  let func := coroutine_function (fun _ _ => Suspend WCheckpoint sample_continuation) in
  let t := mkTask [1; 0]
             (Waiting WCheckpoint (suspended_call_func 1 sample_continuation 0 0)) in
  run_code (invoke 0) (_call_func func [] None 0) cancelled_world
  = (Parked WCheckpoint (suspended_call_func 1 sample_continuation 0 0),
     entered true cancelled_world)
  /\ forall w2 F2,
       futures w2 !! 0 = Some F2 ->
       state_cancelled (_state F2) = true ->
       cancel_called w2 1 = true ->
       runnable w2 t = true
       /\ run_code (invoke 0) (resume_code w2 t) (set_current (t_scopes t) w2)
          = (Finished (Val VNone),
             set_cells (<[0:=None]> (cells w2)) (set_current [0] w2)).
Proof.
  apply (cancelled_task_unwinds_at_suspension (invoke 0)
           (coroutine_function (fun _ _ => Suspend WCheckpoint sample_continuation))
           [] None WCheckpoint sample_continuation 0 cancelled_world
           (mkFuture CANCELLED None None [])); reflexivity.
Defined.

(** X12: [stop(cancel_remaining=True)] cancels a remaining task.  A task
    of the portal parked at a cancellable suspension point of its
    coroutine, in a scope of its own that nobody cancelled, is runnable
    once [stop(True)] has run; resumed, the suspension point raises the
    scheduler's cancellation, which passes the task's own scope, and the
    except clause cancels the pending future: a thread waiting for it gets
    a cancellation error, and the task ends without an exception. *)
Theorem forced_stop_cancels_parked_task n s wt k f cell w0 F :
  _task_group_cancel_scope (portal w0) < length (scopes w0) ->
  futures w0 !! f = Some F ->
  _state F = PENDING ->
  _done_callbacks F = [callback_ cell] ->
  s <> _task_group_cancel_scope (portal w0) ->
  cancel_called w0 s = false ->
  cancellable wt = true ->
  k (Raised SchedCancelled) = Throw SchedCancelled ->
  let t := mkTask [s; _task_group_cancel_scope (portal w0)]
             (Waiting wt (suspended_call_func s k f cell)) in
  exists w w',
    run_code (invoke (S n)) (stop true) w0 = (Finished (Val VNone), w)
    /\ runnable w t = true
    /\ run_code (invoke (S n)) (resume_code w t) (set_current (t_scopes t) w)
       = (Finished (Val VNone), w')
    /\ future_cancelled f w' = true
    /\ forall m tid,
         Future_result (block m) tid f w' = (Some (Raised CancelledError), w').
Proof.
  intros Hlt Hf Hst Hcb Hne Hs Hwt Hk t.
  set (tg := _task_group_cancel_scope (portal w0)) in *.
  assert (Hstop : exists w, run_code (invoke (S n)) (stop true) w0 = (Finished (Val VNone), w)
            /\ futures w = futures w0 /\ scopes w = <[tg:=true]> (scopes w0)
            /\ _event_loop_thread_id (portal w) = None).
  { unfold stop. cbn. eexists. split; [reflexivity|]. cbn. repeat split. }
  destruct Hstop as (w & Hstop & Hfs & Hss & Hid).
  exists w.
  assert (Hctg : cancel_called w tg = true).
  { unfold cancel_called. rewrite Hss, list_lookup_insert_eq by assumption. reflexivity. }
  assert (Hcs : cancel_called w s = false).
  { unfold cancel_called in *. rewrite Hss, list_lookup_insert_ne by congruence.
    exact Hs. }
  assert (Htc : task_cancelled w t = true).
  { unfold task_cancelled. cbn [t t_scopes existsb]. rewrite Hcs, Hctg. reflexivity. }
  set (w1 := set_current [tg] w).
  assert (Hf1 : futures w1 !! f = Some F) by (cbn; rewrite Hfs; exact Hf).
  destruct (run_handlers_pending n (Raised SchedCancelled) f cell w1 F None (Some cell)
              Hf1 Hst Hcb I (or_introl Hid)) as (lg & Hh & _).
  eexists. split; [exact Hstop|]. split.
  { unfold runnable. cbn [t t_state]. fold t. rewrite Hwt, Htc. reflexivity. }
  split.
  { unfold resume_code. cbn [t t_state t_scopes]. fold t. rewrite Hwt, Htc.
    cbn [andb]. unfold suspended_call_func. rewrite Hk, run_call_func_from.
    unfold leave_CancelScope.
    cbn [bind_coro run_code exec_action exc_of CancelScope_exit bind get modify ret
         isinstance_cancelled_exc_class current set_current tl].
    match goal with |- context [cancel_called ?W s] =>
      change (cancel_called W s) with (cancel_called w s)
    end.
    rewrite Hcs. cbn [andb run_code]. exact Hh. }
  assert (Hl : futures (set_cells (<[cell:=None]> (cells w1))
                          (after_resolution by_cancel f F None lg w1)) !! f
               = Some (resolved by_cancel F)).
  { exact (after_resolution_lookup by_cancel f F None lg w1 Hf1). }
  split.
  - unfold future_cancelled. cbn [resolution_of isinstance_cancelled_exc_class].
    rewrite Hl. reflexivity.
  - intros m tid. cbn [resolution_of isinstance_cancelled_exc_class].
    erewrite Future_result_done; [|exact Hl|reflexivity]. reflexivity.
Qed.

Lemma forced_stop_witness :
  let t := mkTask [1; 0]
             (Waiting WForever (suspended_call_func 1 sample_continuation 0 0)) in
  exists w w',
    run_code (invoke 1) (stop true) registered_world = (Finished (Val VNone), w)
    /\ runnable w t = true
    /\ run_code (invoke 1) (resume_code w t) (set_current (t_scopes t) w)
       = (Finished (Val VNone), w')
    /\ future_cancelled 0 w' = true
    /\ forall m tid,
         Future_result (block m) tid 0 w' = (Some (Raised CancelledError), w').
Proof.
  apply (forced_stop_cancels_parked_task 0 1 WForever sample_continuation 0 0
           registered_world (mkFuture PENDING None None [callback_ 0])).
  - cbn. lia.
  - reflexivity.
  - reflexivity.
  - reflexivity.
  - discriminate.
  - reflexivity.
  - reflexivity.
  - reflexivity.
Defined.

(** ** start_blocking_portal, to its end *)

Lemma async_with_BlockingPortal_aexit body :
  async_with_BlockingPortal body
  = (PortalInit ;; TaskGroupEnter ;; bind_coro body BlockingPortal_aexit)%coro.
Proof. reflexivity. Qed.

Lemma run_portal_first_turn_sleeping inv future w :
  futures w !! future = Some new_Future ->
  run_code inv (run_portal future) w
  = (Parked (WEvent (length (events w))) run_portal_sleeping,
     mkWorld (<[future:=mkFuture FINISHED (Some VPortal) None []]> (futures w))
             (scopes w ++ [false]) (cells w) (events w ++ [false]) (cms w)
             (mkPortal (Some loop_thread) (length (events w)) (length (scopes w))
                       true [])
             (tasks w) (host w) (length (scopes w) :: current w) (log w)).
Proof.
  intros Hf. pose proof (lookup_lt_Some _ _ _ Hf) as Hlt.
  destruct w as [fs ss cs es cm p ts h cur lg]. cbn in Hf, Hlt.
  unfold run_portal, async_with_BlockingPortal, sleep_until_stopped. cbn.
  unfold Future_set_running_or_notify_cancel. cbn. rewrite Hf. cbn.
  unfold Future_set_result. cbn.
  rewrite list_lookup_insert_eq by assumption. cbn.
  unfold _invoke_callbacks. cbn.
  rewrite list_lookup_insert_eq by (rewrite length_insert; assumption). cbn.
  rewrite list_insert_insert_eq. reflexivity.
Qed.

Lemma run_BlockingPortal_aexit inv o w :
  run_code inv (BlockingPortal_aexit o) w
  = (Parked WTasksDone (BlockingPortal_joining o),
     mkWorld (futures w) (scopes w) (cells w)
             (<[_stop_event (portal w):=true]> (events w)) (cms w)
             (stopped_portal (portal w)) (tasks w) (host w) (current w)
             (StopCalled false :: log w)).
Proof.
  unfold BlockingPortal_aexit, stop, TaskGroup_aexit.
  cbn [bind_coro stmt run_code exec_action modify get]. reflexivity.
Qed.

Lemma run_BlockingPortal_joining inv (c : bool) w :
  _task_group_errors (portal w) = [] ->
  current w = [_task_group_cancel_scope (portal w)] ->
  cancel_called w (_task_group_cancel_scope (portal w)) = c ->
  run_code inv
    (BlockingPortal_joining (if c then Raised SchedCancelled else Val VNone) (Val tt)) w
  = (Finished (Val VNone), set_current [] w).
Proof.
  intros He Hcur Hc. destruct w as [fs ss cs es cm p ts h cur lg].
  cbn in He, Hcur, Hc. subst cur. unfold cancel_called in Hc. cbn in Hc.
  unfold BlockingPortal_joining.
  destruct c; cbn; rewrite He; cbn; unfold cancel_called; cbn; rewrite ?Hc; reflexivity.
Qed.

(** X10: when the launcher gave up before the event loop started (its
    future is cancelled), [run_portal] does not hand out the portal and
    does not sleep: [set_running_or_notify_cancel] returns False, the
    future is left cancelled, and the portal is stopped at once (and not
    cancelled) as the block is left; the hosting task waits for the task
    group, and once the group is joined [run_portal] returns. *)
Theorem cancelled_launcher_is_not_served inv future w F :
  futures w !! future = Some F ->
  _state F = CANCELLED ->
  run_code inv (run_portal future) w
  = (Parked WTasksDone (BlockingPortal_joining (Val VNone)), not_served future F w)
  /\ (current w = [] ->
      run_code inv (BlockingPortal_joining (Val VNone) (Val tt)) (not_served future F w)
      = (Finished (Val VNone), set_current [] (not_served future F w))).
Proof.
  intros Hf Hst. split.
  - destruct w as [fs ss cs es cm p ts h cur lg]. cbn in Hf.
    unfold run_portal. rewrite async_with_BlockingPortal_aexit.
    cbn [run_code stmt exec_action BlockingPortal_init TaskGroup_aenter modify].
    rewrite run_bind.
    cbn [run_code stmt exec_action].
    unfold Future_set_running_or_notify_cancel. cbn. rewrite Hf, Hst.
    cbn. unfold not_served. cbn. rewrite insert_snoc. reflexivity.
  - intros Hcur.
    apply (run_BlockingPortal_joining inv false (not_served future F w)).
    + reflexivity.
    + cbn. rewrite Hcur. reflexivity.
    + unfold cancel_called. cbn. rewrite lookup_snoc. reflexivity.
Qed.

Lemma cancelled_launcher_witness :
  run_code (invoke 0) (run_portal 0) (set_current [] cancelled_world)
  = (Parked WTasksDone (BlockingPortal_joining (Val VNone)),
     not_served 0 (mkFuture CANCELLED None None []) (set_current [] cancelled_world))
  /\ (current (set_current [] cancelled_world) = [] ->
      run_code (invoke 0) (BlockingPortal_joining (Val VNone) (Val tt))
        (not_served 0 (mkFuture CANCELLED None None []) (set_current [] cancelled_world))
      = (Finished (Val VNone),
         set_current []
           (not_served 0 (mkFuture CANCELLED None None [])
              (set_current [] cancelled_world)))).
Proof.
  apply (cancelled_launcher_is_not_served (invoke 0) 0 (set_current [] cancelled_world)
           (mkFuture CANCELLED None None [])).
  - reflexivity.
  - reflexivity.
Defined.

Lemma pick_none w : forall ts i,
  forallb task_is_done ts = true -> pick w ts i = None.
Proof.
  induction ts as [|t ts IH]; intros i H; [reflexivity|].
  cbn in H. apply andb_prop in H as [Ht Hts]. cbn [pick]. rewrite (IH _ Hts).
  unfold runnable. unfold task_is_done in Ht. destruct (t_state t); try discriminate.
  reflexivity.
Qed.

(** The end of the hosting thread, once the portal is stopped and its
    tasks are done: the sleeper wakes up (by the stop event, or by the
    cancellation of the group's scope), [__aexit__] stops the portal once
    more and joins the group, and the worker resolves its future. *)
Lemma host_teardown n tid cond rf w :
  tid <> loop_thread ->
  host_sleeping rf w ->
  event_is_set w (_stop_event (portal w)) = true ->
  (forall w' t, host w' = HostRunning t rf -> futures w' = futures w -> cond w' = false) ->
  cond (host_ended rf w) = true ->
  block (S (S n)) tid cond w = (Some (Val tt), host_ended rf w).
Proof.
  intros Htid [Hh Hts Hf He] Hev Hc0 Hc1.
  set (s0 := _task_group_cancel_scope (portal w)) in *.
  set (ev0 := _stop_event (portal w)) in *.
  set (t := mkTask [s0] (Waiting (WEvent ev0) run_portal_sleeping)) in *.
  set (c := cancel_called w s0).
  set (o := if c then Raised SchedCancelled else Val VNone : outcome value).
  set (wA := mkWorld (futures w) (scopes w) (cells w) (<[ev0:=true]> (events w)) (cms w)
               (stopped_portal (portal w)) (tasks w)
               (HostRunning (mkTask [s0] (Waiting WTasksDone (BlockingPortal_joining o))) rf)
               [s0] (StopCalled false :: log w)).
  assert (Hrun_t : runnable w t = true).
  { unfold runnable, t. cbn [t_state wait_ready]. rewrite Hev. apply orb_true_r. }
  assert (Hturn1 : loop_turn (invoke (S n)) w = (Some (Val true), wA)).
  { unfold loop_turn. rewrite (pick_none w _ 0 Hts), Hh. fold t. rewrite Hrun_t.
    cbn [bind]. unfold run_host, resume_code. cbn [t t_state t_scopes cancellable andb].
    fold t. unfold task_cancelled. cbn [t t_scopes existsb]. rewrite orb_false_r.
    fold c.
    assert (E : (if c then run_portal_sleeping (Raised SchedCancelled)
                 else run_portal_sleeping (Val tt)) = BlockingPortal_aexit o).
    { unfold o. destruct c; reflexivity. }
    rewrite E, run_BlockingPortal_aexit. reflexivity. }
  assert (Hturn2 : loop_turn (invoke n) wA = (Some (Val true), host_ended rf w)).
  { unfold loop_turn. cbn [tasks wA host]. rewrite (pick_none wA _ 0 Hts).
    unfold runnable. cbn [t_state cancellable andb orb wait_ready tasks wA].
    rewrite Hts. cbn [bind]. unfold run_host, resume_code.
    cbn [t_state t_scopes cancellable andb]. unfold o.
    rewrite (run_BlockingPortal_joining (invoke n) c (set_current [s0] wA));
      [|exact He|reflexivity|reflexivity].
    unfold Future_set_result, _invoke_callbacks. cbn. rewrite Hf. cbn.
    rewrite list_lookup_insert_eq by (eapply lookup_lt_Some; exact Hf). cbn.
    reflexivity. }
  rewrite (block_turn (S n) tid cond w wA Htid);
    [|eapply Hc0; [exact Hh|reflexivity]|exact Hturn1].
  rewrite (block_turn n tid cond wA (host_ended rf w) Htid);
    [|eapply Hc0; [reflexivity|reflexivity]|exact Hturn2].
  apply block_ready. exact Hc1.
Qed.

Lemma bootstrap_sleeping n tid body w :
  tid <> loop_thread ->
  tasks w = [] ->
  start_blocking_portal (invoke (S n)) (block (S n)) tid body w
  = match body (handed_over run_portal_sleeping w) with
    | (Some o, w2) =>
        finally (after_yield (S n) tid (S (length (futures w))) o)
          (executor_exit (block (S n)) tid) w2
    | (None, w2) => (None, w2)
    end.
Proof.
  intros Htid Hts. destruct w as [fs ss cs es cm p ts h cur lg]. cbn in Hts. subst ts.
  set (rf := length (fs ++ [new_Future])).
  set (wa := mkWorld ((fs ++ [new_Future]) ++ [mkFuture RUNNING None None []])
               ss cs es cm p []
               (HostRunning (mkTask [] (Ready (run_portal (length fs)))) rf) cur lg).
  assert (Hfa : futures (set_current [] wa) !! length fs = Some new_Future).
  { cbn. rewrite lookup_app_l by (rewrite length_app; cbn; lia). apply lookup_snoc. }
  pose proof (run_portal_first_turn_sleeping (invoke n) (length fs) (set_current [] wa) Hfa)
    as Hrun.
  set (w1 := handed_over run_portal_sleeping (mkWorld fs ss cs es cm p [] h cur lg)).
  assert (Hrf : rf = S (length fs)).
  { unfold rf. rewrite length_app. cbn. lia. }
  assert (Hw1 : futures w1 !! length fs
                = Some (mkFuture FINISHED (Some VPortal) None [])).
  { cbn. apply list_lookup_middle. reflexivity. }
  assert (Hturn : loop_turn (invoke n) wa = (Some (Val true), w1)).
  { unfold loop_turn. cbn [tasks wa pick host]. cbn [runnable t_state].
    unfold run_host. cbn [bind resume_code t_state t_scopes]. rewrite Hrun.
    cbn [ret]. unfold w1, handed_over. cbn. rewrite Hrf.
    replace (<[length fs:=mkFuture FINISHED (Some VPortal) None []]>
               ((fs ++ [new_Future]) ++ [mkFuture RUNNING None None []]))
      with (fs ++ [mkFuture FINISHED (Some VPortal) None [];
                   mkFuture RUNNING None None []]); [reflexivity|].
    rewrite <- app_assoc. cbn.
    rewrite insert_app_r_alt by lia. rewrite Nat.sub_diag. reflexivity. }
  set (cond := fun w : world => existsb (fun f => future_done f w) [rf; length fs]).
  assert (Hblock : block (S n) tid cond wa = (Some (Val tt), w1)).
  { rewrite (block_turn n tid cond wa w1 Htid); [| |exact Hturn].
    - apply block_ready. unfold cond. cbn [existsb]. unfold future_done at 2.
      rewrite Hw1. cbn. apply orb_true_r.
    - unfold cond, future_done, rf. cbn [existsb futures wa].
      rewrite lookup_snoc.
      rewrite lookup_app_l by (rewrite length_app; cbn; lia).
      rewrite lookup_snoc. reflexivity. }
  unfold start_blocking_portal, executor_submit, wait_first_completed,
    Future_set_running_or_notify_cancel, Future_done.
  cbn [bind alloc_future get_future put_future modify ret futures set_futures
       scopes cells events cms portal tasks host current log set_host finally].
  rewrite lookup_snoc. cbn [new_Future _state bind put_future modify ret
       futures set_futures scopes cells events cms portal tasks host current log
       _result _exception _done_callbacks set_host].
  rewrite insert_snoc. fold rf. fold wa. fold cond.
  cbn [try_except]. rewrite Hblock. rewrite Hw1.
  cbn [_state state_done bind].
  rewrite (Future_result_done (S n) tid (length fs) w1 _ Hw1 eq_refl).
  cbn [terminal_outcome _state state_cancelled _exception _result].
  unfold after_yield. rewrite <- Hrf. cbn [bind try_except].
  destruct (body w1) as [[[v|e]|] w2]; cbn [bind ret raise].
  - reflexivity.
  - destruct (call (block (S n)) tid portal_stop [VBool true] w2)
      as [[[v|e']|] w3]; reflexivity.
  - reflexivity.
Qed.

Lemma lookup_snoc_lt {A : Type} (l : list A) (x y : A) i :
  l !! i = Some y -> (l ++ [x]) !! i = Some y.
Proof.
  intros H. rewrite lookup_app_l by (eapply lookup_lt_Some; exact H). exact H.
Qed.

Lemma forallb_snoc {A : Type} (p : A -> bool) l x :
  forallb p (l ++ [x]) = forallb p l && p x.
Proof. rewrite forallb_app. cbn. rewrite andb_true_r. reflexivity. Qed.

Lemma after_call_stop_sleeping b rf w :
  still_serving rf w ->
  host_sleeping rf (after_call_stop b w)
  /\ event_is_set (after_call_stop b w) (_stop_event (portal (after_call_stop b w))) = true.
Proof.
  intros [Hid Hev [Hh Hts Hf He]]. split; [split|].
  - exact Hh.
  - cbn. rewrite forallb_snoc, Hts. reflexivity.
  - cbn. apply lookup_snoc_lt. exact Hf.
  - exact He.
  - unfold event_is_set. cbn. rewrite list_lookup_insert_eq by assumption. reflexivity.
Qed.

Lemma handed_over_serving w :
  tasks w = [] ->
  still_serving (S (length (futures w))) (handed_over run_portal_sleeping w).
Proof.
  intros Hts. split; [reflexivity| |split].
  - cbn. rewrite length_app. cbn. lia.
  - reflexivity.
  - cbn. rewrite Hts. reflexivity.
  - cbn. apply lookup_snoc2.
  - reflexivity.
Qed.

(** X13: [with start_blocking_portal() as portal: body] comes to its end.
    When the body ends, with a value or with an exception, on a portal that
    is still serving and whose tasks are done, the statement ends with the
    outcome of the body: the portal was stopped through [call] (graceful
    after a value, forced after an exception), the hosting thread left
    [run_portal], stopped the portal once more in [__aexit__], joined the
    task group and ended, and only then the executor was left. *)
Theorem blocking_portal_scope_ends n tid body o w w2 :
  tid <> loop_thread ->
  tasks w = [] ->
  body (handed_over run_portal_sleeping w) = (Some o, w2) ->
  still_serving (S (length (futures w))) w2 ->
  start_blocking_portal (invoke (S (S n))) (block (S (S n))) tid body w
  = (Some o,
     add_log ThreadJoined
       (host_ended (S (length (futures w)))
          (after_call_stop (by_exception_exit o) w2))).
Proof.
  intros Htid Hts Hbody Hs.
  rewrite (bootstrap_sleeping (S n) tid body w Htid Hts), Hbody.
  set (rf := S (length (futures w))) in *.
  destruct (after_call_stop_sleeping (by_exception_exit o) rf w2 Hs) as [Hsl Hev].
  unfold finally, after_yield.
  destruct o as [r|e]; cbn [bind by_exception_exit] in *.
  - rewrite (call_portal_stop n tid false w2 (ss_running _ _ Hs) Htid).
    set (w3 := after_call_stop false w2) in *.
    unfold Future_result. cbn [bind].
    rewrite (host_teardown n tid (future_done rf) rf w3 Htid Hsl Hev).
    + assert (Hl : futures (host_ended rf w3) !! rf
                   = Some (mkFuture FINISHED (Some VNone) None [])).
      { cbn. apply list_lookup_insert_eq. eapply lookup_lt_Some.
        exact (hs_future _ _ Hsl). }
      cbn [get_future]. rewrite Hl.
      cbn [_state state_cancelled __get_result _exception _result bind ret].
      unfold executor_exit. cbn [bind].
      rewrite block_ready by reflexivity. reflexivity.
    + intros w' t _ Hfs. unfold future_done.
      rewrite Hfs, (hs_future _ _ Hsl). reflexivity.
    + unfold future_done. cbn.
      rewrite list_lookup_insert_eq
        by (eapply lookup_lt_Some; exact (hs_future _ _ Hsl)).
      reflexivity.
  - rewrite (call_portal_stop n tid true w2 (ss_running _ _ Hs) Htid).
    set (w3 := after_call_stop true w2) in *.
    cbn [raise]. unfold executor_exit. cbn [bind].
    rewrite (host_teardown n tid host_exited rf w3 Htid Hsl Hev).
    + reflexivity.
    + intros w' t Hh _. unfold host_exited. rewrite Hh. reflexivity.
    + reflexivity.
Qed.

Lemma blocking_portal_scope_witness :
  let body := call (block 2) 1 (sync_function (fun _ => ([], Val (VInt 42)))) [] in
  let w2 := snd (body (handed_over run_portal_sleeping empty_world)) in
  start_blocking_portal (invoke 2) (block 2) 1 body empty_world
  = (Some (Val (VInt 42)),
     add_log ThreadJoined (host_ended 1 (after_call_stop false w2))).
Proof.
  apply (blocking_portal_scope_ends 0 1
           (call (block 2) 1 (sync_function (fun _ => ([], Val (VInt 42)))) [])
           (Val (VInt 42)) empty_world).
  - discriminate.
  - reflexivity.
  - vm_compute. reflexivity.
  - split; [reflexivity|vm_compute; lia|split; vm_compute; reflexivity].
Defined.

(** X14: a body that stops the portal itself makes the exit of the scope
    fail.  After [portal.call(portal.stop, b)] inside the block, the stop
    that [start_blocking_portal] issues on a normal exit is rejected by
    [_check_running]: the with statement raises the usage error
    RuntimeError('This portal is not running') in place of the value of the
    body, after the hosting thread has ended and was joined. *)
Theorem stopping_inside_the_scope_fails_its_exit n tid b r w :
  tid <> loop_thread ->
  tasks w = [] ->
  let body := (call (block (S (S n))) tid portal_stop [VBool b] ;; ret r)%M in
  start_blocking_portal (invoke (S (S n))) (block (S (S n))) tid body w
  = (Some (Raised (RuntimeError "This portal is not running")),
     add_log ThreadJoined
       (host_ended (S (length (futures w)))
          (after_call_stop b (handed_over run_portal_sleeping w)))).
Proof.
  intros Htid Hts body.
  rewrite (bootstrap_sleeping (S n) tid body w Htid Hts).
  set (w1 := handed_over run_portal_sleeping w).
  set (rf := S (length (futures w))).
  pose proof (handed_over_serving w Hts) as Hs. fold w1 rf in Hs.
  unfold body. cbn [bind].
  rewrite (call_portal_stop n tid b w1 (ss_running _ _ Hs) Htid). cbn [ret].
  destruct (after_call_stop_sleeping b rf w1 Hs) as [Hsl Hev].
  set (w2 := after_call_stop b w1) in *.
  unfold finally, after_yield. cbn [bind].
  rewrite (call_not_running (block (S (S n))) tid portal_stop [VBool false] w2 eq_refl).
  unfold executor_exit. cbn [bind].
  rewrite (host_teardown n tid host_exited rf w2 Htid Hsl Hev).
  - reflexivity.
  - intros w' t Hh _. unfold host_exited. rewrite Hh. reflexivity.
  - reflexivity.
Qed.

Lemma stopping_inside_witness :
  start_blocking_portal (invoke 2) (block 2) 1
    (call (block 2) 1 portal_stop [VBool false] ;; ret VNone)%M empty_world
  = (Some (Raised (RuntimeError "This portal is not running")),
     add_log ThreadJoined
       (host_ended 1 (after_call_stop false (handed_over run_portal_sleeping empty_world)))).
Proof.
  apply (stopping_inside_the_scope_fails_its_exit 0 1 false VNone empty_world).
  - discriminate.
  - reflexivity.
Defined.

(** ** The adapter, from enter to exit *)







Lemma pick_second w t d : forall ts i,
  runnable w t = true -> runnable w d = false ->
  pick w (ts ++ [t; d]) i = Some (i + length ts).
Proof.
  induction ts as [|t' ts IH]; intros i Ht Hd; cbn.
  - rewrite Hd, Ht. f_equal. lia.
  - rewrite IH by assumption. f_equal. lia.
Qed.





(** ** The adapter of wrap_async_context_manager, as a whole (C9) *)



(** ** start_task, when the task ends without reporting readiness (C4) *)

(** [start_task] with a task whose coroutine comes to its end without
    suspending and without calling [task_status.started()]: the call comes
    back with an exception, the task has finished, and both futures are
    resolved. *)
Lemma start_task_unready n tid g args es o w :
  (forall t, g args (Some t) = emit_all es (outcome_coro o)) ->
  _event_loop_thread_id (portal w) = Some loop_thread ->
  tid <> loop_thread ->
  exists w' F',
    start_task (invoke (S n)) (block (S (S n))) tid (coroutine_function g) args w
    = (Some (Raised (readiness_error (resolution_of o))), w')
    /\ tasks w' = tasks w ++ [mkTask [] Done]
    /\ futures w' !! S (length (futures w)) = Some (resolved (resolution_of o) F')
    /\ futures w' !! length (futures w)
       = Some (task_done_effect (resolved (resolution_of o) F') new_Future)
    /\ _result F' = None /\ _exception F' = None.
Proof.
  intros Hg Hid Htid.
  set (func := coroutine_function g).
  rewrite start_task_accepted by assumption.
  set (tsf := length (futures w)). set (f := S (length (futures w))).
  set (w1 := submitted_with_status func args w).
  set (F := mkFuture PENDING None None [task_done tsf]).
  assert (Hfs1 : futures w1 = futures w ++ [new_Future; F]) by reflexivity.
  assert (Ht1 : futures w1 !! tsf = Some new_Future)
    by (rewrite Hfs1; apply lookup_snoc2).
  assert (Hf1 : futures w1 !! f = Some F)
    by (rewrite Hfs1; apply lookup_snoc2).
  assert (Hne : tsf <> f) by (unfold tsf, f; lia).
  set (w1c := set_current [_task_group_cancel_scope (portal w)] w1).
  pose proof (call_func_prefix (invoke (S n)) func args (Some tsf)
                (g args (Some tsf)) f w1c F eq_refl Hf1) as Hpre.
  cbn zeta in Hpre. cbn [state_cancelled state_done _state F] in Hpre.
  set (cell := length (cells w1c)) in *. set (s := length (scopes w1c)) in *.
  set (F' := add_callback (callback_ cell) F) in *.
  set (w2 := set_futures (<[f:=F']> (futures w1c)) (entered false w1c)) in *.
  rewrite run_call_func_from, run_leave_CancelScope, Hg, run_emit_all,
    run_outcome_coro in Hpre.
  set (w3 := with_log (rev (map Emitted es) ++ log w2) w2) in *.
  set (w4 := set_current (tl (current w3)) w3).
  assert (Hleave : run_code (invoke (S n)) (leave_CancelScope s (outcome_coro o)) w3
                   = (Finished o, w4)).
  { unfold leave_CancelScope. destruct o as [v|e]; [reflexivity|].
    cbn [outcome_coro bind_coro run_code exec_action exc_of CancelScope_exit bind get
         modify ret].
    replace (cancel_called w3 s) with false.
    - rewrite andb_false_r. reflexivity.
    - unfold cancel_called, w3, w2, entered. cbn. unfold s.
      rewrite lookup_snoc. reflexivity. }
  rewrite Hleave in Hpre.
  assert (Hf4 : futures w4 !! f = Some F').
  { cbn. apply list_lookup_insert_eq. eapply lookup_lt_Some. exact Hf1. }
  assert (Ht4 : futures w4 !! tsf = Some new_Future).
  { cbn. rewrite list_lookup_insert_ne by congruence. exact Ht1. }
  destruct (run_handlers_pending n o f cell w4 F' (Some tsf) (Some cell) Hf4 eq_refl
              eq_refl) as (lg & Hh & Hlg).
  { exists new_Future. split; [exact Ht4|]. split; [reflexivity|discriminate]. }
  { right. destruct w; exact Hid. }
  rewrite Hh in Hpre.
  set (r := resolution_of o) in *.
  set (w5 := set_cells (<[cell:=None]> (cells w4))
               (after_resolution r f F' (Some tsf) lg w4)) in *.
  set (w6 := record_child_outcome (task_outcome_of o)
               (set_tasks (<[length (tasks w):=mkTask [] Done]> (tasks w5)) w5)).
  assert (Hturn : loop_turn (invoke (S n)) w1 = (Some (Val true), w6)).
  { rewrite (loop_turn_newest (invoke (S n)) w1 (tasks w)
               (spawned w func args (Some tsf) f)); [|reflexivity|reflexivity].
    cbn [bind]. unfold spawned.
    rewrite (run_child_finishes _ _ _ _ _ _ _ Hpre). reflexivity. }
  assert (Ht6 : futures w6 !! tsf = Some (task_done_effect (resolved r F') new_Future)).
  { transitivity (futures w5 !! tsf).
    - unfold w6, record_child_outcome. destruct (task_outcome_of o); reflexivity.
    - exact (after_resolution_readiness r f F' tsf new_Future lg w4 Hf4 Ht4 Hne). }
  assert (Hf6 : futures w6 !! f = Some (resolved r F')).
  { transitivity (futures w5 !! f).
    - unfold w6, record_child_outcome. destruct (task_outcome_of o); reflexivity.
    - exact (after_resolution_lookup r f F' (Some tsf) lg w4 Hf4). }
  assert (Hd : state_done (_state (task_done_effect (resolved r F') new_Future)) = true).
  { unfold task_done_effect. destruct r; reflexivity. }
  exists w6, F'. split.
  { unfold Future_result. cbn [bind].
    rewrite (block_turn (S n) tid _ w1 w6 Htid);
      [|unfold future_done; rewrite Ht1; reflexivity|exact Hturn].
    rewrite block_ready by (unfold future_done; rewrite Ht6; exact Hd).
    cbn [get_future]. rewrite Ht6. cbn [bind].
    unfold task_done_effect, readiness_error. destruct r; reflexivity. }
  split.
  { unfold w6, record_child_outcome. destruct (task_outcome_of o); cbn;
      destruct w; cbn; apply insert_snoc. }
  split; [exact Hf6|]. split; [exact Ht6|]. split; reflexivity.
Qed.

(** The clauses of [_call_func] at the end of a task of [start_task] that
    never called [started], whenever that end comes: they resolve the
    completion future, [task_done] runs, and the readiness wait fails. *)
Lemma unready_end_fails_readiness n try_block o f tsf cell w w1 F T oc :
  run_code (invoke (S n)) try_block w = (Finished o, w1) ->
  futures w1 !! f = Some F ->
  _state F = PENDING ->
  _exception F = None ->
  _done_callbacks F = registered (Some tsf) oc ->
  futures w1 !! tsf = Some T ->
  _state T = PENDING ->
  _done_callbacks T = [] ->
  portal_bound w1 ->
  exists w',
    run_code (invoke (S n)) (_call_func_from try_block f cell) w
    = (Finished (task_outcome_of o), w')
    /\ forall m tid,
         Future_result (block m) tid tsf w'
         = (Some (Raised (readiness_error (resolution_of o))), w').
Proof.
  intros Hrun Hf Hst Hex Hcb Ht HsT HcT Hp.
  assert (Hts : readiness_future w1 (Some tsf)).
  { exists T. repeat split; [assumption..|congruence]. }
  rewrite run_call_func_from, Hrun.
  destruct (run_handlers_pending n o f cell w1 F (Some tsf) oc Hf Hst Hcb Hts Hp)
    as (lg & E & _).
  eexists. split; [exact E|]. intros m tid.
  pose proof (registered_distinct w1 f F tsf T oc Hf Ht Hcb HcT) as Hne.
  pose proof (after_resolution_readiness (resolution_of o) f F tsf T lg w1 Hf Ht Hne)
    as Hl.
  erewrite Future_result_done; [|exact Hl|].
  - unfold task_done_effect, terminal_outcome, readiness_error. rewrite HsT.
    destruct (resolution_of o) as [v|e|]; cbn; rewrite ?Hex; reflexivity.
  - unfold task_done_effect. rewrite HsT.
    destruct (resolution_of o) as [v|e|]; cbn; rewrite ?Hex; reflexivity.
Qed.

(** C4 as stated fails: a task started with [start_task] that raises an
    error of its own before calling [started] makes the readiness wait
    fail with that error, not with a RuntimeError. *)
Lemma readiness_wait_raises_task_error :
  let func := coroutine_function (fun _ _ => Throw (AppError 7)) in
  fst (start_task (invoke 2) (block 2) 1 func [] running_world)
  = Some (Raised (AppError 7)).
Proof. reflexivity. Qed.

(** C4, amended: [start_task] with a task that comes to its end without
    having called [task_status.started()].  Its completion future reaches
    a terminal state and the readiness wait fails, so that [start_task]
    raises in the calling thread: a cancellation error when the task was
    cancelled, the task's own exception when it raised one whose truth
    value is true, and the RuntimeError 'Task exited without calling
    task_status.started()' when the task returned, or raised an exception
    whose truth value is false.  Both the readiness future and the
    completion future are done by then.  This is shown through
    [start_task] as a whole for a task that ends in its first turn; for a
    task that ends later, after suspending, it is shown of the clauses of
    [_call_func] that run at its end, on the two futures as [start_task]
    created them. *)
Theorem readiness_wait_fails_by_terminal_state n tid g args es o w :
  (forall t, g args (Some t) = emit_all es (outcome_coro o)) ->
  _event_loop_thread_id (portal w) = Some loop_thread ->
  tid <> loop_thread ->
  let protocol_violation :=
    RuntimeError "Task exited without calling task_status.started()" in
  let readiness_failure o :=
    match o with
    | Val _ => protocol_violation
    | Raised e =>
        if isinstance_cancelled_exc_class e then CancelledError
        else if truthy_exn e then e
        else protocol_violation
    end in
  (exists w',
     start_task (invoke (S n)) (block (S (S n))) tid (coroutine_function g) args w
     = (Some (Raised (readiness_failure o)), w')
     /\ future_done (length (futures w)) w' = true
     /\ future_done (S (length (futures w))) w' = true
     /\ tasks w' = tasks w ++ [mkTask [] Done])
  /\ forall m rest o' f tsf cell w1 w2 F T oc,
       run_code (invoke (S m)) rest w1 = (Finished o', w2) ->
       futures w2 !! f = Some F ->
       _state F = PENDING ->
       _exception F = None ->
       _done_callbacks F = registered (Some tsf) oc ->
       futures w2 !! tsf = Some T ->
       _state T = PENDING ->
       _done_callbacks T = [] ->
       portal_bound w2 ->
       exists w',
         run_code (invoke (S m)) (_call_func_from rest f cell) w1
         = (Finished (task_outcome_of o'), w')
         /\ forall m' tid',
              Future_result (block m') tid' tsf w'
              = (Some (Raised (readiness_failure o')), w').
Proof.
  intros Hg Hid Htid pv rf.
  assert (Hrf : forall o0, readiness_error (resolution_of o0) = rf o0).
  { intros [v|e]; cbn [resolution_of readiness_error rf]; [reflexivity|].
    destruct (isinstance_cancelled_exc_class e); reflexivity. }
  split; cycle 1.
  { intros m rest o' f tsf cell w1 w2 F T oc Hrun Hf Hst Hex Hcb Ht HsT HcT Hp.
    destruct (unready_end_fails_readiness m rest o' f tsf cell w1 w2 F T oc
                Hrun Hf Hst Hex Hcb Ht HsT HcT Hp) as (w' & H1 & H2).
    exists w'. split; [exact H1|]. intros m' tid'. rewrite H2, Hrf. reflexivity. }
  destruct (start_task_unready n tid g args es o w Hg Hid Htid)
    as (w' & F' & Hrun & Hts & Hf & Ht & _).
  exists w'. split.
  { rewrite Hrun, Hrf. reflexivity. }
  split.
  { unfold future_done. rewrite Ht. unfold task_done_effect.
    destruct (resolution_of o); cbn; try reflexivity.
    destruct (_exception F'); reflexivity. }
  split; [|exact Hts].
  unfold future_done. rewrite Hf. destruct (resolution_of o); reflexivity.
Qed.

Lemma readiness_wait_witness :
  exists w',
    start_task (invoke 1) (block 2) 1 (coroutine_function (fun _ _ => Return VNone)) []
      running_world
    = (Some (Raised (RuntimeError "Task exited without calling task_status.started()")),
       w')
    /\ future_done 1 w' = true
    /\ future_done 2 w' = true
    /\ tasks w' = [mkTask [] Done].
Proof.
  refine (proj1 (readiness_wait_fails_by_terminal_state 0 1 (fun _ _ => Return VNone) [] []
           (Val VNone) running_world _ _ _)).
  - reflexivity.
  - reflexivity.
  - discriminate.
Defined.



(** ** More on whole submissions *)

(** X18: cancelling the future does not keep a plain function from
    running.  When the future is already cancelled as the task starts,
    [_call_func] still calls the function, once, with its side effects;
    only its return value or exception is dropped: no future changes and
    no cancel scope is created. *)
Theorem cancelled_plain_function_still_runs inv g args kwargs f w F :
  futures w !! f = Some F ->
  state_cancelled (_state F) = true ->
  run_code inv (_call_func (sync_function g) args kwargs f) w
  = (Finished (task_outcome_of (snd (g args))),
     mkWorld (futures w) (scopes w) (cells w ++ [None]) (events w) (cms w) (portal w)
             (tasks w) (host w) (current w)
             (rev (map Emitted (fst (g args))) ++ log w)).
Proof.
  intros Hf Hc.
  unfold _call_func, _call_func_try. cbn [call_function].
  destruct (g args) as [es o]. cbn [fst snd run_code stmt exec_action].
  rewrite run_call_func_from, run_emit_all, run_outcome_coro.
  match goal with |- run_code _ _ ?w1 = _ =>
    rewrite (run_handlers_cancelled inv o f (length (cells w)) w1 F Hf Hc)
  end.
  cbn. rewrite insert_snoc. reflexivity.
Qed.

Lemma cancelled_plain_function_witness :
  run_code (invoke 0)
    (_call_func (sync_function (fun _ => ([1; 2], Val (VInt 3)))) [] None 0)
    cancelled_world
  = (Finished (Val VNone),
     mkWorld [mkFuture CANCELLED None None []] [false] [None] [false] []
             (mkPortal (Some loop_thread) 0 0 true []) [] NoHost [0]
             [Emitted 2; Emitted 1]).
Proof.
  apply (cancelled_plain_function_still_runs (invoke 0)
           (fun _ => ([1; 2], Val (VInt 3))) [] None 0 cancelled_world
           (mkFuture CANCELLED None None [])); reflexivity.
Defined.

(** X19: a graceful exit of the scope lets a task that was submitted and
    not awaited finish.  When the block of [with start_blocking_portal()]
    hands a plain function to [start_task_soon] and leaves without waiting
    for the future, the exit still returns only after the function has run
    on the loop: the future holds its outcome, every side effect of the
    function is logged before the hosting thread is joined, and the
    hosting thread has ended.  The function must not raise a base
    exception outside [Exception] (such an exception leaves the task and
    fails the exit). *)
Theorem graceful_exit_lets_submitted_task_finish n tid g args w :
  tid <> loop_thread ->
  tasks w = [] ->
  task_outcome_of (snd (g args)) = Val VNone ->
  let body := (start_task_soon tid (sync_function g) args ;; ret VNone)%M in
  let f := S (S (length (futures w))) in
  exists wf before after,
    start_blocking_portal (invoke (S (S (S n)))) (block (S (S (S n)))) tid body w
    = (Some (Val VNone), wf)
    /\ futures wf !! f = Some (resolved (resolution_of (snd (g args))) new_Future)
    /\ host_exited wf = true
    /\ log wf = ThreadJoined :: after
                  ++ rev (map Emitted (fst (g args))) ++ before ++ log w.
Proof.
  intros Htid Hts Hok body f. unfold body. clear body.
  rewrite (bootstrap_sleeping (S (S n)) tid _ w Htid Hts).
  set (w1 := handed_over run_portal_sleeping w).
  set (rf := S (length (futures w))).
  set (func := sync_function g).
  pose proof (handed_over_serving w Hts) as Hs. fold w1 rf in Hs.
  destruct Hs as [Hid Hev [Hh Hdone Hrf Herr]].
  assert (Hf : length (futures w1) = f).
  { unfold w1, handed_over. cbn. rewrite length_app. cbn. unfold f. lia. }
  cbn [bind].
  rewrite (start_task_soon_accepted tid func args w1 Hid Htid). cbn [ret].
  set (w2 := submitted func args None w1).
  unfold finally, after_yield. cbn [bind].
  rewrite (call_portal_stop (S n) tid false w2 Hid Htid).
  set (w3 := after_call_stop false w2).
  set (tg := _task_group_cancel_scope (portal w1)).
  set (t := spawned w1 func args None f).
  assert (Hts3 : tasks w3 = [t; mkTask [] Done]).
  { unfold w3, after_call_stop, w2, submitted. cbn [tasks set_tasks set_futures].
    rewrite Hf. unfold w1 at 1. unfold handed_over. cbn [tasks]. rewrite Hts. reflexivity. }
  assert (Hf3 : futures w3 !! f = Some new_Future).
  { unfold w3, after_call_stop, w2, submitted. cbn [futures set_tasks set_futures].
    apply lookup_snoc_lt. rewrite <- Hf. apply lookup_snoc. }
  pose proof (run_call_func_plain (invoke (S (S n))) g args None f
                (set_current [tg] w3) Hf3) as Hrun.
  set (o := snd (g args)) in *. set (es := fst (g args)) in *.
  set (w4 := record_child_outcome (task_outcome_of o)
               (set_tasks (<[0:=mkTask [] Done]> (tasks (after_plain_function es o f
                                                     (set_current [tg] w3))))
                  (after_plain_function es o f (set_current [tg] w3)))).
  assert (Hturn : loop_turn (invoke (S (S n))) w3 = (Some (Val true), w4)).
  { unfold loop_turn. rewrite Hts3.
    pose proof (pick_second w3 t (mkTask [] Done) [] 0 eq_refl eq_refl) as Hp.
    cbn [app Nat.add length] in Hp. rewrite Hp.
    cbn [lookup list_lookup bind]. unfold t, spawned.
    change (_task_group_cancel_scope (portal w1)) with tg.
    rewrite (run_child_finishes _ _ _ _ _ _ _ Hrun). reflexivity. }
  assert (Hsl : host_sleeping rf w4).
  { unfold w4. rewrite Hok. split.
    - exact Hh.
    - cbn [record_child_outcome tasks set_tasks after_plain_function set_current].
      rewrite Hts3. reflexivity.
    - cbn. rewrite list_lookup_insert_ne by (unfold rf, f; lia).
      apply lookup_snoc_lt. apply lookup_snoc_lt. exact Hrf.
    - exact Herr. }
  assert (Hev4 : event_is_set w4 (_stop_event (portal w4)) = true).
  { unfold w4. rewrite Hok. unfold event_is_set. cbn.
    rewrite list_lookup_insert_eq by exact Hev. reflexivity. }
  assert (Hrf3 : futures w3 !! rf = Some (mkFuture RUNNING None None [])).
  { cbn. apply lookup_snoc_lt. apply lookup_snoc_lt. exact Hrf. }
  unfold Future_result. cbn [bind].
  rewrite (block_turn (S (S n)) tid _ w3 w4 Htid);
    [|unfold future_done; rewrite Hrf3; reflexivity|exact Hturn].
  rewrite (host_teardown n tid (future_done rf) rf w4 Htid Hsl Hev4).
  - assert (Hl : futures (host_ended rf w4) !! rf
                 = Some (mkFuture FINISHED (Some VNone) None [])).
    { cbn [host_ended futures]. apply list_lookup_insert_eq. eapply lookup_lt_Some.
      exact (hs_future _ _ Hsl). }
    cbn [get_future]. rewrite Hl.
    cbn [_state state_cancelled __get_result _exception _result bind ret].
    unfold executor_exit. cbn [bind].
    rewrite block_ready by reflexivity. cbn [bind modify].
    eexists. exists [StopCalled false], [StopCalled false].
    split; [reflexivity|]. split.
    { unfold w4. rewrite Hok. cbn.
      rewrite list_lookup_insert_ne by (unfold rf, f; lia).
      apply list_lookup_insert_eq. eapply lookup_lt_Some. exact Hf3. }
    split; [reflexivity|].
    unfold w4. rewrite Hok. reflexivity.
  - intros w' t' _ Hfs. unfold future_done.
    rewrite Hfs, (hs_future _ _ Hsl). reflexivity.
  - unfold future_done. cbn [host_ended futures].
    rewrite list_lookup_insert_eq
      by (eapply lookup_lt_Some; exact (hs_future _ _ Hsl)).
    reflexivity.
Qed.

Lemma graceful_exit_witness :
  exists wf before after,
    start_blocking_portal (invoke 3) (block 3) 1
      (start_task_soon 1 (sync_function (fun _ => ([7; 8], Val (VInt 3)))) [] ;; ret VNone)%M
      empty_world
    = (Some (Val VNone), wf)
    /\ futures wf !! 2 = Some (mkFuture FINISHED (Some (VInt 3)) None [])
    /\ host_exited wf = true
    /\ log wf = ThreadJoined :: after ++ [Emitted 8; Emitted 7] ++ before ++ [].
Proof.
  apply (graceful_exit_lets_submitted_task_finish 0 1
           (fun _ => ([7; 8], Val (VInt 3))) [] empty_world).
  - discriminate.
  - reflexivity.
  - reflexivity.
Defined.
